(** * Velocitats: sensor fusion, braking detection and audio alerting

    A shallow embedding of the JavaScript sources of the Velocitats
    dashboard (audio engine, sensor manager, sensor simulator and the
    application orchestrator) together with the properties established
    for them.

    Number model.  A JavaScript Number is embedded as an exact rational
    extended with NaN and the two infinities.  Arithmetic is exact: the
    rounding of IEEE-754 binary64 and the sign of zero are not modelled.
    Everything else (NaN propagation, comparisons with NaN, division by
    zero, truncating remainder, [Math.round] rounding half up, truthiness
    of [0] and [NaN]) follows ECMAScript.

    Rounding.  A property is stated in a form binary64 keeps: what the
    code compares, ranges whose bounds are representable (rounding is
    monotone), orderings with a margin far above the rounding error, and
    exact values only where every intermediate result is representable
    (whole numbers of degrees, for instance).  Where the exact law and
    binary64 part, module [Binary64] evaluates the expression of the
    source on primitive floats.

    Environment.  What a function reads from outside is an argument of
    its embedding: the reading of [Date.now ()], the successive results
    of [Math.random ()], the functions of [Math] that leave the
    rationals, and whether a Web Audio call raises.  What it does outside
    (callbacks called, tones started, listeners and timers registered on
    the page) is part of the state it returns. *)

From Stdlib Require Import ZArith QArith Qround Qabs Qminmax Lia Lqa.
From Stdlib Require Import Bool List String Ascii DecimalString PrimFloat.
From Stdlib Require Import Sorted.
From Stdlib Require FloatOps SpecFloat.
Import ListNotations.

Open Scope Z_scope.

(* ================================================================== *)
(** * JavaScript values and Number operations *)
(* ================================================================== *)

Module JS.

Inductive number : Type :=
| Finite (q : Q)
| NaN
| PosInf
| NegInf.

(** The values a sample field may hold: a Number, or one of the two
    "absent" values. *)
Inductive value : Type :=
| Undefined
| Null
| Num (n : number).

Definition qzero (q : Q) : bool := Qeq_bool q 0.
Definition qneg (q : Q) : bool := negb (Qle_bool 0 q).
Definition qltb (a b : Q) : bool := negb (Qle_bool b a).

(** [isFinite] on a Number. *)
Definition is_finite (n : number) : bool :=
  match n with Finite _ => true | _ => false end.

(** Unary minus. *)
Definition neg (n : number) : number :=
  match n with
  | Finite q => Finite (- q)
  | NaN => NaN
  | PosInf => NegInf
  | NegInf => PosInf
  end.

(** [a + b]. *)
Definition add (a b : number) : number :=
  match a, b with
  | NaN, _ | _, NaN => NaN
  | Finite x, Finite y => Finite (x + y)
  | PosInf, NegInf | NegInf, PosInf => NaN
  | PosInf, _ | _, PosInf => PosInf
  | NegInf, _ | _, NegInf => NegInf
  end.

(** [a - b]. *)
Definition sub (a b : number) : number := add a (neg b).

(** Sign-directed infinity: the infinity of sign [s] ([true] is negative). *)
Definition inf_of_sign (s : bool) : number := if s then NegInf else PosInf.

(** [a * b]. *)
Definition mul (a b : number) : number :=
  match a, b with
  | NaN, _ | _, NaN => NaN
  | Finite x, Finite y => Finite (x * y)
  | Finite x, PosInf | PosInf, Finite x =>
      if qzero x then NaN else inf_of_sign (qneg x)
  | Finite x, NegInf | NegInf, Finite x =>
      if qzero x then NaN else inf_of_sign (negb (qneg x))
  | PosInf, PosInf | NegInf, NegInf => PosInf
  | PosInf, NegInf | NegInf, PosInf => NegInf
  end.

(** [a / b].  A finite non-zero dividend over zero yields the infinity of
    the dividend's sign (the divisor is read as [+0]). *)
Definition div (a b : number) : number :=
  match a, b with
  | NaN, _ | _, NaN => NaN
  | Finite x, Finite y =>
      if qzero y then (if qzero x then NaN else inf_of_sign (qneg x))
      else Finite (x / y)
  | Finite _, (PosInf | NegInf) => Finite 0
  | PosInf, Finite y => inf_of_sign (qneg y)
  | NegInf, Finite y => inf_of_sign (negb (qneg y))
  | (PosInf | NegInf), (PosInf | NegInf) => NaN
  end.

(** Rounding toward zero. *)
Definition Qtrunc (q : Q) : Z :=
  if Qle_bool 0 q then Qfloor q else Qceiling q.

(** [a % b]: the remainder has the sign of the dividend and is
    [a - b * trunc (a / b)]. *)
Definition rem (a b : number) : number :=
  match a, b with
  | NaN, _ | _, NaN => NaN
  | (PosInf | NegInf), _ => NaN
  | Finite x, (PosInf | NegInf) => Finite x
  | Finite x, Finite y =>
      if qzero y then NaN
      else Finite (x - y * inject_Z (Qtrunc (x / y)))
  end.

(** [a < b]; any comparison with NaN is false. *)
Definition lt (a b : number) : bool :=
  match a, b with
  | NaN, _ | _, NaN => false
  | Finite x, Finite y => qltb x y
  | _, NegInf => false
  | NegInf, _ => true
  | PosInf, _ => false
  | Finite _, PosInf => true
  end.

(** [a > b]. *)
Definition gt (a b : number) : bool := lt b a.

(** [a <= b]. *)
Definition le (a b : number) : bool :=
  match a, b with
  | NaN, _ | _, NaN => false
  | Finite x, Finite y => Qle_bool x y
  | NegInf, _ => true
  | _, PosInf => true
  | _, NegInf => false
  | PosInf, _ => false
  end.

(** [Math.min (a, b)]. *)
Definition Math_min (a b : number) : number :=
  match a, b with
  | NaN, _ | _, NaN => NaN
  | _, _ => if lt b a then b else a
  end.

(** [Math.max (a, b)]. *)
Definition Math_max (a b : number) : number :=
  match a, b with
  | NaN, _ | _, NaN => NaN
  | _, _ => if lt a b then b else a
  end.

(** [Math.abs]. *)
Definition Math_abs (a : number) : number :=
  match a with
  | Finite q => Finite (Qabs q)
  | NaN => NaN
  | PosInf | NegInf => PosInf
  end.

(** [Math.round]: the nearest integer, halves rounded toward +infinity. *)
Definition Math_round (a : number) : number :=
  match a with
  | Finite q => Finite (inject_Z (Qfloor (q + (1 # 2))))
  | other => other
  end.

(** ToNumber on the values of the model. *)
Definition to_number (v : value) : number :=
  match v with
  | Undefined => NaN
  | Null => Finite 0
  | Num n => n
  end.

(** ToBoolean: [undefined], [null], [0] and [NaN] are falsy. *)
Definition truthy (v : value) : bool :=
  match v with
  | Undefined | Null => false
  | Num NaN => false
  | Num (Finite q) => negb (qzero q)
  | Num _ => true
  end.

(** [v || d]. *)
Definition or_else (v d : value) : value := if truthy v then v else d.

(** The global [isFinite (v)], which coerces its argument with ToNumber. *)
Definition isFinite (v : value) : bool := is_finite (to_number v).

(** [v !== null && v !== undefined]. *)
Definition present (v : value) : bool :=
  match v with Undefined | Null => false | Num _ => true end.

(** [arr[i]] for a Number index: defined only at the integers
    [0 .. length-1]. *)
Definition index {A : Type} (arr : list A) (i : number) : option A :=
  match i with
  | Finite q =>
      if Qeq_bool q (inject_Z (Qfloor q)) && (0 <=? Qfloor q)
      then nth_error arr (Z.to_nat (Qfloor q))
      else None
  | _ => None
  end.

(** Equality of Numbers as values: rationals are compared by [Qeq]. *)
Definition num_eq (a b : number) : Prop :=
  match a, b with
  | Finite x, Finite y => x == y
  | NaN, NaN => True
  | PosInf, PosInf => True
  | NegInf, NegInf => True
  | _, _ => False
  end.

Definition of_Z (z : Z) : number := Finite (inject_Z z).

(** [a >= b]. *)
Definition ge (a b : number) : bool := le b a.

(** [Math.floor]. *)
Definition Math_floor (a : number) : number :=
  match a with
  | Finite q => Finite (inject_Z (Qfloor q))
  | other => other
  end.

(** The decimal digits of a natural number. *)
Definition digits (n : Z) : string :=
  NilZero.string_of_uint (N.to_uint (Z.to_N n)).

(** ToString of a Number that is an integer, as [Math.floor] returns, or
    is not finite.  Magnitudes from 10^21 on, which an engine prints in
    exponent notation, are outside the model. *)
Definition integral_toString (a : number) : string :=
  match a with
  | Finite q =>
      if (Qfloor q <? 0)%Z then ("-" ++ digits (- Qfloor q))%string
      else digits (Qfloor q)
  | NaN => "NaN"%string
  | PosInf => "Infinity"%string
  | NegInf => "-Infinity"%string
  end.

(** The integer [n] for which [n / 1000] is closest to [q], the larger
    one of two: the digits [toFixed (3)] prints for [q >= 0]. *)
Definition thousandths (q : Q) : Z := Qfloor (q * inject_Z 1000 + (1 # 2)).

(** Three digits, zero-padded. *)
Definition pad3 (n : Z) : string :=
  ((if (n <? 10)%Z then "00" else if (n <? 100)%Z then "0" else "")
   ++ digits n)%string.

(** [a.toFixed (3)], for magnitudes below 10^21. *)
Definition toFixed3 (a : number) : string :=
  match a with
  | Finite q =>
      let s := if qltb q 0 then "-"%string else ""%string in
      let n := thousandths (Qabs q) in
      (s ++ digits (n / 1000) ++ "." ++ pad3 (n mod 1000))%string
  | other => integral_toString other
  end.

End JS.

Notation "a ~= b" := (JS.num_eq a b) (at level 70, no associativity).

(* ================================================================== *)
(** * js/audio.js: the audio engine *)
(* ================================================================== *)

Module Audio.

Import JS.

(** One oscillator run scheduled on the audio graph, with the gain
    envelope [playBeep] programs: silence at [startTime], a linear ramp
    to 0.5 reached at [attackEnd], 0.5 held until [releaseStart], a
    linear ramp to silence at [endTime], where the oscillator stops. *)
Record Tone : Type := mkTone {
  wave : string;
  frequency : number;
  startTime : number;
  attackEnd : number;
  releaseStart : number;
  endTime : number
}.

(** The Web Audio context: its clock (seconds) and the tones started on
    its destination, most recent first. *)
Record AudioContext : Type := mkAudioContext {
  currentTime : number;
  tones : list Tone
}.

(** The fields of [AudioEngine].  [Date.now ()] is an integral number of
    milliseconds, so the two time fields are integers. *)
Record AudioEngine : Type := mkAudioEngine {
  audioContext : option AudioContext;
  isUnlocked : bool;
  lastBeepTime : Z;
  debounceMs : Z
}.

(** [constructor]. *)
Definition new : AudioEngine :=
  {| audioContext := None; isUnlocked := false;
     lastBeepTime := 0; debounceMs := 1000 |}.

(** [unlock].  [fresh] is what [new AudioContext ()] yields ([None] when
    it raises) and [fault] tells whether a later call of the [try] block
    raises.  The silent one-sample buffer is not a tone. *)
Definition unlock (fresh : option AudioContext) (fault : bool)
  (e : AudioEngine) : bool * AudioEngine :=
  if isUnlocked e then (true, e)
  else
    match fresh with
    | None => (false, e)
    | Some ctx =>
        let e1 := {| audioContext := Some ctx; isUnlocked := isUnlocked e;
                     lastBeepTime := lastBeepTime e;
                     debounceMs := debounceMs e |} in
        if fault then (false, e1)
        else (true, {| audioContext := Some ctx; isUnlocked := true;
                       lastBeepTime := lastBeepTime e;
                       debounceMs := debounceMs e |})
    end.

(** The tone the [try] block of [playBeep] programs. *)
Definition beep_tone (ctx : AudioContext) (frequency duration : number)
  (type : string) : Tone :=
  let startTime := currentTime ctx in
  let endTime := add startTime (div duration (of_Z 1000)) in
  {| wave := type;
     frequency := frequency;
     startTime := startTime;
     attackEnd := add startTime (Finite (1 # 100));
     releaseStart := sub endTime (Finite (5 # 100));
     endTime := endTime |}.

(** [playBeep (frequency, duration, type)].  [now] is the reading of
    [Date.now ()]; [fault] tells whether a Web Audio call of the [try]
    block raises, in which case no oscillator is started. *)
Definition playBeep (now : Z) (fault : bool)
  (frequency duration : number) (type : string)
  (e : AudioEngine) : bool * AudioEngine :=
  match isUnlocked e, audioContext e with
  | false, _ | _, None => (false, e)
  | true, Some ctx =>
      if now - lastBeepTime e <? debounceMs e then (false, e)
      else
        let e1 := {| audioContext := audioContext e;
                     isUnlocked := isUnlocked e;
                     lastBeepTime := now;
                     debounceMs := debounceMs e |} in
        if fault then (false, e1)
        else
          let ctx' :=
            {| currentTime := currentTime ctx;
               tones := beep_tone ctx frequency duration type :: tones ctx |} in
          (true, {| audioContext := Some ctx';
                    isUnlocked := isUnlocked e;
                    lastBeepTime := now;
                    debounceMs := debounceMs e |})
  end.

(** [playBrakeAlert]. *)
Definition playBrakeAlert (now : Z) (fault : bool) (e : AudioEngine)
  : bool * AudioEngine :=
  playBeep now fault (of_Z 880) (of_Z 150) "sine" e.

(** [setDebounce (ms)]. *)
Definition setDebounce (ms : Z) (e : AudioEngine) : AudioEngine :=
  {| audioContext := audioContext e; isUnlocked := isUnlocked e;
     lastBeepTime := lastBeepTime e; debounceMs := ms |}.

(** The tones started so far. *)
Definition tones_of (e : AudioEngine) : list Tone :=
  match audioContext e with
  | Some ctx => tones ctx
  | None => []
  end.

End Audio.

(* ================================================================== *)
(** * The samples exchanged between a sensor source and the application *)
(* ================================================================== *)

Module Samples.

Import JS.

(** The object handed to [onGpsUpdate]. *)
Record PositionSample : Type := mkPositionSample {
  latitude : value;
  longitude : value;
  speed : value;
  bearing : value;
  accuracy : value;
  timestamp : value
}.

(** The object handed to [onOrientationUpdate]. *)
Record OrientationSample : Type := mkOrientationSample {
  azimuth : value;
  initialAzimuth : value;
  beta : value;
  gamma : value
}.

(** The object handed to [onMotionUpdate]. *)
Record MotionSample : Type := mkMotionSample {
  x : number;
  y : number;
  z : number;
  magnitude : number;
  forward : number
}.

(** The sensors named in error reports and status updates. *)
Inductive Sensor : Type := gps | orientation | motion | wakelock.

(** A call of one of the callbacks a sensor source holds. *)
Inductive Delivery : Type :=
| GpsUpdate (data : PositionSample)
| OrientationUpdate (data : OrientationSample)
| MotionUpdate (data : MotionSample)
| SensorError (sensor : Sensor) (message : string).

(** The functions of [Math] that have no exact rational counterpart. *)
Record MathLib : Type := mkMathLib {
  Math_sqrt : number -> number;
  Math_sin : number -> number;
  Math_cos : number -> number;
  Math_PI : number
}.

End Samples.

(* ================================================================== *)
(** * sensors.js: the live sensor source *)
(* ================================================================== *)

(** The asynchronous [initialize] (permission prompts, the wait for the
    first fix) and the error callback of [watchPosition] are left out:
    the page is modelled from the calls [initialize] makes, [startGps],
    [startMotion] and [startOrientation]. *)

Module Sensors.

Import JS Samples.

(** ** The platform objects the manager talks to *)

Record Coordinates : Type := mkCoordinates {
  coords_latitude : value;
  coords_longitude : value;
  coords_speed : value;      (* null when the platform has no speed *)
  coords_heading : value;    (* null when the platform has no heading *)
  coords_accuracy : value
}.

Record GeolocationPosition : Type := mkGeolocationPosition {
  coords : Coordinates;
  position_timestamp : value
}.

Record DeviceOrientationEvent : Type := mkDeviceOrientationEvent {
  webkitCompassHeading : value;   (* undefined outside iOS *)
  alpha : value;
  event_beta : value;
  event_gamma : value;
  absolute : bool
}.

Record Acceleration : Type := mkAcceleration {
  ax : value;
  ay : value;
  az : value
}.

Record DeviceMotionEvent : Type := mkDeviceMotionEvent {
  acceleration : option Acceleration;
  accelerationIncludingGravity : option Acceleration
}.

Inductive EventType : Type :=
| deviceorientationabsolute
| deviceorientation
| devicemotion.

Definition EventType_eqb (a b : EventType) : bool :=
  match a, b with
  | deviceorientationabsolute, deviceorientationabsolute
  | deviceorientation, deviceorientation
  | devicemotion, devicemotion => true
  | _, _ => false
  end.

(** The two listeners the manager installs. *)
Inductive Handler : Type := orientationListener | motionListener.

(** The two liveness probes armed with [setTimeout (..., 2000)]. *)
Inductive Probe : Type := orientationProbe | motionProbe.

(** What the page holds on behalf of the manager: the active
    [watchPosition] subscriptions of [navigator.geolocation], the
    listeners on [window], and the pending timeouts. *)
Record Window : Type := mkWindow {
  has_geolocation : bool;
  has_ondeviceorientationabsolute : bool;
  watches : list nat;
  next_watch : nat;
  listeners : list (EventType * Handler);
  timeouts : list Probe
}.

(** ** The manager *)

(** The fields of [SensorManager].  The callbacks are closures over the
    application: only whether one is installed is recorded here, and the
    calls are returned as [Delivery]s.  The [let] variables the two
    listeners close over ([usingAbsolute], and one [hasReceivedData] per
    listener) are kept with the fields.  A field that holds [null] or a
    Number is a [value]. *)
Record SensorManager : Type := mkSensorManager {
  gpsWatchId : option nat;
  hasMotionPermission : bool;
  hasOrientationPermission : bool;
  onGpsUpdate : bool;
  onOrientationUpdate : bool;
  onMotionUpdate : bool;
  onError : bool;
  lastPosition : option PositionSample;
  lastAzimuth : value;
  lastAcceleration : option MotionSample;
  initialAzimuth : value;
  usingAbsolute : bool;
  orientationReceived : bool;
  motionReceived : bool
}.

Definition set_gpsWatchId (v : option nat) (m : SensorManager)
  : SensorManager :=
  mkSensorManager v (hasMotionPermission m) (hasOrientationPermission m)
    (onGpsUpdate m) (onOrientationUpdate m) (onMotionUpdate m) (onError m)
    (lastPosition m) (lastAzimuth m) (lastAcceleration m) (initialAzimuth m)
    (usingAbsolute m) (orientationReceived m) (motionReceived m).

Definition set_hasMotionPermission (v : bool) (m : SensorManager)
  : SensorManager :=
  mkSensorManager (gpsWatchId m) v (hasOrientationPermission m)
    (onGpsUpdate m) (onOrientationUpdate m) (onMotionUpdate m) (onError m)
    (lastPosition m) (lastAzimuth m) (lastAcceleration m) (initialAzimuth m)
    (usingAbsolute m) (orientationReceived m) (motionReceived m).

Definition set_hasOrientationPermission (v : bool) (m : SensorManager)
  : SensorManager :=
  mkSensorManager (gpsWatchId m) (hasMotionPermission m) v (onGpsUpdate m)
    (onOrientationUpdate m) (onMotionUpdate m) (onError m) (lastPosition m)
    (lastAzimuth m) (lastAcceleration m) (initialAzimuth m)
    (usingAbsolute m) (orientationReceived m) (motionReceived m).

Definition set_lastPosition (v : option PositionSample) (m : SensorManager)
  : SensorManager :=
  mkSensorManager (gpsWatchId m) (hasMotionPermission m)
    (hasOrientationPermission m) (onGpsUpdate m) (onOrientationUpdate m)
    (onMotionUpdate m) (onError m) v (lastAzimuth m) (lastAcceleration m)
    (initialAzimuth m) (usingAbsolute m) (orientationReceived m)
    (motionReceived m).

Definition set_lastAzimuth (v : value) (m : SensorManager) : SensorManager :=
  mkSensorManager (gpsWatchId m) (hasMotionPermission m)
    (hasOrientationPermission m) (onGpsUpdate m) (onOrientationUpdate m)
    (onMotionUpdate m) (onError m) (lastPosition m) v (lastAcceleration m)
    (initialAzimuth m) (usingAbsolute m) (orientationReceived m)
    (motionReceived m).

Definition set_lastAcceleration (v : option MotionSample) (m : SensorManager)
  : SensorManager :=
  mkSensorManager (gpsWatchId m) (hasMotionPermission m)
    (hasOrientationPermission m) (onGpsUpdate m) (onOrientationUpdate m)
    (onMotionUpdate m) (onError m) (lastPosition m) (lastAzimuth m) v
    (initialAzimuth m) (usingAbsolute m) (orientationReceived m)
    (motionReceived m).

Definition set_initialAzimuth (v : value) (m : SensorManager)
  : SensorManager :=
  mkSensorManager (gpsWatchId m) (hasMotionPermission m)
    (hasOrientationPermission m) (onGpsUpdate m) (onOrientationUpdate m)
    (onMotionUpdate m) (onError m) (lastPosition m) (lastAzimuth m)
    (lastAcceleration m) v (usingAbsolute m) (orientationReceived m)
    (motionReceived m).

Definition set_usingAbsolute (v : bool) (m : SensorManager) : SensorManager :=
  mkSensorManager (gpsWatchId m) (hasMotionPermission m)
    (hasOrientationPermission m) (onGpsUpdate m) (onOrientationUpdate m)
    (onMotionUpdate m) (onError m) (lastPosition m) (lastAzimuth m)
    (lastAcceleration m) (initialAzimuth m) v (orientationReceived m)
    (motionReceived m).

Definition set_orientationReceived (v : bool) (m : SensorManager)
  : SensorManager :=
  mkSensorManager (gpsWatchId m) (hasMotionPermission m)
    (hasOrientationPermission m) (onGpsUpdate m) (onOrientationUpdate m)
    (onMotionUpdate m) (onError m) (lastPosition m) (lastAzimuth m)
    (lastAcceleration m) (initialAzimuth m) (usingAbsolute m) v
    (motionReceived m).

Definition set_motionReceived (v : bool) (m : SensorManager)
  : SensorManager :=
  mkSensorManager (gpsWatchId m) (hasMotionPermission m)
    (hasOrientationPermission m) (onGpsUpdate m) (onOrientationUpdate m)
    (onMotionUpdate m) (onError m) (lastPosition m) (lastAzimuth m)
    (lastAcceleration m) (initialAzimuth m) (usingAbsolute m)
    (orientationReceived m) v.

(** [constructor]. *)
Definition new : SensorManager :=
  {| gpsWatchId := None;
     hasMotionPermission := false;
     hasOrientationPermission := false;
     onGpsUpdate := false;
     onOrientationUpdate := false;
     onMotionUpdate := false;
     onError := false;
     lastPosition := None;
     lastAzimuth := Null;
     lastAcceleration := None;
     initialAzimuth := Null;
     usingAbsolute := false;
     orientationReceived := false;
     motionReceived := false |}.

(** The callbacks [VelocitatsApp.start] installs on a live source. *)
Definition install_callbacks (m : SensorManager) : SensorManager :=
  {| gpsWatchId := gpsWatchId m;
     hasMotionPermission := hasMotionPermission m;
     hasOrientationPermission := hasOrientationPermission m;
     onGpsUpdate := true;
     onOrientationUpdate := true;
     onMotionUpdate := true;
     onError := true;
     lastPosition := lastPosition m;
     lastAzimuth := lastAzimuth m;
     lastAcceleration := lastAcceleration m;
     initialAzimuth := initialAzimuth m;
     usingAbsolute := usingAbsolute m;
     orientationReceived := orientationReceived m;
     motionReceived := motionReceived m |}.

Definition set_watches (ws : list nat) (n : nat) (w : Window) : Window :=
  {| has_geolocation := has_geolocation w;
     has_ondeviceorientationabsolute := has_ondeviceorientationabsolute w;
     watches := ws;
     next_watch := n;
     listeners := listeners w;
     timeouts := timeouts w |}.

Definition set_listeners (ls : list (EventType * Handler)) (w : Window)
  : Window :=
  {| has_geolocation := has_geolocation w;
     has_ondeviceorientationabsolute := has_ondeviceorientationabsolute w;
     watches := watches w;
     next_watch := next_watch w;
     listeners := ls;
     timeouts := timeouts w |}.

Definition set_timeouts (ts : list Probe) (w : Window) : Window :=
  {| has_geolocation := has_geolocation w;
     has_ondeviceorientationabsolute := has_ondeviceorientationabsolute w;
     watches := watches w;
     next_watch := next_watch w;
     listeners := listeners w;
     timeouts := ts |}.

(** [handleError (sensor, message)]. *)
Definition handleError (sensor : Sensor) (message : string)
  (m : SensorManager) : list Delivery :=
  if onError m then [SensorError sensor message] else [].

(** [startGps], up to the call of [watchPosition]: the subscription is
    registered and its identifier stored. *)
Definition startGps (m : SensorManager) (w : Window)
  : SensorManager * Window :=
  if negb (has_geolocation w) then (m, w)
  else
    let id := next_watch w in
    (set_gpsWatchId (Some id) m, set_watches (id :: watches w) (S id) w).

(** The sample the success callback of [watchPosition] builds. *)
Definition position_sample (position : GeolocationPosition)
  : PositionSample :=
  {| latitude := coords_latitude (coords position);
     longitude := coords_longitude (coords position);
     speed := or_else (coords_speed (coords position)) (Num (Finite 0));
     bearing := or_else (coords_heading (coords position)) (Num (Finite 0));
     accuracy := coords_accuracy (coords position);
     timestamp := position_timestamp position |}.

(** The success callback of [watchPosition]. *)
Definition onPosition (position : GeolocationPosition) (m : SensorManager)
  : SensorManager * list Delivery :=
  let sample := position_sample position in
  (set_lastPosition (Some sample) m,
   if onGpsUpdate m then [GpsUpdate sample] else []).

(** The azimuth [handleOrientation] reads from an event; [None] when the
    event carries no usable data. *)
Definition event_azimuth (event : DeviceOrientationEvent)
  (m : SensorManager) : option value :=
  match webkitCompassHeading event with
  | Undefined =>
      match alpha event with
      | Null => None
      | a =>
          if absolute event || usingAbsolute m
          then Some (Num (rem (sub (of_Z 360) (to_number a)) (of_Z 360)))
          else Some a
      end
  | heading => Some heading
  end.

(** The [handleOrientation] listener of [startOrientation].  Logging the
    first azimuth calls [toFixed] on it, which raises when the azimuth is
    not a Number: the listener then ends there. *)
Definition handleOrientation (event : DeviceOrientationEvent)
  (m : SensorManager) : SensorManager * list Delivery :=
  match event_azimuth event m with
  | None => (m, [])
  | Some azimuth =>
      if negb (orientationReceived m) && negb (present azimuth)
      then (set_orientationReceived true m, [])
      else
        let m1 := set_orientationReceived true m in
        let m2 := match initialAzimuth m1 with
                  | Null => set_initialAzimuth azimuth m1
                  | _ => m1
                  end in
        let m3 := set_lastAzimuth azimuth m2 in
        (m3,
         if onOrientationUpdate m3
         then [OrientationUpdate
                 {| Samples.azimuth := azimuth;
                    Samples.initialAzimuth := initialAzimuth m3;
                    beta := event_beta event;
                    gamma := event_gamma event |}]
         else [])
  end.

(** [startOrientation]. *)
Definition startOrientation (m : SensorManager) (w : Window)
  : SensorManager * Window :=
  let m0 := set_orientationReceived false (set_usingAbsolute false m) in
  let '(m1, w1) :=
    if has_ondeviceorientationabsolute w
    then (set_usingAbsolute true m0,
          set_listeners
            ((deviceorientationabsolute, orientationListener) :: listeners w) w)
    else (m0,
          set_listeners
            ((deviceorientation, orientationListener) :: listeners w) w) in
  (set_hasOrientationPermission true m1,
   set_timeouts (orientationProbe :: timeouts w1) w1).

(** [accel.c || 0] read as a Number. *)
Definition axis (c : value) : number :=
  to_number (or_else c (Num (Finite 0))).

(** The [handleMotion] listener of [startMotion]. *)
Definition handleMotion (M : MathLib) (event : DeviceMotionEvent)
  (m : SensorManager) : SensorManager * list Delivery :=
  let accel :=
    match acceleration event with
    | Some a => Some a
    | None => accelerationIncludingGravity event
    end in
  match accel with
  | None => (m, [])
  | Some a =>
      match ax a, ay a, az a with
      | Null, Null, Null => (m, [])
      | _, _, _ =>
          let magnitude :=
            Math_sqrt M
              (add (add (mul (axis (ax a)) (axis (ax a)))
                        (mul (axis (ay a)) (axis (ay a))))
                   (mul (axis (az a)) (axis (az a)))) in
          let forwardAccel := axis (ay a) in
          let sample :=
            {| x := axis (ax a); y := axis (ay a); z := axis (az a);
               Samples.magnitude := magnitude;
               forward := forwardAccel |} in
          let m1 := set_lastAcceleration (Some sample)
                      (set_motionReceived true m) in
          (m1, if onMotionUpdate m1 then [MotionUpdate sample] else [])
      end
  end.

(** [startMotion]. *)
Definition startMotion (m : SensorManager) (w : Window)
  : SensorManager * Window :=
  let m0 := set_motionReceived false m in
  let w1 := set_listeners ((devicemotion, motionListener) :: listeners w) w in
  (set_hasMotionPermission true m0,
   set_timeouts (motionProbe :: timeouts w1) w1).

(** The body of a liveness probe. *)
Definition on_probe (p : Probe) (m : SensorManager) : list Delivery :=
  match p with
  | orientationProbe =>
      if negb (orientationReceived m)
      then handleError orientation "Compass not available on this device" m
      else []
  | motionProbe =>
      if negb (motionReceived m)
      then handleError motion "Accelerometer not available on this device" m
      else []
  end.

(** [stop]. *)
Definition stop (m : SensorManager) (w : Window) : SensorManager * Window :=
  match gpsWatchId m with
  | Some id =>
      (set_gpsWatchId None m,
       set_watches (filter (fun i => negb (Nat.eqb i id)) (watches w))
                   (next_watch w) w)
  | None => (m, w)
  end.

(** ** The page delivering events to the manager *)

(** What the platform may do next: report a fix on a [watchPosition]
    subscription, fire a [window] event, or run a pending timeout. *)
Inductive PlatformEvent : Type :=
| PositionFix (id : nat) (position : GeolocationPosition)
| Orientation (type : EventType) (event : DeviceOrientationEvent)
| Motion (event : DeviceMotionEvent)
| Timeout (p : Probe).

Definition Handler_eqb (a b : Handler) : bool :=
  match a, b with
  | orientationListener, orientationListener
  | motionListener, motionListener => true
  | _, _ => false
  end.

Definition Probe_eqb (a b : Probe) : bool :=
  match a, b with
  | orientationProbe, orientationProbe | motionProbe, motionProbe => true
  | _, _ => false
  end.

(** Is handler [h] listening to events of type [t]? *)
Definition listening (t : EventType) (h : Handler) (w : Window) : bool :=
  existsb (fun l => EventType_eqb (fst l) t && Handler_eqb (snd l) h)
          (listeners w).

(** Removes the first occurrence of a probe from the pending timeouts. *)
Fixpoint remove_probe (p : Probe) (ts : list Probe) : list Probe :=
  match ts with
  | [] => []
  | t :: rest => if Probe_eqb t p then rest else t :: remove_probe p rest
  end.

(** The platform runs the code subscribed to an event, if any is.  The
    page is one on which [startOrientation] and [startMotion] have each
    been called at most once: a second call would register a second
    closure, with a [hasReceivedData] of its own, and the platform would
    run both. *)
Definition dispatch (M : MathLib) (ev : PlatformEvent)
  (m : SensorManager) (w : Window)
  : SensorManager * Window * list Delivery :=
  match ev with
  | PositionFix id position =>
      if existsb (Nat.eqb id) (watches w)
      then let '(m', ds) := onPosition position m in (m', w, ds)
      else (m, w, [])
  | Orientation t event =>
      if listening t orientationListener w
      then let '(m', ds) := handleOrientation event m in (m', w, ds)
      else (m, w, [])
  | Motion event =>
      if listening devicemotion motionListener w
      then let '(m', ds) := handleMotion M event m in (m', w, ds)
      else (m, w, [])
  | Timeout p =>
      if existsb (Probe_eqb p) (timeouts w)
      then (m, set_timeouts (remove_probe p (timeouts w)) w, on_probe p m)
      else (m, w, [])
  end.

(** ** Static helpers *)

Definition directions : list string :=
  ["N"; "NE"; "E"; "SE"; "S"; "SW"; "W"; "NW"; "N"]%string.

(** [SensorManager.bearingToCardinal (bearing)]; [None] is [undefined]. *)
Definition bearingToCardinal (bearing : number) : option string :=
  let index := Math_round (div bearing (of_Z 45)) in
  JS.index directions index.

(** The double quote that closes the seconds. *)
Definition dquote : string := String "034"%char EmptyString.

(** [SensorManager.toDMS (decimal, isLatitude)]. *)
Definition toDMS (decimal : value) (isLatitude : bool) : string :=
  let absolute := Math_abs (to_number decimal) in
  let degrees := Math_floor absolute in
  let minutesFloat := mul (sub absolute degrees) (of_Z 60) in
  let minutes := Math_floor minutesFloat in
  let seconds := toFixed3 (mul (sub minutesFloat minutes) (of_Z 60)) in
  let direction :=
    if isLatitude
    then (if ge (to_number decimal) (of_Z 0) then "N" else "S")%string
    else (if ge (to_number decimal) (of_Z 0) then "E" else "W")%string in
  (integral_toString degrees ++ "° " ++ integral_toString minutes ++ "' "
   ++ seconds ++ dquote ++ " " ++ direction)%string.

(** The platform works through a list of events, oldest first; the
    calls made on the callbacks are collected in order. *)
Fixpoint dispatch_all (M : MathLib) (evs : list PlatformEvent)
  (m : SensorManager) (w : Window)
  : SensorManager * Window * list Delivery :=
  match evs with
  | [] => (m, w, [])
  | ev :: rest =>
      let '(m1, w1, ds1) := dispatch M ev m w in
      let '(m2, w2, ds2) := dispatch_all M rest m1 w1 in
      (m2, w2, ds1 ++ ds2)
  end.

End Sensors.

(* ================================================================== *)
(** * simulator.js: the synthetic sensor source *)
(* ================================================================== *)

Module Simulator.

Import JS Samples.

(** The values the [scenario] field takes. *)
Inductive Scenario : Type := cruise | accelerate | brake | stop.

(** The fields of [SensorSimulator].  As for the live source, only
    whether a callback is installed is recorded. *)
Record SensorSimulator : Type := mkSensorSimulator {
  isRunning : bool;
  intervalId : option positive;
  time : number;
  latitude : number;
  longitude : number;
  speed : number;
  bearing : number;
  azimuth : number;
  acceleration : number;
  scenario : Scenario;
  scenarioTime : number;
  onGpsUpdate : bool;
  onOrientationUpdate : bool;
  onMotionUpdate : bool
}.

Definition set_isRunning (v : bool) (s : SensorSimulator) : SensorSimulator :=
  mkSensorSimulator v (intervalId s) (time s) (latitude s) (longitude s)
    (speed s) (bearing s) (azimuth s) (acceleration s) (scenario s)
    (scenarioTime s) (onGpsUpdate s) (onOrientationUpdate s)
    (onMotionUpdate s).

Definition set_intervalId (v : option positive) (s : SensorSimulator)
  : SensorSimulator :=
  mkSensorSimulator (isRunning s) v (time s) (latitude s) (longitude s)
    (speed s) (bearing s) (azimuth s) (acceleration s) (scenario s)
    (scenarioTime s) (onGpsUpdate s) (onOrientationUpdate s)
    (onMotionUpdate s).

Definition set_time (v : number) (s : SensorSimulator) : SensorSimulator :=
  mkSensorSimulator (isRunning s) (intervalId s) v (latitude s)
    (longitude s) (speed s) (bearing s) (azimuth s) (acceleration s)
    (scenario s) (scenarioTime s) (onGpsUpdate s) (onOrientationUpdate s)
    (onMotionUpdate s).

Definition set_latitude (v : number) (s : SensorSimulator)
  : SensorSimulator :=
  mkSensorSimulator (isRunning s) (intervalId s) (time s) v (longitude s)
    (speed s) (bearing s) (azimuth s) (acceleration s) (scenario s)
    (scenarioTime s) (onGpsUpdate s) (onOrientationUpdate s)
    (onMotionUpdate s).

Definition set_longitude (v : number) (s : SensorSimulator)
  : SensorSimulator :=
  mkSensorSimulator (isRunning s) (intervalId s) (time s) (latitude s) v
    (speed s) (bearing s) (azimuth s) (acceleration s) (scenario s)
    (scenarioTime s) (onGpsUpdate s) (onOrientationUpdate s)
    (onMotionUpdate s).

Definition set_speed (v : number) (s : SensorSimulator) : SensorSimulator :=
  mkSensorSimulator (isRunning s) (intervalId s) (time s) (latitude s)
    (longitude s) v (bearing s) (azimuth s) (acceleration s) (scenario s)
    (scenarioTime s) (onGpsUpdate s) (onOrientationUpdate s)
    (onMotionUpdate s).

Definition set_bearing (v : number) (s : SensorSimulator) : SensorSimulator :=
  mkSensorSimulator (isRunning s) (intervalId s) (time s) (latitude s)
    (longitude s) (speed s) v (azimuth s) (acceleration s) (scenario s)
    (scenarioTime s) (onGpsUpdate s) (onOrientationUpdate s)
    (onMotionUpdate s).

Definition set_azimuth (v : number) (s : SensorSimulator) : SensorSimulator :=
  mkSensorSimulator (isRunning s) (intervalId s) (time s) (latitude s)
    (longitude s) (speed s) (bearing s) v (acceleration s) (scenario s)
    (scenarioTime s) (onGpsUpdate s) (onOrientationUpdate s)
    (onMotionUpdate s).

Definition set_acceleration (v : number) (s : SensorSimulator)
  : SensorSimulator :=
  mkSensorSimulator (isRunning s) (intervalId s) (time s) (latitude s)
    (longitude s) (speed s) (bearing s) (azimuth s) v (scenario s)
    (scenarioTime s) (onGpsUpdate s) (onOrientationUpdate s)
    (onMotionUpdate s).

Definition set_scenario (v : Scenario) (s : SensorSimulator)
  : SensorSimulator :=
  mkSensorSimulator (isRunning s) (intervalId s) (time s) (latitude s)
    (longitude s) (speed s) (bearing s) (azimuth s) (acceleration s) v
    (scenarioTime s) (onGpsUpdate s) (onOrientationUpdate s)
    (onMotionUpdate s).

Definition set_scenarioTime (v : number) (s : SensorSimulator)
  : SensorSimulator :=
  mkSensorSimulator (isRunning s) (intervalId s) (time s) (latitude s)
    (longitude s) (speed s) (bearing s) (azimuth s) (acceleration s)
    (scenario s) v (onGpsUpdate s) (onOrientationUpdate s)
    (onMotionUpdate s).

(** [constructor]. *)
Definition new : SensorSimulator :=
  {| isRunning := false;
     intervalId := None;
     time := Finite 0;
     latitude := Finite (413851 # 10000);
     longitude := Finite (21734 # 10000);
     speed := Finite 0;
     bearing := Finite 0;
     azimuth := Finite 0;
     acceleration := Finite 0;
     scenario := cruise;
     scenarioTime := Finite 0;
     onGpsUpdate := false;
     onOrientationUpdate := false;
     onMotionUpdate := false |}.

(** The callbacks [VelocitatsApp.start] installs on the simulator. *)
Definition install_callbacks (s : SensorSimulator) : SensorSimulator :=
  {| isRunning := isRunning s;
     intervalId := intervalId s;
     time := time s;
     latitude := latitude s;
     longitude := longitude s;
     speed := speed s;
     bearing := bearing s;
     azimuth := azimuth s;
     acceleration := acceleration s;
     scenario := scenario s;
     scenarioTime := scenarioTime s;
     onGpsUpdate := true;
     onOrientationUpdate := true;
     onMotionUpdate := true |}.

(** The intervals armed with [setInterval]; handles are positive. *)
Record Timers : Type := mkTimers {
  intervals : list positive;
  next_interval : positive
}.

(** [((a % 360) + 360) % 360]. *)
Definition wrap360 (a : number) : number :=
  rem (add (rem a (of_Z 360)) (of_Z 360)) (of_Z 360).

(** The simulation step, [1 / 30]. *)
Definition step : number := div (of_Z 1) (of_Z 30).

Section WithEnvironment.

(** [Math.sin], [Math.cos], [Math.sqrt] and [Math.PI]. *)
Variable M : MathLib.

(** The successive results of [Math.random ()]: the state of a run pairs
    the simulator with the number of draws made so far. *)
Variable random : nat -> number.

(** [updateScenario]. *)
Definition updateScenario (s : SensorSimulator) (n : nat)
  : SensorSimulator * nat :=
  let '(s', n') :=
    match scenario s with
    | accelerate =>
        let s1 := set_speed
                    (Math_min (add (speed s) (Finite (5 # 10))) (of_Z 15)) s in
        let s2 := set_acceleration (Finite (25 # 10)) s1 in
        if gt (scenarioTime s2) (of_Z 5)
        then (set_scenarioTime (Finite 0) (set_scenario cruise s2), n)
        else (s2, n)
    | cruise =>
        let s1 := set_acceleration
                    (mul (Math_sin M (mul (time s) (Finite (5 # 10))))
                         (Finite (5 # 10))) s in
        let s2 := set_bearing
                    (add (bearing s1)
                         (mul (Math_sin M (mul (time s1) (Finite (3 # 10))))
                              (Finite (5 # 10)))) s1 in
        let s3 := set_azimuth
                    (add (azimuth s2)
                         (mul (Math_sin M (mul (time s2) (Finite (2 # 10))))
                              (Finite (3 # 10)))) s2 in
        if gt (scenarioTime s3) (add (of_Z 8) (mul (random n) (of_Z 4)))
        then
          let s4 := if gt (random (S n)) (Finite (3 # 10))
                    then set_scenario brake s3
                    else set_scenario accelerate s3 in
          (set_scenarioTime (Finite 0) s4, S (S n))
        else (s3, S n)
    | brake =>
        let s1 := set_speed
                    (Math_max (sub (speed s) (Finite (25 # 10))) (of_Z 0)) s in
        let s2 := set_acceleration (neg (Finite (70 # 10))) s1 in
        if gt (scenarioTime s2) (of_Z 2) || le (speed s2) (of_Z 0)
        then (set_scenarioTime (Finite 0)
                (set_scenario
                   (if le (speed s2) (of_Z 0) then stop else cruise) s2), n)
        else (s2, n)
    | stop =>
        let s1 := set_speed (of_Z 0) s in
        let s2 := set_acceleration (of_Z 0) s1 in
        if gt (scenarioTime s2) (of_Z 3)
        then (set_scenarioTime (Finite 0) (set_scenario accelerate s2), n)
        else (s2, n)
    end in
  let s'' := set_bearing (wrap360 (bearing s')) s' in
  (set_azimuth (wrap360 (azimuth s'')) s'', n').

(** [updatePosition]. *)
Definition updatePosition (s : SensorSimulator) : SensorSimulator :=
  if le (speed s) (of_Z 0) then s
  else
    let dt := div (of_Z 1) (of_Z 30) in
    let distance := mul (speed s) dt in
    let bearingRad := div (mul (bearing s) (Math_PI M)) (of_Z 180) in
    let R := of_Z 6371000 in
    let latRad := div (mul (latitude s) (Math_PI M)) (of_Z 180) in
    let dLat := div (mul distance (Math_cos M bearingRad)) R in
    let dLng := div (mul distance (Math_sin M bearingRad))
                    (mul R (Math_cos M latRad)) in
    let s1 := set_latitude
                (add (latitude s)
                     (div (mul dLat (of_Z 180)) (Math_PI M))) s in
    set_longitude
      (add (longitude s1) (div (mul dLng (of_Z 180)) (Math_PI M))) s1.

(** [sendUpdates]; [now] is the reading of [Date.now ()]. *)
Definition sendUpdates (now : Z) (s : SensorSimulator) (n : nat)
  : list Delivery * nat :=
  let g :=
    if onGpsUpdate s
    then [GpsUpdate
            {| Samples.latitude := Num (latitude s);
               Samples.longitude := Num (longitude s);
               Samples.speed := Num (speed s);
               Samples.bearing := Num (bearing s);
               accuracy := Num (of_Z 5);
               timestamp := Num (of_Z now) |}]
    else [] in
  let o :=
    if onOrientationUpdate s
    then [OrientationUpdate
            {| Samples.azimuth := Num (azimuth s);
               initialAzimuth := Num (of_Z 0);
               beta := Num (of_Z 0);
               gamma := Num (of_Z 0) |}]
    else [] in
  if onMotionUpdate s
  then
    let noise := mul (sub (random n) (Finite (5 # 10))) (Finite (5 # 10)) in
    (g ++ o ++
     [MotionUpdate
        {| x := noise;
           y := add (acceleration s) noise;
           z := noise;
           magnitude := add (Math_abs (acceleration s))
                            (mul (random (S n)) (Finite (5 # 10)));
           forward := acceleration s |}],
     S (S n))
  else (g ++ o, n).

(** [tick]. *)
Definition tick (now : Z) (s : SensorSimulator) (n : nat)
  : SensorSimulator * nat * list Delivery :=
  let s1 := set_time (add (time s) (div (of_Z 1) (of_Z 30))) s in
  let s2 := set_scenarioTime
              (add (scenarioTime s1) (div (of_Z 1) (of_Z 30))) s1 in
  let '(s3, n1) := updateScenario s2 n in
  let s4 := updatePosition s3 in
  let '(ds, n2) := sendUpdates now s4 n1 in
  (s4, n2, ds).

(** The simulator as [tick] leaves it. *)
Definition after_tick (now : Z) (s : SensorSimulator) (n : nat)
  : SensorSimulator :=
  fst (fst (tick now s n)).

(** [k] successive ticks, the [i]-th of which reads the clock [clock i];
    the deliveries are dropped. *)
Fixpoint ticks (clock : nat -> Z) (k : nat) (s : SensorSimulator) (n : nat)
  : SensorSimulator * nat :=
  match k with
  | O => (s, n)
  | S k' =>
      let '(s', n') := ticks clock k' s n in
      let '(s'', n'', _) := tick (clock k') s' n' in
      (s'', n'')
  end.

(** The interval armed by [start] fires: the page runs [tick] when the
    interval is still armed. *)
Definition fire (id : positive) (now : Z) (s : SensorSimulator)
  (t : Timers) (n : nat) : SensorSimulator * nat * list Delivery :=
  if existsb (Pos.eqb id) (intervals t) then tick now s n else (s, n, []).

End WithEnvironment.

(** [start]. *)
Definition start (s : SensorSimulator) (t : Timers)
  : SensorSimulator * Timers :=
  if isRunning s then (s, t)
  else
    let id := next_interval t in
    (set_intervalId (Some id) (set_isRunning true s),
     {| intervals := id :: intervals t;
        next_interval := Pos.succ id |}).

(** [stop], named [stop_] beside the scenario of that name. *)
Definition stop_ (s : SensorSimulator) (t : Timers)
  : SensorSimulator * Timers :=
  let '(s1, t1) :=
    match intervalId s with
    | Some id =>
        (set_intervalId None s,
         {| intervals := filter (fun i => negb (Pos.eqb i id)) (intervals t);
            next_interval := next_interval t |})
    | None => (s, t)
    end in
  (set_isRunning false s1, t1).

(** [triggerBrake]. *)
Definition triggerBrake (s : SensorSimulator) : SensorSimulator :=
  set_scenarioTime (Finite 0) (set_scenario brake s).

End Simulator.

(* ================================================================== *)
(** * app.js: the application *)
(* ================================================================== *)

Module App.

Import JS Samples Audio.

(** ** The page *)

(** The class a status dot carries. *)
Inductive Status : Type := idle | active | error.

(** The class the acceleration card carries. *)
Inductive CardClass : Type := plain | braking | accelerating.

(** The ordinates of the [points] attribute of the velocity polygon,
    [100,tipY 94,baseY 100,midY 106,baseY]. *)
Record Points : Type := mkPoints {
  tipY : number;
  baseY : number;
  midY : number
}.

(** What the handlers write on the page.  A text that is a formatted
    Number is recorded by the Number that is formatted ([toFixed] and
    [toDMS] are not modelled); [northArrow] and [velocityArrow] hold the
    [rotate] set on the two arrows, and [brakeIndicator_hidden] whether
    the indicator carries the class [hidden]; an [acceleration] of
    [None] is the placeholder shown when the sensor is missing. *)
Record Elements : Type := mkElements {
  gpsStatus : Status;
  motionStatus : Status;
  wakelockStatus : Status;
  speedMs : number;
  speedKmh : number;
  bearing : number;
  bearingDirection : option string;
  acceleration : option number;
  accelStatus : string;
  accelCard : CardClass;
  latitude : value;
  longitude : value;
  northArrow : number;
  velocityArrow : number;
  velocityPolygon : Points;
  brakeIndicator_hidden : bool
}.

Definition set_gpsStatus (v : Status) (e : Elements) : Elements :=
  mkElements v (motionStatus e) (wakelockStatus e) (speedMs e) (speedKmh e)
    (bearing e) (bearingDirection e) (acceleration e) (accelStatus e)
    (accelCard e) (latitude e) (longitude e) (northArrow e)
    (velocityArrow e) (velocityPolygon e) (brakeIndicator_hidden e).

Definition set_motionStatus (v : Status) (e : Elements) : Elements :=
  mkElements (gpsStatus e) v (wakelockStatus e) (speedMs e) (speedKmh e)
    (bearing e) (bearingDirection e) (acceleration e) (accelStatus e)
    (accelCard e) (latitude e) (longitude e) (northArrow e)
    (velocityArrow e) (velocityPolygon e) (brakeIndicator_hidden e).

Definition set_wakelockStatus (v : Status) (e : Elements) : Elements :=
  mkElements (gpsStatus e) (motionStatus e) v (speedMs e) (speedKmh e)
    (bearing e) (bearingDirection e) (acceleration e) (accelStatus e)
    (accelCard e) (latitude e) (longitude e) (northArrow e)
    (velocityArrow e) (velocityPolygon e) (brakeIndicator_hidden e).

Definition set_speedMs (v : number) (e : Elements) : Elements :=
  mkElements (gpsStatus e) (motionStatus e) (wakelockStatus e) v
    (speedKmh e) (bearing e) (bearingDirection e) (acceleration e)
    (accelStatus e) (accelCard e) (latitude e) (longitude e) (northArrow e)
    (velocityArrow e) (velocityPolygon e) (brakeIndicator_hidden e).

Definition set_speedKmh (v : number) (e : Elements) : Elements :=
  mkElements (gpsStatus e) (motionStatus e) (wakelockStatus e) (speedMs e) v
    (bearing e) (bearingDirection e) (acceleration e) (accelStatus e)
    (accelCard e) (latitude e) (longitude e) (northArrow e)
    (velocityArrow e) (velocityPolygon e) (brakeIndicator_hidden e).

Definition set_bearing (v : number) (e : Elements) : Elements :=
  mkElements (gpsStatus e) (motionStatus e) (wakelockStatus e) (speedMs e)
    (speedKmh e) v (bearingDirection e) (acceleration e) (accelStatus e)
    (accelCard e) (latitude e) (longitude e) (northArrow e)
    (velocityArrow e) (velocityPolygon e) (brakeIndicator_hidden e).

Definition set_bearingDirection (v : option string) (e : Elements)
  : Elements :=
  mkElements (gpsStatus e) (motionStatus e) (wakelockStatus e) (speedMs e)
    (speedKmh e) (bearing e) v (acceleration e) (accelStatus e)
    (accelCard e) (latitude e) (longitude e) (northArrow e)
    (velocityArrow e) (velocityPolygon e) (brakeIndicator_hidden e).

Definition set_acceleration (v : option number) (e : Elements) : Elements :=
  mkElements (gpsStatus e) (motionStatus e) (wakelockStatus e) (speedMs e)
    (speedKmh e) (bearing e) (bearingDirection e) v (accelStatus e)
    (accelCard e) (latitude e) (longitude e) (northArrow e)
    (velocityArrow e) (velocityPolygon e) (brakeIndicator_hidden e).

Definition set_accelStatus (v : string) (e : Elements) : Elements :=
  mkElements (gpsStatus e) (motionStatus e) (wakelockStatus e) (speedMs e)
    (speedKmh e) (bearing e) (bearingDirection e) (acceleration e) v
    (accelCard e) (latitude e) (longitude e) (northArrow e)
    (velocityArrow e) (velocityPolygon e) (brakeIndicator_hidden e).

Definition set_accelCard (v : CardClass) (e : Elements) : Elements :=
  mkElements (gpsStatus e) (motionStatus e) (wakelockStatus e) (speedMs e)
    (speedKmh e) (bearing e) (bearingDirection e) (acceleration e)
    (accelStatus e) v (latitude e) (longitude e) (northArrow e)
    (velocityArrow e) (velocityPolygon e) (brakeIndicator_hidden e).

Definition set_latitude (v : value) (e : Elements) : Elements :=
  mkElements (gpsStatus e) (motionStatus e) (wakelockStatus e) (speedMs e)
    (speedKmh e) (bearing e) (bearingDirection e) (acceleration e)
    (accelStatus e) (accelCard e) v (longitude e) (northArrow e)
    (velocityArrow e) (velocityPolygon e) (brakeIndicator_hidden e).

Definition set_longitude (v : value) (e : Elements) : Elements :=
  mkElements (gpsStatus e) (motionStatus e) (wakelockStatus e) (speedMs e)
    (speedKmh e) (bearing e) (bearingDirection e) (acceleration e)
    (accelStatus e) (accelCard e) (latitude e) v (northArrow e)
    (velocityArrow e) (velocityPolygon e) (brakeIndicator_hidden e).

Definition set_northArrow (v : number) (e : Elements) : Elements :=
  mkElements (gpsStatus e) (motionStatus e) (wakelockStatus e) (speedMs e)
    (speedKmh e) (bearing e) (bearingDirection e) (acceleration e)
    (accelStatus e) (accelCard e) (latitude e) (longitude e) v
    (velocityArrow e) (velocityPolygon e) (brakeIndicator_hidden e).

Definition set_velocityArrow (v : number) (e : Elements) : Elements :=
  mkElements (gpsStatus e) (motionStatus e) (wakelockStatus e) (speedMs e)
    (speedKmh e) (bearing e) (bearingDirection e) (acceleration e)
    (accelStatus e) (accelCard e) (latitude e) (longitude e) (northArrow e)
    v (velocityPolygon e) (brakeIndicator_hidden e).

Definition set_velocityPolygon (v : Points) (e : Elements) : Elements :=
  mkElements (gpsStatus e) (motionStatus e) (wakelockStatus e) (speedMs e)
    (speedKmh e) (bearing e) (bearingDirection e) (acceleration e)
    (accelStatus e) (accelCard e) (latitude e) (longitude e) (northArrow e)
    (velocityArrow e) v (brakeIndicator_hidden e).

Definition set_brakeIndicator_hidden (v : bool) (e : Elements) : Elements :=
  mkElements (gpsStatus e) (motionStatus e) (wakelockStatus e) (speedMs e)
    (speedKmh e) (bearing e) (bearingDirection e) (acceleration e)
    (accelStatus e) (accelCard e) (latitude e) (longitude e) (northArrow e)
    (velocityArrow e) (velocityPolygon e) v.

(** ** The application object *)

(** The fields of [VelocitatsApp] the handlers use.  The two sensor
    sources it owns are kept beside it, see [Sensors] and [Simulator]. *)
Record VelocitatsApp : Type := mkVelocitatsApp {
  audio : AudioEngine;
  isSimulating : bool;
  SPEED_THRESHOLD : number;
  BRAKE_THRESHOLD : number;
  elements : Elements;
  currentSpeed : number;
  currentBearing : number;
  currentAzimuth : number;
  currentAcceleration : number;
  isBraking : bool
}.

Definition set_audio (v : AudioEngine) (a : VelocitatsApp) : VelocitatsApp :=
  mkVelocitatsApp v (isSimulating a) (SPEED_THRESHOLD a) (BRAKE_THRESHOLD a)
    (elements a) (currentSpeed a) (currentBearing a) (currentAzimuth a)
    (currentAcceleration a) (isBraking a).

Definition set_SPEED_THRESHOLD (v : number) (a : VelocitatsApp)
  : VelocitatsApp :=
  mkVelocitatsApp (audio a) (isSimulating a) v (BRAKE_THRESHOLD a)
    (elements a) (currentSpeed a) (currentBearing a) (currentAzimuth a)
    (currentAcceleration a) (isBraking a).

Definition set_BRAKE_THRESHOLD (v : number) (a : VelocitatsApp)
  : VelocitatsApp :=
  mkVelocitatsApp (audio a) (isSimulating a) (SPEED_THRESHOLD a) v
    (elements a) (currentSpeed a) (currentBearing a) (currentAzimuth a)
    (currentAcceleration a) (isBraking a).

Definition set_elements (v : Elements) (a : VelocitatsApp) : VelocitatsApp :=
  mkVelocitatsApp (audio a) (isSimulating a) (SPEED_THRESHOLD a)
    (BRAKE_THRESHOLD a) v (currentSpeed a) (currentBearing a)
    (currentAzimuth a) (currentAcceleration a) (isBraking a).

Definition set_currentSpeed (v : number) (a : VelocitatsApp)
  : VelocitatsApp :=
  mkVelocitatsApp (audio a) (isSimulating a) (SPEED_THRESHOLD a)
    (BRAKE_THRESHOLD a) (elements a) v (currentBearing a) (currentAzimuth a)
    (currentAcceleration a) (isBraking a).

Definition set_currentBearing (v : number) (a : VelocitatsApp)
  : VelocitatsApp :=
  mkVelocitatsApp (audio a) (isSimulating a) (SPEED_THRESHOLD a)
    (BRAKE_THRESHOLD a) (elements a) (currentSpeed a) v (currentAzimuth a)
    (currentAcceleration a) (isBraking a).

Definition set_currentAzimuth (v : number) (a : VelocitatsApp)
  : VelocitatsApp :=
  mkVelocitatsApp (audio a) (isSimulating a) (SPEED_THRESHOLD a)
    (BRAKE_THRESHOLD a) (elements a) (currentSpeed a) (currentBearing a) v
    (currentAcceleration a) (isBraking a).

Definition set_currentAcceleration (v : number) (a : VelocitatsApp)
  : VelocitatsApp :=
  mkVelocitatsApp (audio a) (isSimulating a) (SPEED_THRESHOLD a)
    (BRAKE_THRESHOLD a) (elements a) (currentSpeed a) (currentBearing a)
    (currentAzimuth a) v (isBraking a).

Definition set_isBraking (v : bool) (a : VelocitatsApp) : VelocitatsApp :=
  mkVelocitatsApp (audio a) (isSimulating a) (SPEED_THRESHOLD a)
    (BRAKE_THRESHOLD a) (elements a) (currentSpeed a) (currentBearing a)
    (currentAzimuth a) (currentAcceleration a) v.

(** [constructor], on a page showing [page]. *)
Definition new (page : Elements) : VelocitatsApp :=
  {| audio := Audio.new;
     isSimulating := false;
     SPEED_THRESHOLD := Finite (5 # 10);
     BRAKE_THRESHOLD := neg (Finite (20 # 10));
     elements := page;
     currentSpeed := Finite 0;
     currentBearing := Finite 0;
     currentAzimuth := Finite 0;
     currentAcceleration := Finite 0;
     isBraking := false |}.

(** Applies [f] to the page of the application. *)
Definition on_page (f : Elements -> Elements) (a : VelocitatsApp)
  : VelocitatsApp :=
  set_elements (f (elements a)) a.

(** [updateStatusIndicator (sensor, active, error = false)]. *)
Definition updateStatusIndicator (sensor : Sensor) (is_active : bool)
  (is_error : bool) (a : VelocitatsApp) : VelocitatsApp :=
  let cls := if is_error then error else if is_active then active else idle in
  match sensor with
  | gps => on_page (set_gpsStatus cls) a
  | motion | orientation => on_page (set_motionStatus cls) a
  | wakelock => on_page (set_wakelockStatus cls) a
  end.

(** The rotation [updateVelocityArrow] computes. *)
Definition velocityRotation (a : VelocitatsApp) : number :=
  let rotation := sub (currentBearing a) (currentAzimuth a) in
  rem (add (rem rotation (of_Z 360)) (of_Z 360)) (of_Z 360).

(** The length [updateVelocityArrow] computes for a speed. *)
Definition arrowLength (speed : number) : number :=
  let minLength := of_Z 35 in
  let maxLength := of_Z 70 in
  let maxSpeed := of_Z 30 in
  let speedRatio := Math_min (div speed maxSpeed) (of_Z 1) in
  add minLength (mul (sub maxLength minLength) speedRatio).

(** [updateVelocityArrow]. *)
Definition updateVelocityArrow (a : VelocitatsApp) : VelocitatsApp :=
  let rotation := velocityRotation a in
  let arrowLength := arrowLength (currentSpeed a) in
  let tipY := sub (of_Z 100) arrowLength in
  let baseY := add (sub (of_Z 100) arrowLength) (of_Z 35) in
  let midY := add (sub (of_Z 100) arrowLength) (of_Z 25) in
  let a1 := on_page (set_velocityPolygon
                       {| tipY := tipY; baseY := baseY; midY := midY |}) a in
  on_page (set_velocityArrow rotation) a1.

(** [handleGpsUpdate (data)]. *)
Definition handleGpsUpdate (data : PositionSample) (a : VelocitatsApp)
  : VelocitatsApp :=
  let a1 := set_currentSpeed
              (to_number (or_else (Samples.speed data) (Num (Finite 0)))) a in
  let a2 := set_currentBearing
              (to_number (or_else (Samples.bearing data) (Num (Finite 0))))
              a1 in
  let a3 := on_page (set_speedMs (currentSpeed a2)) a2 in
  let a4 := on_page (set_speedKmh (mul (currentSpeed a3) (Finite (36 # 10))))
              a3 in
  let a5 :=
    if present (Samples.bearing data)
    then
      on_page (set_bearingDirection
                 (Sensors.bearingToCardinal
                    (to_number (Samples.bearing data))))
        (on_page (set_bearing
                    (Math_round (to_number (Samples.bearing data)))) a4)
    else a4 in
  let a6 := on_page (set_latitude (Samples.latitude data)) a5 in
  let a7 := on_page (set_longitude (Samples.longitude data)) a6 in
  let a8 := updateVelocityArrow a7 in
  updateStatusIndicator gps true false a8.

(** [handleOrientationUpdate (data)]. *)
Definition handleOrientationUpdate (data : OrientationSample)
  (a : VelocitatsApp) : VelocitatsApp :=
  if negb (isFinite (Samples.azimuth data)) then a
  else
    let azimuth :=
      rem (add (rem (to_number (Samples.azimuth data)) (of_Z 360))
               (of_Z 360))
          (of_Z 360) in
    let a1 := set_currentAzimuth azimuth a in
    let northRotation := neg azimuth in
    let a2 := on_page (set_northArrow northRotation) a1 in
    updateVelocityArrow a2.

(** [getAccelDescription (forward)]. *)
Definition getAccelDescription (forward : number) : string :=
  if lt forward (neg (of_Z 5)) then "Hard braking"
  else if lt forward (neg (of_Z 2)) then "Braking"
  else if gt forward (of_Z 5) then "Hard acceleration"
  else if gt forward (of_Z 2) then "Accelerating"
  else "Steady".

(** A call the application makes on the audio engine. *)
Inductive AudioRequest : Type := BrakeAlert.

(** [checkBraking (forwardAccel)].  [now] and [fault] are what the audio
    engine reads from its environment when it is called; the second
    component lists the alerts requested from the engine. *)
Definition checkBraking (now : Z) (fault : bool) (forwardAccel : number)
  (a : VelocitatsApp) : VelocitatsApp * list AudioRequest :=
  let isMoving := gt (currentSpeed a) (SPEED_THRESHOLD a) in
  let isHardBraking := lt forwardAccel (BRAKE_THRESHOLD a) in
  if isMoving && isHardBraking then
    if negb (isBraking a) then
      let a1 := set_isBraking true a in
      let a2 := set_audio (snd (playBrakeAlert now fault (audio a1))) a1 in
      (on_page (set_brakeIndicator_hidden false) a2, [BrakeAlert])
    else (a, [])
  else
    if isBraking a then
      let a1 := set_isBraking false a in
      (on_page (set_brakeIndicator_hidden true) a1, [])
    else (a, []).

(** [handleMotionUpdate (data)]. *)
Definition handleMotionUpdate (now : Z) (fault : bool) (data : MotionSample)
  (a : VelocitatsApp) : VelocitatsApp * list AudioRequest :=
  let a1 := set_currentAcceleration (forward data) a in
  let a2 := on_page (set_acceleration (Some (magnitude data))) a1 in
  let a3 := on_page (set_accelStatus (getAccelDescription (forward data)))
              a2 in
  let a4 := on_page (set_accelCard plain) a3 in
  let a5 :=
    if lt (forward data) (neg (of_Z 2))
    then on_page (set_accelCard braking) a4
    else if gt (forward data) (of_Z 2)
         then on_page (set_accelCard accelerating) a4
         else a4 in
  let a6 := updateStatusIndicator motion true false a5 in
  checkBraking now fault (forward data) a6.

(** [handleSensorError (sensor, message)]. *)
Definition handleSensorError (sensor : Sensor) (message : string)
  (a : VelocitatsApp) : VelocitatsApp :=
  let a1 := updateStatusIndicator sensor false true a in
  match sensor with
  | motion =>
      on_page (set_accelStatus "Not available")
        (on_page (set_acceleration None) a1)
  | _ => a1
  end.

(** A source calls one of the callbacks [start] installed. *)
Definition deliver (now : Z) (fault : bool) (d : Delivery)
  (a : VelocitatsApp) : VelocitatsApp * list AudioRequest :=
  match d with
  | GpsUpdate data => (handleGpsUpdate data a, [])
  | OrientationUpdate data => (handleOrientationUpdate data a, [])
  | MotionUpdate data => handleMotionUpdate now fault data a
  | SensorError sensor message => (handleSensorError sensor message a, [])
  end.

End App.

(* ================================================================== *)
(** * Inputs used to exercise the model *)
(* ================================================================== *)

Module Inputs.

Import JS Samples.

(** A page on which nothing has been written yet. *)
Definition blank_page : App.Elements :=
  {| App.gpsStatus := App.idle;
     App.motionStatus := App.idle;
     App.wakelockStatus := App.idle;
     App.speedMs := Finite 0;
     App.speedKmh := Finite 0;
     App.bearing := Finite 0;
     App.bearingDirection := None;
     App.acceleration := None;
     App.accelStatus := "";
     App.accelCard := App.plain;
     App.latitude := Undefined;
     App.longitude := Undefined;
     App.northArrow := Finite 0;
     App.velocityArrow := Finite 0;
     App.velocityPolygon :=
       {| App.tipY := Finite 0; App.baseY := Finite 0; App.midY := Finite 0 |};
     App.brakeIndicator_hidden := true |}.

(** A position sample at Barcelona with the given speed and bearing. *)
Definition position (speed bearing : value) : PositionSample :=
  {| latitude := Num (Finite (413851 # 10000));
     longitude := Num (Finite (21734 # 10000));
     Samples.speed := speed;
     Samples.bearing := bearing;
     accuracy := Num (of_Z 5);
     timestamp := Num (of_Z 1700000000000) |}.

(** An orientation sample of a device held flat. *)
Definition heading (azimuth : value) : OrientationSample :=
  {| Samples.azimuth := azimuth;
     initialAzimuth := Num (of_Z 0);
     beta := Num (of_Z 0);
     gamma := Num (of_Z 0) |}.

(** A motion sample along the travel axis only. *)
Definition thrust (forward : Q) : MotionSample :=
  {| x := Finite 0; y := Finite forward; z := Finite 0;
     magnitude := Finite (Qabs forward);
     Samples.forward := Finite forward |}.

(** An unlocked engine on an idle audio context, whose last beep started
    at [last]. *)
Definition armed (last : Z) : Audio.AudioEngine :=
  {| Audio.audioContext :=
       Some {| Audio.currentTime := Finite 0; Audio.tones := [] |};
     Audio.isUnlocked := true;
     Audio.lastBeepTime := last;
     Audio.debounceMs := 1000 |}.

(** A stand-in for [Math], of no numerical value: the properties below
    hold for every [MathLib], and an instance is only needed to run the
    model. *)
Definition flat_math : MathLib :=
  {| Math_sqrt := Math_abs;
     Math_sin := fun _ => Finite 0;
     Math_cos := fun _ => Finite 1;
     Math_PI := Finite (355 # 113) |}.

(** A [Math] whose sine and cosine are the rational parametrisation of
    the circle, [2 x / (1 + x^2)] and [(1 - x^2) / (1 + x^2)]: finite on
    the finite Numbers and NaN elsewhere, as those of ECMAScript are. *)
Definition circle_math : MathLib :=
  {| Math_sqrt := Math_abs;
     Math_sin := fun x => match x with
                          | Finite q => Finite (2 * q / (1 + q * q))
                          | _ => NaN
                          end;
     Math_cos := fun x => match x with
                          | Finite q => Finite ((1 - q * q) / (1 + q * q))
                          | _ => NaN
                          end;
     Math_PI := Finite (355 # 113) |}.

(** A source of random draws that always yields one half. *)
Definition halves : nat -> number := fun _ => Finite (1 # 2).

(** A clock ticking every 33 ms. *)
Definition clock33 : nat -> Z :=
  fun k => (1700000000000 + 33 * Z.of_nat k)%Z.

(** The simulator at rest at the start of an [accelerate] phase. *)
Definition at_rest_accelerating : Simulator.SensorSimulator :=
  Simulator.set_scenario Simulator.accelerate Simulator.new.

(** A page with geolocation and absolute orientation, nothing subscribed. *)
Definition fresh_window : Sensors.Window :=
  {| Sensors.has_geolocation := true;
     Sensors.has_ondeviceorientationabsolute := true;
     Sensors.watches := [];
     Sensors.next_watch := 1;
     Sensors.listeners := [];
     Sensors.timeouts := [] |}.

(** A [devicemotion] event: 3 m/s2 of deceleration along the y axis. *)
Definition braking_motion : Sensors.DeviceMotionEvent :=
  {| Sensors.acceleration :=
       Some {| Sensors.ax := Num (Finite 0);
               Sensors.ay := Num (Finite (- 3));
               Sensors.az := Num (Finite 0) |};
     Sensors.accelerationIncludingGravity := None |}.

(** A [deviceorientationabsolute] event of a device pointing east. *)
Definition facing_east : Sensors.DeviceOrientationEvent :=
  {| Sensors.webkitCompassHeading := Undefined;
     Sensors.alpha := Num (of_Z 270);
     Sensors.event_beta := Num (of_Z 0);
     Sensors.event_gamma := Num (of_Z 0);
     Sensors.absolute := true |}.

(** A fix at Barcelona with neither speed nor heading. *)
Definition standing_fix : Sensors.GeolocationPosition :=
  {| Sensors.coords :=
       {| Sensors.coords_latitude := Num (Finite (413851 # 10000));
          Sensors.coords_longitude := Num (Finite (21734 # 10000));
          Sensors.coords_speed := Null;
          Sensors.coords_heading := Null;
          Sensors.coords_accuracy := Num (of_Z 5) |};
     Sensors.position_timestamp := Num (of_Z 1700000000000) |}.

(** The live source with the application's callbacks installed, after
    [startGps], [startMotion] and [startOrientation], as [initialize]
    leaves it on Android. *)
Definition started : Sensors.SensorManager * Sensors.Window :=
  let '(m1, w1) :=
    Sensors.startGps (Sensors.install_callbacks Sensors.new) fresh_window in
  let '(m2, w2) := Sensors.startMotion m1 w1 in
  Sensors.startOrientation m2 w2.

(** The live source after [stop]. *)
Definition stopped : Sensors.SensorManager * Sensors.Window :=
  Sensors.stop (fst started) (snd started).

(** A [devicemotion] event from a device without accelerometer: the
    object is there, its axes are [null]. *)
Definition empty_motion : Sensors.DeviceMotionEvent :=
  {| Sensors.acceleration :=
       Some {| Sensors.ax := Null; Sensors.ay := Null; Sensors.az := Null |};
     Sensors.accelerationIncludingGravity :=
       Some {| Sensors.ax := Num (Finite 0);
               Sensors.ay := Num (Finite (- (98 # 10)));
               Sensors.az := Num (Finite 0) |} |}.

End Inputs.

(* ================================================================== *)
(** * Notions used to state the properties *)
(* ================================================================== *)

Open Scope Q_scope.

(** The rational [x % 360]. *)
Definition qrem360 (x : Q) : Q :=
  x - inject_Z 360 * inject_Z (JS.Qtrunc (x / inject_Z 360)).

(** The rational [((x % 360) + 360) % 360]. *)
Definition qwrap360 (x : Q) : Q := qrem360 (qrem360 x + inject_Z 360).

(** [r] is the representative in [[0, 360)] of the angle [x]. *)
Definition normalized (x r : Q) : Prop :=
  0 <= r < 360 /\ exists k : Z, r == x + 360 * inject_Z k.

(** [((x % 360) + 360) % 360], the normalisation the handlers write
    out. *)
Definition normalize360 (x : JS.number) : JS.number :=
  JS.rem (JS.add (JS.rem x (JS.of_Z 360)) (JS.of_Z 360)) (JS.of_Z 360).

(** The two arrows drawn on the page agree with the stored state: the
    north arrow is rotated by the opposite of the stored azimuth, and the
    velocity arrow by the stored bearing minus the stored azimuth,
    normalised, which is a Number in [[0, 360)]. *)
Definition vectors_agree (a : App.VelocitatsApp) : Prop :=
  exists b z r : Q,
    App.currentBearing a = JS.Finite b
    /\ App.currentAzimuth a = JS.Finite z
    /\ App.northArrow (App.elements a) = JS.neg (App.currentAzimuth a)
    /\ App.velocityArrow (App.elements a)
       = normalize360 (JS.sub (App.currentBearing a) (App.currentAzimuth a))
    /\ App.velocityArrow (App.elements a) = JS.Finite r
    /\ 0 <= r < 360.

(** The eight cardinal labels, clockwise from north: label [k] names
    the sector of 45 degrees centred on [45 * k]. *)
Definition compass : list string :=
  ["N"; "NE"; "E"; "SE"; "S"; "SW"; "W"; "NW"]%string.

(** The simulator at the point of a tick where [updateScenario] runs:
    both clocks have advanced by one step. *)
Definition clocked (s : Simulator.SensorSimulator)
  : Simulator.SensorSimulator :=
  Simulator.set_scenarioTime
    (JS.add (Simulator.scenarioTime s) Simulator.step)
    (Simulator.set_time (JS.add (Simulator.time s) Simulator.step) s).

(** The simulator [k] ticks into an [accelerate] phase entered at rest:
    [k / 30] seconds have elapsed and the speed is [min (k / 2, 15)]. *)
Definition accelerating_for (k : nat) (s : Simulator.SensorSimulator)
  : Prop :=
  Simulator.scenario s = Simulator.accelerate
  /\ Simulator.scenarioTime s ~= JS.Finite (inject_Z (Z.of_nat k) * (1 # 30))
  /\ Simulator.speed s
     ~= JS.Finite (Qmin (inject_Z (Z.of_nat k) * (1 # 2)) 15).

(** The elapsed scenario time in IEEE-754 binary64, as a JavaScript
    engine computes it: [k] additions of [1 / 30] starting from 0. *)
Definition binary64_elapsed (k : nat) : PrimFloat.float :=
  Nat.iter k
    (fun t => PrimFloat.add t (PrimFloat.div 1%float 30%float)) 0%float.

(** ** Binary64 *)

(** The expressions of the source whose rounding matters, on the
    primitive floats. *)
Module Binary64.

(** [x % y]: the remainder of the truncating division, with the sign of
    the dividend.  It is a multiple of the smaller of the two units in
    the last place and smaller than the divisor, hence representable: the
    operation is exact, and is computed on the integers. *)
Definition rem (x y : PrimFloat.float) : PrimFloat.float :=
  match FloatOps.Prim2SF x, FloatOps.Prim2SF y with
  | SpecFloat.S754_nan, _ | _, SpecFloat.S754_nan => PrimFloat.nan
  | SpecFloat.S754_infinity _, _ => PrimFloat.nan
  | _, SpecFloat.S754_zero _ => PrimFloat.nan
  | SpecFloat.S754_zero _, _ => x
  | SpecFloat.S754_finite _ _ _, SpecFloat.S754_infinity _ => x
  | SpecFloat.S754_finite sx mx ex, SpecFloat.S754_finite _ my ey =>
      let e := Z.min ex ey in
      let X := (Zpos mx * 2 ^ (ex - e))%Z in
      let Y := (Zpos my * 2 ^ (ey - e))%Z in
      let R := Z.rem X Y in
      FloatOps.SF2Prim
        (SpecFloat.binary_normalize FloatOps.prec FloatOps.emax
           (if sx then (- R)%Z else R) e sx)
  end.

(** The rational a finite float stands for. *)
Definition to_Q (x : PrimFloat.float) : option Q :=
  match FloatOps.Prim2SF x with
  | SpecFloat.S754_zero _ => Some 0
  | SpecFloat.S754_finite s m e =>
      let v := inject_Z (Zpos m) * 2 ^ e in
      Some (if s then - v else v)
  | _ => None
  end.

(** [((azimuth % 360) + 360) % 360], the azimuth
    [handleOrientationUpdate] stores for a finite [data.azimuth]. *)
Definition stored_azimuth (azimuth : PrimFloat.float) : PrimFloat.float :=
  rem (PrimFloat.add (rem azimuth 360%float) 360%float) 360%float.

(** The attack end and the release start [playBeep] programs for a beep
    of [duration] milliseconds when the context time is [currentTime]. *)
Definition attackEnd (currentTime : PrimFloat.float) : PrimFloat.float :=
  PrimFloat.add currentTime 0x1.47ae147ae147bp-7%float.

Definition releaseStart (currentTime duration : PrimFloat.float)
  : PrimFloat.float :=
  let endTime :=
    PrimFloat.add currentTime (PrimFloat.div duration 1000%float) in
  PrimFloat.sub endTime 0x1.999999999999ap-5%float.

(** The magnitude [sendUpdates] reports,
    [Math.abs (acceleration) + Math.random () * 0.5]. *)
Definition magnitude (acceleration draw : PrimFloat.float)
  : PrimFloat.float :=
  PrimFloat.add (PrimFloat.abs acceleration) (PrimFloat.mul draw 0.5%float).

(** The ordinates [updateVelocityArrow] computes for the tip and the
    base corners of the velocity polygon at a speed. *)
Definition arrowLength (speed : PrimFloat.float) : PrimFloat.float :=
  let speedRatio :=
    let r := PrimFloat.div speed 30%float in
    if PrimFloat.ltb 1%float r then 1%float else r in
  PrimFloat.add 35%float
    (PrimFloat.mul (PrimFloat.sub 70%float 35%float) speedRatio).

Definition tipY (speed : PrimFloat.float) : PrimFloat.float :=
  PrimFloat.sub 100%float (arrowLength speed).

Definition baseY (speed : PrimFloat.float) : PrimFloat.float :=
  PrimFloat.add (PrimFloat.sub 100%float (arrowLength speed)) 35%float.

End Binary64.

(** The binary64 value nearest to 0.6, which is what the literal [0.6]
    denotes in a program. *)
Definition binary64_0_6 : PrimFloat.float := 0x1.3333333333333p-1%float.

(** The simulated speed is a Number between 0 and 15. *)
Definition speed_in_range (s : Simulator.SensorSimulator) : Prop :=
  exists v : Q, Simulator.speed s = JS.Finite v /\ 0 <= v <= 15.

(** A sample field that is a finite Number or is absent ([null],
    [undefined] or NaN, which [||] replaces). *)
Definition not_infinite (v : JS.value) : bool :=
  match v with
  | JS.Num JS.PosInf | JS.Num JS.NegInf => false
  | _ => true
  end.

(** Is this a delivery that carries [z] as initial azimuth, or not an
    orientation delivery at all? *)
Definition carries_initial (z : JS.value) (d : Samples.Delivery) : Prop :=
  match d with
  | Samples.OrientationUpdate sample => Samples.initialAzimuth sample = z
  | _ => True
  end.

(** A [devicemotion] event [handleMotion] does not drop: it has an
    acceleration object, and its three axes are not all [null]. *)
Definition usable_motion (event : Sensors.DeviceMotionEvent) : bool :=
  match Sensors.acceleration event,
        Sensors.accelerationIncludingGravity event with
  | Some a, _ | None, Some a =>
      match Sensors.ax a, Sensors.ay a, Sensors.az a with
      | JS.Null, JS.Null, JS.Null => false
      | _, _, _ => true
      end
  | None, None => false
  end.

(** Does a series of platform events hold a usable motion event? *)
Definition any_usable_motion (evs : list Sensors.PlatformEvent) : bool :=
  existsb (fun ev => match ev with
                     | Sensors.Motion event => usable_motion event
                     | _ => false
                     end) evs.

(** The hemisphere letter of a coordinate. *)
Definition hemisphere (q : Q) (isLatitude : bool) : string :=
  if isLatitude
  then (if Qle_bool 0 q then "N" else "S")%string
  else (if Qle_bool 0 q then "E" else "W")%string.

(** The text of [D] degrees, [Mi] minutes and [n] thousandths of a
    second on hemisphere [h]. *)
Definition dms_text (D Mi n : Z) (h : string) : string :=
  (JS.digits D ++ "° " ++ JS.digits Mi ++ "' "
   ++ JS.digits (n / 1000) ++ "." ++ JS.pad3 (n mod 1000)
   ++ Sensors.dquote ++ " " ++ h)%string.

(** The scenario changes [updateScenario] can make in one tick. *)
Definition may_follow (before after : Simulator.Scenario) : bool :=
  match before, after with
  | Simulator.accelerate, (Simulator.accelerate | Simulator.cruise) => true
  | Simulator.cruise,
    (Simulator.cruise | Simulator.brake | Simulator.accelerate) => true
  | Simulator.brake,
    (Simulator.brake | Simulator.stop | Simulator.cruise) => true
  | Simulator.stop, (Simulator.stop | Simulator.accelerate) => true
  | _, _ => false
  end.

(** A Number in [[0, 360)]. *)
Definition is_heading (a : JS.number) : Prop :=
  exists r : Q, a = JS.Finite r /\ 0 <= r < 360.

(** The simulator [k] ticks into a [stop] phase that began at [s0]:
    [k / 30] seconds have elapsed and it has not moved. *)
Definition parked_for (k : nat) (s0 s : Simulator.SensorSimulator) : Prop :=
  Simulator.scenario s = Simulator.stop
  /\ Simulator.scenarioTime s ~= JS.Finite (inject_Z (Z.of_nat k) * (1 # 30))
  /\ Simulator.latitude s = Simulator.latitude s0
  /\ Simulator.longitude s = Simulator.longitude s0.

(** ** Series of calls *)

(** A call of [playBeep] with what it reads from its environment. *)
Record BeepCall : Type := mkBeepCall {
  at_ms : Z;
  raises : bool;
  beep_frequency : JS.number;
  beep_duration : JS.number;
  beep_type : string
}.

Definition beep (c : BeepCall) (e : Audio.AudioEngine)
  : bool * Audio.AudioEngine :=
  Audio.playBeep (at_ms c) (raises c) (beep_frequency c) (beep_duration c)
    (beep_type c) e.

(** The engine after a series of [playBeep] calls, oldest first. *)
Fixpoint after_beeps (calls : list BeepCall) (e : Audio.AudioEngine)
  : Audio.AudioEngine :=
  match calls with
  | [] => e
  | c :: rest => after_beeps rest (snd (beep c e))
  end.

(** The times of the calls of a series that returned [true], in order. *)
Fixpoint started (calls : list BeepCall) (e : Audio.AudioEngine) : list Z :=
  match calls with
  | [] => []
  | c :: rest =>
      if fst (beep c e)
      then at_ms c :: started rest (snd (beep c e))
      else started rest (snd (beep c e))
  end.

(** What a client may call on the engine.  A new audio context has
    started no tone; [clock] is its time, [None] when the constructor
    raises. *)
Inductive AudioCall : Type :=
| Unlock (clock : option JS.number) (fault : bool)
| Beep (c : BeepCall)
| SetDebounce (ms : Z).

Definition perform (c : AudioCall) (e : Audio.AudioEngine)
  : Audio.AudioEngine :=
  match c with
  | Unlock clock fault =>
      snd (Audio.unlock
             (option_map
                (fun t => {| Audio.currentTime := t; Audio.tones := [] |})
                clock)
             fault e)
  | Beep c => snd (beep c e)
  | SetDebounce ms => Audio.setDebounce ms e
  end.

(** The engine after a series of calls, oldest first. *)
Definition session (calls : list AudioCall) (e : Audio.AudioEngine)
  : Audio.AudioEngine :=
  fold_left (fun e c => perform c e) calls e.

(** A call of one of the application's callbacks with what the audio
    engine reads from its environment when the call reaches it. *)
Record Input : Type := mkInput {
  input_now : Z;
  input_fault : bool;
  input_delivery : Samples.Delivery
}.

(** The application after a series of callback calls, oldest first,
    with the alerts it requested. *)
Fixpoint feed (inputs : list Input) (a : App.VelocitatsApp)
  : App.VelocitatsApp * list App.AudioRequest :=
  match inputs with
  | [] => (a, [])
  | i :: rest =>
      let '(a1, r1) :=
        App.deliver (input_now i) (input_fault i) (input_delivery i) a in
      let '(a2, r2) := feed rest a1 in
      (a2, r1 ++ r2)
  end.

(* ================================================================== *)
(** * Properties *)
(* ================================================================== *)

(** ** Angle normalisation *)

Lemma Qtrunc_nonneg (q : Q) :
  0 <= q -> inject_Z (JS.Qtrunc q) <= q /\ q < inject_Z (JS.Qtrunc q) + 1.
Proof.
  intros H. unfold JS.Qtrunc.
  destruct (Qle_bool 0 q) eqn:E.
  - split.
    + apply Qfloor_le.
    + generalize (Qlt_floor q). rewrite inject_Z_plus. auto.
  - rewrite <- Qle_bool_iff in H. congruence.
Qed.

Lemma Qtrunc_neg (q : Q) :
  q < 0 -> q <= inject_Z (JS.Qtrunc q) /\ inject_Z (JS.Qtrunc q) - 1 < q.
Proof.
  intros H. unfold JS.Qtrunc.
  destruct (Qle_bool 0 q) eqn:E.
  - rewrite Qle_bool_iff in E. lra.
  - split.
    + apply Qle_ceiling.
    + generalize (Qceiling_lt q).
      unfold Z.sub. rewrite inject_Z_plus, inject_Z_opp. auto.
Qed.

Lemma rem_360 (x : Q) :
  JS.rem (JS.Finite x) (JS.of_Z 360) = JS.Finite (qrem360 x).
Proof. reflexivity. Qed.

Lemma qrem360_nonneg (x : Q) : 0 <= x -> 0 <= qrem360 x < 360.
Proof.
  intros H. unfold qrem360.
  destruct (Qtrunc_nonneg (x / inject_Z 360)) as [H1 H2].
  - unfold Qdiv. change (/ inject_Z 360) with (1 # 360). lra.
  - unfold Qdiv in *. change (/ inject_Z 360) with (1 # 360) in *.
    change (inject_Z 360) with 360. lra.
Qed.

Lemma qrem360_neg (x : Q) : x < 0 -> -360 < qrem360 x <= 0.
Proof.
  intros H. unfold qrem360.
  destruct (Qtrunc_neg (x / inject_Z 360)) as [H1 H2].
  - unfold Qdiv. change (/ inject_Z 360) with (1 # 360). lra.
  - unfold Qdiv in *. change (/ inject_Z 360) with (1 # 360) in *.
    change (inject_Z 360) with 360. lra.
Qed.

Lemma qrem360_bounds (x : Q) : -360 < qrem360 x < 360.
Proof.
  destruct (Qlt_le_dec x 0) as [H | H].
  - pose proof (qrem360_neg x H). lra.
  - pose proof (qrem360_nonneg x H). lra.
Qed.

Lemma wrap360_finite (x : Q) :
  Simulator.wrap360 (JS.Finite x) = JS.Finite (qwrap360 x).
Proof. reflexivity. Qed.

Lemma qwrap360_range (x : Q) : 0 <= qwrap360 x < 360.
Proof.
  unfold qwrap360. apply qrem360_nonneg.
  pose proof (qrem360_bounds x). change (inject_Z 360) with 360. lra.
Qed.

Lemma qwrap360_congruent (x : Q) :
  exists k : Z, qwrap360 x == x + 360 * inject_Z k.
Proof.
  unfold qwrap360.
  exists (1 - JS.Qtrunc (x / inject_Z 360)
            - JS.Qtrunc ((qrem360 x + inject_Z 360) / inject_Z 360))%Z.
  unfold qrem360 at 1.
  unfold Z.sub. rewrite !inject_Z_plus, !inject_Z_opp.
  unfold qrem360. change (inject_Z 360) with 360. change (inject_Z 1) with 1.
  ring.
Qed.

Lemma qwrap360_normalized (x : Q) : normalized x (qwrap360 x).
Proof.
  split.
  - apply qwrap360_range.
  - apply qwrap360_congruent.
Qed.

(** An angle already in [[0, 360)] is its own representative. *)
Lemma normalized_unique (x r1 r2 : Q) :
  normalized x r1 -> normalized x r2 -> r1 == r2.
Proof.
  intros [[L1 U1] [k1 E1]] [[L2 U2] [k2 E2]].
  assert (D : r1 - r2 == 360 * inject_Z (k1 - k2)).
  { unfold Z.sub. rewrite inject_Z_plus, inject_Z_opp. rewrite E1, E2. ring. }
  assert (K : (k1 - k2 = 0)%Z).
  { assert (A1 : inject_Z (-1) < inject_Z (k1 - k2))
      by (change (inject_Z (-1)) with (-1); lra).
    assert (A2 : inject_Z (k1 - k2) < inject_Z 1)
      by (change (inject_Z 1) with 1; lra).
    rewrite <- Zlt_Qlt in A1, A2. lia. }
  rewrite K in D. change (inject_Z 0) with 0 in D. lra.
Qed.

(** A whole number of degrees has a whole representative. *)
Lemma normalized_whole (x r : Q) (n : Z) :
  x == inject_Z n -> normalized x r -> r == inject_Z (n mod 360).
Proof.
  intros Hx Hr.
  apply (normalized_unique x); [exact Hr | ].
  pose proof (Z.mod_pos_bound n 360 eq_refl) as [L U].
  split.
  - split.
    + change 0 with (inject_Z 0). rewrite <- Zle_Qle. exact L.
    + change 360 with (inject_Z 360). rewrite <- Zlt_Qlt. exact U.
  - exists (- (n / 360))%Z.
    rewrite Hx, Z.mod_eq by discriminate.
    unfold Z.sub. rewrite inject_Z_plus, !inject_Z_opp, inject_Z_mult.
    change (inject_Z 360) with 360. ring.
Qed.

Lemma normalize360_finite (x : Q) :
  normalize360 (JS.Finite x) = JS.Finite (qwrap360 x).
Proof. reflexivity. Qed.

(** ** Orientation samples *)

Section Orientation.

Import JS Samples App.

(** C5, as stated, fails in binary64: the addition of 360 rounds.  For
    the azimuth 0.6 (the binary64 nearest to it) the application stores
    0.60000000000002274.  Both lie in [[0, 360)] and they differ by
    205 / 2^53, so they differ by no whole number of turns. *)
Lemma C5_stored_azimuth_is_not_congruent :
  let theta := binary64_0_6 in
  let stored := Binary64.stored_azimuth theta in
  stored = 0x1.33333333334p-1%float
  /\ exists t r : Q,
       Binary64.to_Q theta = Some t
       /\ Binary64.to_Q stored = Some r
       /\ 0 <= t < 360
       /\ 0 <= r < 360
       /\ r - t == 205 # 9007199254740992
       /\ forall k : Z, ~ r == t + 360 * inject_Z k.
Proof.
  cbv zeta. split; [vm_compute; reflexivity | ].
  exists (5404319552844595 # 9007199254740992),
         (5404319552844800 # 9007199254740992).
  split; [vm_compute; reflexivity | ].
  split; [vm_compute; reflexivity | ].
  split; [split; [discriminate | reflexivity] | ].
  split; [split; [discriminate | reflexivity] | ].
  split; [reflexivity | ].
  intros k E.
  assert (D : 360 * inject_Z k == 205 # 9007199254740992).
  { rewrite <- (Qplus_inj_l _ _ (5404319552844595 # 9007199254740992)).
    rewrite <- E. reflexivity. }
  assert (A1 : inject_Z 0 < inject_Z k)
    by (change (inject_Z 0) with 0; lra).
  assert (A2 : inject_Z k < inject_Z 1)
    by (change (inject_Z 1) with 1; lra).
  rewrite <- Zlt_Qlt in A1, A2. lia.
Qed.

(** C5, amended.  An orientation sample whose azimuth is not finite
    leaves the application exactly as it was (stored azimuth, both
    pointer rotations and everything else).  For a finite azimuth [theta]
    the stored azimuth is [((theta % 360) + 360) % 360], a Number [r]
    with [0 <= r < 360]; when [theta] is a whole number [n] of degrees,
    [r] is [n] modulo 360, every intermediate result being a whole number
    below 720. *)
Theorem C5_orientation_sample (data : OrientationSample) (a : VelocitatsApp) :
  (isFinite (azimuth data) = false -> handleOrientationUpdate data a = a)
  /\ (forall theta : Q,
        to_number (azimuth data) = Finite theta ->
        exists r : Q,
          currentAzimuth (handleOrientationUpdate data a) = Finite r
          /\ Finite r = normalize360 (Finite theta)
          /\ 0 <= r < 360
          /\ forall n : Z, theta == inject_Z n -> r == inject_Z (n mod 360)).
Proof.
  split.
  - intros H. unfold handleOrientationUpdate. rewrite H. reflexivity.
  - intros theta H.
    exists (qwrap360 theta).
    unfold handleOrientationUpdate, isFinite. rewrite H.
    split; [reflexivity | ].
    split; [reflexivity | ].
    split; [exact (qwrap360_range theta) | ].
    intros n Hn.
    exact (normalized_whole theta _ n Hn (qwrap360_normalized theta)).
Qed.

Lemma C5_orientation_sample_witness :
  handleOrientationUpdate (Inputs.heading (Num NaN)) (App.new Inputs.blank_page)
  = App.new Inputs.blank_page
  /\ exists r : Q,
       currentAzimuth
         (handleOrientationUpdate (Inputs.heading (Num (of_Z (-90))))
            (App.new Inputs.blank_page)) = Finite r
       /\ 0 <= r < 360
       /\ r == 270.
Proof.
  split.
  - exact (proj1 (C5_orientation_sample (Inputs.heading (Num NaN))
                    (App.new Inputs.blank_page)) eq_refl).
  - destruct (proj2 (C5_orientation_sample
                       (Inputs.heading (Num (of_Z (-90))))
                       (App.new Inputs.blank_page))
                (inject_Z (-90)) eq_refl) as (r & A & _ & B & C).
    exists r. split; [exact A | ]. split; [exact B | ].
    exact (C (-90)%Z (Qeq_refl _)).
Defined.

End Orientation.

(** ** The two display vectors *)

Section DisplayVectors.

Import JS Samples App.

Lemma or_zero_finite (v : value) :
  not_infinite v = true ->
  exists q : Q, to_number (or_else v (Num (Finite 0))) = Finite q.
Proof.
  destruct v as [ | | [q | | | ]]; intros H; try discriminate H.
  - exists 0. reflexivity.
  - exists 0. reflexivity.
  - unfold or_else, truthy. destruct (negb (qzero q)).
    + exists q. reflexivity.
    + exists 0. reflexivity.
  - exists 0. reflexivity.
Qed.

Lemma velocityRotation_finite (a : VelocitatsApp) (b z : Q) :
  currentBearing a = Finite b -> currentAzimuth a = Finite z ->
  velocityRotation a = Finite (qwrap360 (b + - z)).
Proof.
  intros Hb Hz. unfold velocityRotation. rewrite Hb, Hz. reflexivity.
Qed.

(** C3.  The two rotations shown are functions of the stored state
    alone.  An orientation sample with a finite azimuth establishes
    [vectors_agree] (north arrow at minus the stored azimuth, velocity
    arrow at [normalize360] of the stored bearing minus the stored
    azimuth, a Number in [[0, 360)]); position samples and motion samples
    preserve it.  Fed to a fresh application, a position sample of speed
    10 and bearing 90 followed by an orientation sample of azimuth 90
    leaves the velocity arrow at 0 and the north arrow at -90. *)
Theorem C3_display_vectors :
  (forall (data : OrientationSample) (a : VelocitatsApp) (b : Q),
      isFinite (azimuth data) = true ->
      currentBearing a = Finite b ->
      vectors_agree (handleOrientationUpdate data a))
  /\ (forall (data : PositionSample) (a : VelocitatsApp),
        not_infinite (Samples.bearing data) = true ->
        vectors_agree a ->
        vectors_agree (handleGpsUpdate data a))
  /\ (forall (now : Z) (fault : bool) (data : MotionSample)
             (a : VelocitatsApp),
        vectors_agree a ->
        vectors_agree (fst (handleMotionUpdate now fault data a)))
  /\ (let a :=
        handleOrientationUpdate (Inputs.heading (Num (of_Z 90)))
          (handleGpsUpdate (Inputs.position (Num (of_Z 10)) (Num (of_Z 90)))
             (App.new Inputs.blank_page)) in
      velocityArrow (elements a) ~= Finite 0
      /\ northArrow (elements a) ~= Finite (- 90)).
Proof.
  split; [ | split; [ | split ] ].
  - intros data a b Hfin Hb.
    unfold isFinite in Hfin.
    destruct (to_number (azimuth data)) as [theta | | | ] eqn:Ht;
      try discriminate Hfin.
    set (a' := handleOrientationUpdate data a).
    assert (Hz : currentAzimuth a' = Finite (qwrap360 theta)).
    { unfold a', handleOrientationUpdate, isFinite. rewrite Ht. reflexivity. }
    assert (Hb' : currentBearing a' = Finite b).
    { unfold a', handleOrientationUpdate, isFinite. rewrite Ht. exact Hb. }
    assert (Hn : northArrow (elements a') = Finite (- qwrap360 theta)).
    { unfold a', handleOrientationUpdate, isFinite. rewrite Ht. reflexivity. }
    assert (Hv : velocityArrow (elements a')
                 = Finite (qwrap360 (b + - qwrap360 theta))).
    { unfold a', handleOrientationUpdate, isFinite. rewrite Ht.
      cbn [negb is_finite].
      match goal with
      | |- velocityArrow (elements (updateVelocityArrow ?s)) = _ =>
          change (velocityRotation s
                  = Finite (qwrap360 (b + - qwrap360 theta)));
          apply velocityRotation_finite; [exact Hb | reflexivity]
      end. }
    exists b, (qwrap360 theta), (qwrap360 (b + - qwrap360 theta)).
    split; [exact Hb' | ]. split; [exact Hz | ].
    split; [rewrite Hn, Hz; reflexivity | ].
    split; [rewrite Hv, Hb', Hz; reflexivity | ].
    split; [exact Hv | apply qwrap360_range].
  - intros data a Hfin (b & z & r & Hb & Hz & Hn & _ & _ & _).
    rewrite Hz in Hn. cbn [neg] in Hn.
    destruct (or_zero_finite (Samples.bearing data) Hfin) as [b' Hb'].
    set (a' := handleGpsUpdate data a).
    assert (Eb : currentBearing a' = Finite b').
    { unfold a', handleGpsUpdate.
      destruct (present (Samples.bearing data)); exact Hb'. }
    assert (Ez : currentAzimuth a' = Finite z).
    { unfold a', handleGpsUpdate.
      destruct (present (Samples.bearing data)); exact Hz. }
    assert (En : northArrow (elements a') = Finite (- z)).
    { unfold a', handleGpsUpdate.
      destruct (present (Samples.bearing data)); exact Hn. }
    assert (Ev : velocityArrow (elements a') = Finite (qwrap360 (b' + - z))).
    { unfold a', handleGpsUpdate.
      destruct (present (Samples.bearing data));
        match goal with
        | |- velocityArrow
               (elements (updateStatusIndicator _ _ _
                            (updateVelocityArrow ?s))) = _ =>
            change (velocityRotation s = Finite (qwrap360 (b' + - z)));
            apply velocityRotation_finite; [exact Hb' | exact Hz]
        end. }
    exists b', z, (qwrap360 (b' + - z)).
    split; [exact Eb | ]. split; [exact Ez | ].
    split; [rewrite En, Ez; reflexivity | ].
    split; [rewrite Ev, Eb, Ez; reflexivity | ].
    split; [exact Ev | apply qwrap360_range].
  - intros now fault data a (b & z & r & Hb & Hz & Hn & Hv & Hr & Hrange).
    exists b, z, r.
    unfold handleMotionUpdate, checkBraking.
    repeat match goal with
           | |- context [if ?c then _ else _] => destruct c
           end; cbn [fst]; repeat split; try assumption; apply Hrange.
  - cbv zeta. split; vm_compute; reflexivity.
Qed.

Lemma C3_display_vectors_witness :
  vectors_agree
    (handleOrientationUpdate (Inputs.heading (Num (of_Z 90)))
       (handleGpsUpdate (Inputs.position (Num (of_Z 10)) (Num (of_Z 90)))
          (App.new Inputs.blank_page))).
Proof.
  apply (proj1 C3_display_vectors
           (Inputs.heading (Num (of_Z 90)))
           (handleGpsUpdate (Inputs.position (Num (of_Z 10)) (Num (of_Z 90)))
              (App.new Inputs.blank_page))
           (inject_Z 90)).
  - reflexivity.
  - reflexivity.
Defined.

End DisplayVectors.

(** ** The braking detector *)

Section BrakingDetector.

Import JS Samples App.

(** The compound braking condition on the stored speed and thresholds. *)
Lemma checkBraking_state (now : Z) (fault : bool) (forwardAccel : number)
  (a : VelocitatsApp) :
  isBraking (fst (checkBraking now fault forwardAccel a))
  = gt (currentSpeed a) (SPEED_THRESHOLD a)
    && lt forwardAccel (BRAKE_THRESHOLD a).
Proof.
  unfold checkBraking.
  destruct (gt (currentSpeed a) (SPEED_THRESHOLD a)
            && lt forwardAccel (BRAKE_THRESHOLD a)) eqn:C;
    destruct (isBraking a) eqn:B; cbn; congruence.
Qed.

(** C1.  The detector has the two states [isBraking = false] (NORMAL)
    and [isBraking = true] (BRAKING).  After a motion sample the state is
    BRAKING exactly when the stored speed exceeds the speed threshold and
    the forward acceleration is below the brake threshold.  One brake
    alert is requested and the indicator is shown precisely when the
    state goes from NORMAL to BRAKING: the audio engine is then the one
    [playBrakeAlert] leaves, called once, and on every other sample it is
    the engine as it was.  The indicator is hidden precisely when the
    state goes from BRAKING to NORMAL; otherwise it is left as it is.
    With the default thresholds 0.5 and -2.0 and a speed of 5, a forward
    acceleration of -3.0 takes NORMAL to BRAKING, with one call of
    [playBrakeAlert], and a following one of 0 takes it back to NORMAL,
    with none. *)
Theorem C1_braking_detector :
  (forall (now : Z) (fault : bool) (data : MotionSample) (a : VelocitatsApp),
      let braking := gt (currentSpeed a) (SPEED_THRESHOLD a)
                     && lt (forward data) (BRAKE_THRESHOLD a) in
      let a' := fst (handleMotionUpdate now fault data a) in
      let requests := snd (handleMotionUpdate now fault data a) in
      isBraking a' = braking
      /\ requests
         = (if negb (isBraking a) && isBraking a' then [BrakeAlert] else [])
      /\ audio a'
         = (if negb (isBraking a) && isBraking a'
            then snd (Audio.playBrakeAlert now fault (audio a))
            else audio a)
      /\ brakeIndicator_hidden (elements a')
         = (if negb (isBraking a) && isBraking a' then false
            else if isBraking a && negb (isBraking a') then true
                 else brakeIndicator_hidden (elements a)))
  /\ (forall (now now' : Z) (fault fault' : bool),
        let a0 := handleGpsUpdate (Inputs.position (Num (of_Z 5)) Null)
                    (App.new Inputs.blank_page) in
        let a1 := fst (handleMotionUpdate now fault (Inputs.thrust (-3)) a0) in
        let a2 := fst (handleMotionUpdate now' fault' (Inputs.thrust 0) a1) in
        SPEED_THRESHOLD a0 = Finite (5 # 10)
        /\ BRAKE_THRESHOLD a0 = Finite (- (20 # 10))
        /\ isBraking a0 = false
        /\ isBraking a1 = true
        /\ snd (handleMotionUpdate now fault (Inputs.thrust (-3)) a0)
           = [BrakeAlert]
        /\ audio a1 = snd (Audio.playBrakeAlert now fault (audio a0))
        /\ brakeIndicator_hidden (elements a1) = false
        /\ isBraking a2 = false
        /\ snd (handleMotionUpdate now' fault' (Inputs.thrust 0) a1) = []
        /\ audio a2 = audio a1
        /\ brakeIndicator_hidden (elements a2) = true).
Proof.
  split.
  - intros now fault data a. cbv zeta.
    unfold handleMotionUpdate.
    set (s := updateStatusIndicator _ _ _ _).
    assert (Hs : currentSpeed s = currentSpeed a
                 /\ SPEED_THRESHOLD s = SPEED_THRESHOLD a
                 /\ BRAKE_THRESHOLD s = BRAKE_THRESHOLD a
                 /\ isBraking s = isBraking a
                 /\ brakeIndicator_hidden (elements s)
                    = brakeIndicator_hidden (elements a)
                 /\ audio s = audio a).
    { unfold s.
      destruct (lt (forward data) (neg (of_Z 2)));
        [ | destruct (gt (forward data) (of_Z 2)) ];
        repeat split; reflexivity. }
    destruct Hs as (H1 & H2 & H3 & H4 & H5 & H6).
    rewrite <- H1, <- H2, <- H3, <- H4, <- H5, <- H6.
    generalize s. clear. intros s.
    unfold checkBraking.
    destruct (gt (currentSpeed s) (SPEED_THRESHOLD s)
              && lt (forward data) (BRAKE_THRESHOLD s)) eqn:C;
      destruct (isBraking s) eqn:B; cbn; rewrite ?B; repeat split.
  - intros now now' fault fault'. cbv zeta.
    repeat match goal with |- _ /\ _ => split end; vm_compute; reflexivity.
Qed.

End BrakingDetector.

(** ** The audio engine *)

Section AudioDebounce.

Import JS Audio.

Open Scope Z_scope.

Lemma playBeep_refused (now : Z) (fault : bool) (f d : number) (ty : string)
  (e : AudioEngine) :
  isUnlocked e = false \/ audioContext e = None
  \/ now - lastBeepTime e < debounceMs e ->
  playBeep now fault f d ty e = (false, e).
Proof.
  intros H. unfold playBeep.
  destruct (isUnlocked e) eqn:U; [ | reflexivity].
  destruct (audioContext e) as [ctx | ] eqn:C; [ | reflexivity].
  destruct H as [H | [H | H]]; try discriminate H.
  apply Z.ltb_lt in H. rewrite H. reflexivity.
Qed.

Lemma playBeep_started (now : Z) (fault : bool) (f d : number) (ty : string)
  (e : AudioEngine) :
  fst (playBeep now fault f d ty e) = true ->
  lastBeepTime (snd (playBeep now fault f d ty e)) = now
  /\ debounceMs (snd (playBeep now fault f d ty e)) = debounceMs e
  /\ fault = false
  /\ debounceMs e <= now - lastBeepTime e.
Proof.
  unfold playBeep.
  destruct (isUnlocked e); [ | discriminate].
  destruct (audioContext e) as [ctx | ]; [ | discriminate].
  destruct (now - lastBeepTime e <? debounceMs e) eqn:D; [discriminate | ].
  destruct fault; [discriminate | ].
  intros _. apply Z.ltb_ge in D. cbn. auto.
Qed.

Lemma playBeep_plays (now : Z) (f d : number) (ty : string)
  (e : AudioEngine) (ctx : AudioContext) :
  isUnlocked e = true -> audioContext e = Some ctx ->
  debounceMs e <= now - lastBeepTime e ->
  playBeep now false f d ty e
  = (true,
     {| audioContext :=
          Some {| currentTime := currentTime ctx;
                  tones := beep_tone ctx f d ty :: tones ctx |};
        isUnlocked := true;
        lastBeepTime := now;
        debounceMs := debounceMs e |}).
Proof.
  intros U C D. unfold playBeep. rewrite U, C.
  apply Z.ltb_ge in D. rewrite D. reflexivity.
Qed.

(** C2, as stated, fails: on an unlocked engine whose last beep started
    at 1000000 ms, a call at 1000500 ms is refused, and the call 700 ms
    later (less than the 1000 ms debounce after the previous call)
    returns [true] and starts a tone. *)
Lemma C2_second_call_within_debounce_succeeds :
  let e0 := Inputs.armed 1000000 in
  let first := playBeep 1000500 false (of_Z 880) (of_Z 150) "sine" e0 in
  let second :=
    playBeep 1001200 false (of_Z 880) (of_Z 150) "sine" (snd first) in
  isUnlocked e0 = true
  /\ 1001200 - 1000500 < debounceMs e0
  /\ fst first = false
  /\ fst second = true
  /\ List.length (tones_of (snd second)) = S (List.length (tones_of e0)).
Proof.
  cbv zeta. repeat split.
Qed.

(** C2, amended.  [playBeep] returns [false] and leaves the engine as it
    was (last-beep time included) whenever the engine is not unlocked (or
    has no audio context), or fewer than [debounceMs] milliseconds have
    elapsed since the last beep started.  Consequently, after a call that
    succeeded, a call made less than [debounceMs] later returns [false],
    changes nothing and starts no tone; and of two calls on an unlocked
    engine, the first at least [debounceMs] after the last beep and the
    second at least [debounceMs] after the first, both succeed and each
    starts a tone, provided the audio platform raises no error. *)
Theorem C2_playBeep_debounce :
  (forall (now : Z) (fault : bool) (f d : number) (ty : string)
          (e : AudioEngine),
      isUnlocked e = false \/ audioContext e = None
      \/ now - lastBeepTime e < debounceMs e ->
      playBeep now fault f d ty e = (false, e))
  /\ (forall (t1 t2 : Z) (fault1 fault2 : bool) (f1 d1 f2 d2 : number)
             (ty1 ty2 : string) (e : AudioEngine),
        fst (playBeep t1 fault1 f1 d1 ty1 e) = true ->
        t2 - t1 < debounceMs e ->
        let e1 := snd (playBeep t1 fault1 f1 d1 ty1 e) in
        playBeep t2 fault2 f2 d2 ty2 e1 = (false, e1))
  /\ (forall (t1 t2 : Z) (f1 d1 f2 d2 : number) (ty1 ty2 : string)
             (e : AudioEngine) (ctx : AudioContext),
        isUnlocked e = true ->
        audioContext e = Some ctx ->
        debounceMs e <= t1 - lastBeepTime e ->
        debounceMs e <= t2 - t1 ->
        let first := playBeep t1 false f1 d1 ty1 e in
        let second := playBeep t2 false f2 d2 ty2 (snd first) in
        fst first = true
        /\ fst second = true
        /\ exists tone1 tone2 : Tone,
             tones_of (snd first) = tone1 :: tones_of e
             /\ tones_of (snd second) = tone2 :: tone1 :: tones_of e).
Proof.
  split; [ | split].
  - exact playBeep_refused.
  - intros t1 t2 fault1 fault2 f1 d1 f2 d2 ty1 ty2 e H1 Hlt e1.
    destruct (playBeep_started _ _ _ _ _ _ H1) as (L & D & _ & _).
    apply playBeep_refused. right. right.
    unfold e1. rewrite L, D. exact Hlt.
  - intros t1 t2 f1 d1 f2 d2 ty1 ty2 e ctx U C D1 D2 first second.
    unfold second, first.
    rewrite (playBeep_plays t1 f1 d1 ty1 e ctx U C D1).
    cbn [fst snd].
    erewrite playBeep_plays; [ | reflexivity | reflexivity | exact D2 ].
    cbn [fst snd].
    split; [reflexivity | split; [reflexivity | ] ].
    unfold tones_of. rewrite C. cbn.
    eexists. eexists. split; reflexivity.
Qed.

Lemma C2_playBeep_debounce_witness :
  (let e0 := Inputs.armed 1000000 in
   let first := playBeep 1001000 false (of_Z 880) (of_Z 150) "sine" e0 in
   playBeep 1001700 false (of_Z 880) (of_Z 150) "sine" (snd first)
   = (false, snd first))
  /\ (let e0 := Inputs.armed 1000000 in
      let first := playBeep 1001000 false (of_Z 880) (of_Z 150) "sine" e0 in
      let second :=
        playBeep 1002500 false (of_Z 1200) (of_Z 100) "sine" (snd first) in
      fst first = true /\ fst second = true).
Proof.
  split.
  - exact (proj1 (proj2 C2_playBeep_debounce)
             1001000 1001700 false false
             (of_Z 880) (of_Z 150) (of_Z 880) (of_Z 150)
             "sine"%string "sine"%string
             (Inputs.armed 1000000) eq_refl eq_refl).
  - cbv zeta.
    destruct (proj2 (proj2 C2_playBeep_debounce)
                1001000 1002500
                (of_Z 880) (of_Z 150) (of_Z 1200) (of_Z 100)
                "sine"%string "sine"%string
                (Inputs.armed 1000000)
                {| currentTime := Finite 0; tones := [] |}
                eq_refl eq_refl) as (A & B & _).
    + discriminate.
    + discriminate.
    + split; [exact A | exact B].
Defined.

End AudioDebounce.

(** ** Position samples *)

Section PositionSamples.

Import JS Samples App.

Lemma or_zero_absent (v : value) :
  present v = false -> to_number (or_else v (Num (Finite 0))) = Finite 0.
Proof. destruct v; [reflexivity | reflexivity | discriminate]. Qed.

Lemma or_zero_not_NaN (v : value) :
  to_number (or_else v (Num (Finite 0))) <> NaN.
Proof.
  destruct v as [ | | [q | | | ]]; try (cbn; discriminate).
  unfold or_else, truthy. destruct (negb (qzero q)); cbn; discriminate.
Qed.

Lemma or_zero_present (v : value) :
  present (or_else v (Num (Finite 0))) = true.
Proof.
  destruct v as [ | | [q | | | ]]; try reflexivity.
  unfold or_else, truthy. destruct (negb (qzero q)); reflexivity.
Qed.

(** C4, as stated, fails: after a sample of bearing 90, a sample whose
    bearing is [null] leaves the stored bearing at 0, not at 90. *)
Lemma C4_absent_bearing_is_not_retained :
  let a0 := handleGpsUpdate (Inputs.position (Num (of_Z 10)) (Num (of_Z 90)))
              (App.new Inputs.blank_page) in
  let a1 := handleGpsUpdate (Inputs.position (Num (of_Z 10)) Null) a0 in
  currentBearing a0 = of_Z 90
  /\ currentBearing a1 = of_Z 0
  /\ currentBearing a1 <> currentBearing a0.
Proof.
  cbv zeta. split; [reflexivity | split; [reflexivity | ] ].
  intros H. vm_compute in H. discriminate H.
Qed.

(** C4, amended.  A position sample whose bearing is absent sets the
    stored bearing to 0 (the bearing text and the cardinal label on the
    page keep what they showed); an absent speed is stored as 0; the
    latitude and longitude shown are those of the sample, whatever they
    are; and the stored speed and bearing are never NaN, the Number an
    absent value would turn into.  The live source builds its samples the
    same way: on every fix it stores in [lastPosition] the sample it
    builds, and hands that sample to [onGpsUpdate] when the callback is
    installed; latitude and longitude are copied from the fix, and a
    speed or heading the platform reports as [null] becomes 0. *)
Theorem C4_position_sample :
  (forall (data : PositionSample) (a : VelocitatsApp),
      present (Samples.bearing data) = false ->
      let a' := handleGpsUpdate data a in
      currentBearing a' = Finite 0
      /\ App.bearing (elements a') = App.bearing (elements a)
      /\ bearingDirection (elements a') = bearingDirection (elements a)
      /\ (present (Samples.speed data) = false -> currentSpeed a' = Finite 0))
  /\ (forall (data : PositionSample) (a : VelocitatsApp),
        let a' := handleGpsUpdate data a in
        App.latitude (elements a') = Samples.latitude data
        /\ App.longitude (elements a') = Samples.longitude data
        /\ currentSpeed a' <> NaN
        /\ currentBearing a' <> NaN)
  /\ (forall (position : Sensors.GeolocationPosition)
             (m : Sensors.SensorManager),
        let sample := Sensors.position_sample position in
        Sensors.lastPosition (fst (Sensors.onPosition position m))
        = Some sample
        /\ snd (Sensors.onPosition position m)
           = (if Sensors.onGpsUpdate m then [GpsUpdate sample] else [])
        /\ Samples.latitude sample
           = Sensors.coords_latitude (Sensors.coords position)
        /\ Samples.longitude sample
           = Sensors.coords_longitude (Sensors.coords position)
        /\ present (Samples.speed sample) = true
        /\ present (Samples.bearing sample) = true
        /\ (present (Sensors.coords_speed (Sensors.coords position)) = false ->
            Samples.speed sample = Num (Finite 0))
        /\ (present (Sensors.coords_heading (Sensors.coords position))
            = false ->
            Samples.bearing sample = Num (Finite 0))).
Proof.
  split; [ | split].
  - intros data a Hb a'. unfold a', handleGpsUpdate. rewrite Hb.
    repeat split.
    + exact (or_zero_absent _ Hb).
    + intros Hs. exact (or_zero_absent _ Hs).
  - intros data a a'. unfold a', handleGpsUpdate.
    destruct (present (Samples.bearing data)); repeat split;
      apply or_zero_not_NaN.
  - intros position m sample.
    split; [reflexivity | ]. split; [reflexivity | ].
    unfold sample, Sensors.position_sample. cbn.
    repeat split; try apply or_zero_present.
    + intros H.
      destruct (Sensors.coords_speed (Sensors.coords position));
        [reflexivity | reflexivity | discriminate H].
    + intros H.
      destruct (Sensors.coords_heading (Sensors.coords position));
        [reflexivity | reflexivity | discriminate H].
Qed.

Lemma C4_position_sample_witness :
  let a' := handleGpsUpdate (Inputs.position Null Undefined)
              (handleGpsUpdate
                 (Inputs.position (Num (of_Z 10)) (Num (of_Z 90)))
                 (App.new Inputs.blank_page)) in
  currentBearing a' = Finite 0
  /\ App.bearing (elements a') = Finite (inject_Z 90)
  /\ bearingDirection (elements a') = Some "E"%string
  /\ currentSpeed a' = Finite 0.
Proof.
  cbv zeta.
  destruct (proj1 C4_position_sample
              (Inputs.position Null Undefined)
              (handleGpsUpdate
                 (Inputs.position (Num (of_Z 10)) (Num (of_Z 90)))
                 (App.new Inputs.blank_page))
              eq_refl) as (A & B & C & D).
  split; [exact A | ].
  split; [rewrite B; reflexivity | ].
  split; [rewrite C; reflexivity | ].
  exact (D eq_refl).
Defined.

End PositionSamples.

(** ** Cardinal directions *)

Section Cardinal.

Import JS Sensors.

Lemma bearingToCardinal_index (q : Q) :
  bearingToCardinal (Finite q)
  = JS.index directions
      (Finite (inject_Z (Qfloor (q * (1 # 45) + (1 # 2))))).
Proof. reflexivity. Qed.

Lemma index_integer {A : Type} (arr : list A) (k : Z) :
  (0 <= k)%Z ->
  JS.index arr (Finite (inject_Z k)) = nth_error arr (Z.to_nat k).
Proof.
  intros H. unfold JS.index. rewrite Qfloor_Z.
  replace (Qeq_bool (inject_Z k) (inject_Z k)) with true
    by (symmetry; apply Qeq_bool_iff; reflexivity).
  apply Z.leb_le in H. rewrite H. reflexivity.
Qed.

(** C8, as stated, fails at 44 degrees: 44 / 45 rounds to 1, so the
    label is NE, not N. *)
Lemma C8_bearing_44_is_NE :
  bearingToCardinal (of_Z 44) = Some "NE"%string
  /\ bearingToCardinal (of_Z 44) <> Some "N"%string.
Proof.
  split.
  - reflexivity.
  - intros H. vm_compute in H. discriminate H.
Qed.

(** C8, amended.  For a bearing between 0 and 360 degrees
    [bearingToCardinal] returns one of the eight labels N, NE, E, SE, S,
    SW, W, NW: the label of the 45-degree sector, centred on a multiple
    [45 * k] of 45, in which the bearing lies (halves going to the next
    sector), the ninth sector, centred on 360, being N again.  In
    particular 0 gives N, 22 gives N, 44 and 46 give NE, and 360 gives
    N. *)
Theorem C8_bearingToCardinal :
  (forall q : Q,
      0 <= q <= 360 ->
      exists (k : Z) (label : string),
        (0 <= k <= 8)%Z
        /\ 45 * inject_Z k - (45 # 2) <= q < 45 * inject_Z k + (45 # 2)
        /\ bearingToCardinal (Finite q) = Some label
        /\ nth_error compass (Z.to_nat (k mod 8)) = Some label)
  /\ bearingToCardinal (of_Z 0) = Some "N"%string
  /\ bearingToCardinal (of_Z 22) = Some "N"%string
  /\ bearingToCardinal (of_Z 44) = Some "NE"%string
  /\ bearingToCardinal (of_Z 46) = Some "NE"%string
  /\ bearingToCardinal (of_Z 360) = Some "N"%string.
Proof.
  split; [ | repeat split; reflexivity].
  intros q [L U].
  rewrite bearingToCardinal_index.
  remember (Qfloor (q * (1 # 45) + (1 # 2))) as k eqn:Ek.
  pose proof (Qfloor_le (q * (1 # 45) + (1 # 2))) as F1.
  pose proof (Qlt_floor (q * (1 # 45) + (1 # 2))) as F2.
  rewrite <- Ek in F1, F2. rewrite inject_Z_plus in F2.
  change (inject_Z 1) with 1 in F2.
  assert (K0 : (-1 < k)%Z).
  { rewrite Zlt_Qlt. change (inject_Z (-1)) with (-1). lra. }
  assert (K8 : (k < 9)%Z).
  { rewrite Zlt_Qlt. change (inject_Z 9) with 9. lra. }
  assert (R : 45 * inject_Z k - (45 # 2) <= q < 45 * inject_Z k + (45 # 2))
    by lra.
  rewrite index_integer by lia.
  assert (C : (k = 0 \/ k = 1 \/ k = 2 \/ k = 3 \/ k = 4 \/ k = 5 \/ k = 6
               \/ k = 7 \/ k = 8)%Z) by lia.
  clear Ek F1 F2.
  exists k.
  destruct C as [C | [C | [C | [C | [C | [C | [C | [C | C]]]]]]]];
    subst k; eexists; (split; [lia | split; [exact R | split; reflexivity]]).
Qed.

Lemma C8_bearingToCardinal_witness :
  exists (k : Z) (label : string),
    (0 <= k <= 8)%Z
    /\ 45 * inject_Z k - (45 # 2) <= 350 < 45 * inject_Z k + (45 # 2)
    /\ bearingToCardinal (Finite 350) = Some label
    /\ nth_error compass (Z.to_nat (k mod 8)) = Some label.
Proof.
  apply (proj1 C8_bearingToCardinal 350).
  split; discriminate.
Defined.

End Cardinal.

(** ** The length of the velocity arrow *)

Section ArrowLength.

Import JS App.

Lemma qltb_true (a b : Q) : qltb a b = true <-> a < b.
Proof.
  unfold qltb. rewrite negb_true_iff. split.
  - intros H. apply Qnot_le_lt. intros C. apply Qle_bool_iff in C. congruence.
  - intros H. destruct (Qle_bool b a) eqn:E; [ | reflexivity].
    apply Qle_bool_iff in E. lra.
Qed.

Lemma qltb_false (a b : Q) : qltb a b = false <-> b <= a.
Proof. unfold qltb. rewrite negb_false_iff. apply Qle_bool_iff. Qed.

Lemma arrowLength_finite (s : Q) :
  arrowLength (Finite s)
  = Finite (inject_Z 35 + (inject_Z 70 + - inject_Z 35)
            * (if qltb (inject_Z 1) (s / inject_Z 30)
               then inject_Z 1 else s / inject_Z 30)).
Proof.
  unfold arrowLength.
  change (div (Finite s) (of_Z 30)) with (Finite (s / inject_Z 30)).
  unfold Math_min, of_Z, lt.
  destruct (qltb (inject_Z 1) (s / inject_Z 30)); reflexivity.
Qed.

Lemma arrowLength_formula (s : Q) :
  arrowLength (Finite s) ~= Finite (35 + (70 - 35) * Qmin (s / 30) 1).
Proof.
  rewrite arrowLength_finite. unfold num_eq.
  change (inject_Z 35) with 35. change (inject_Z 70) with 70.
  change (inject_Z 1) with 1. change (inject_Z 30) with 30.
  destruct (qltb 1 (s / 30)) eqn:E.
  - apply qltb_true in E. rewrite Q.min_r by lra. ring.
  - apply qltb_false in E. rewrite Q.min_l by lra. ring.
Qed.

Lemma arrowLength_bounds (s : Q) :
  exists l : Q, arrowLength (Finite s) = Finite l /\ l <= 70.
Proof.
  rewrite arrowLength_finite. eexists. split; [reflexivity | ].
  change (inject_Z 35) with 35. change (inject_Z 70) with 70.
  change (inject_Z 1) with 1. change (inject_Z 30) with 30.
  destruct (qltb 1 (s / 30)) eqn:E.
  - lra.
  - apply qltb_false in E. lra.
Qed.

Lemma arrowLength_monotone_finite (x y : Q) :
  x <= y -> le (arrowLength (Finite x)) (arrowLength (Finite y)) = true.
Proof.
  intros H. rewrite !arrowLength_finite. unfold le. apply Qle_bool_iff.
  change (inject_Z 35) with 35. change (inject_Z 70) with 70.
  change (inject_Z 1) with 1. change (inject_Z 30) with 30.
  assert (D : x / 30 <= y / 30).
  { unfold Qdiv. change (/ 30) with (1 # 30). lra. }
  destruct (qltb 1 (x / 30)) eqn:Ex; destruct (qltb 1 (y / 30)) eqn:Ey;
    rewrite ?qltb_true, ?qltb_false in *; lra.
Qed.

(** C9.  For a finite speed the arrow length is
    [35 + (70 - 35) * min (speed / 30, 1)].  The length never decreases
    when the speed grows (for all speeds, the non-negative ones in
    particular), and it is 70 from 30 m/s on: the lengths at 0, 30 and 60
    are 35, 70 and 70.  This is the length [updateVelocityArrow] draws:
    the tip of the polygon is at [100 - length]. *)
Theorem C9_arrow_length :
  (forall s : Q,
      arrowLength (Finite s) ~= Finite (35 + (70 - 35) * Qmin (s / 30) 1))
  /\ (forall s1 s2 : number,
        le s1 s2 = true -> le (arrowLength s1) (arrowLength s2) = true)
  /\ (forall s : number, le (of_Z 30) s = true -> arrowLength s ~= of_Z 70)
  /\ arrowLength (of_Z 0) ~= of_Z 35
  /\ arrowLength (of_Z 30) ~= of_Z 70
  /\ arrowLength (of_Z 60) ~= of_Z 70
  /\ (forall a : VelocitatsApp,
        tipY (velocityPolygon (elements (updateVelocityArrow a)))
        = sub (of_Z 100) (arrowLength (currentSpeed a))).
Proof.
  split; [exact arrowLength_formula | ].
  split.
  { intros [x | | | ] [y | | | ] H; try discriminate H.
    - apply arrowLength_monotone_finite. apply Qle_bool_iff. exact H.
    - destruct (arrowLength_bounds x) as (l & E & B). rewrite E.
      change (arrowLength PosInf)
        with (Finite (inject_Z 35
                      + (inject_Z 70 + - inject_Z 35) * inject_Z 1)).
      unfold le. apply Qle_bool_iff.
      change (inject_Z 35) with 35. change (inject_Z 70) with 70.
      change (inject_Z 1) with 1. lra.
    - reflexivity.
    - destruct (arrowLength_bounds y) as (l & E & B). rewrite E. reflexivity.
    - reflexivity.
    - reflexivity. }
  split.
  { intros [x | | | ] H; try discriminate H.
    - unfold of_Z, le in H. apply Qle_bool_iff in H.
      change (inject_Z 30) with 30 in H.
      rewrite arrowLength_finite. unfold of_Z, num_eq.
      change (inject_Z 35) with 35. change (inject_Z 70) with 70.
      change (inject_Z 1) with 1. change (inject_Z 30) with 30.
      destruct (qltb 1 (x / 30)) eqn:E.
      + ring.
      + apply qltb_false in E. unfold Qdiv in *.
        change (/ 30) with (1 # 30) in *. lra.
    - vm_compute. reflexivity. }
  split; [vm_compute; reflexivity | ].
  split; [vm_compute; reflexivity | ].
  split; [vm_compute; reflexivity | ].
  intros a. reflexivity.
Qed.

Lemma C9_arrow_length_witness :
  le (arrowLength (of_Z 12)) (arrowLength (of_Z 45)) = true
  /\ arrowLength (of_Z 45) ~= of_Z 70.
Proof.
  split.
  - exact (proj1 (proj2 C9_arrow_length) (of_Z 12) (of_Z 45) eq_refl).
  - exact (proj1 (proj2 (proj2 C9_arrow_length)) (of_Z 45) eq_refl).
Defined.

End ArrowLength.

(** ** The synthetic sensor source *)

Section SimulatorRuns.

Import JS Samples Simulator.

Variable M : MathLib.
Variable random : nat -> number.

Ltac sim_simpl :=
  cbn [isRunning intervalId time latitude longitude speed bearing azimuth
       acceleration scenario scenarioTime onGpsUpdate onOrientationUpdate
       onMotionUpdate set_isRunning set_intervalId set_time set_latitude
       set_longitude set_speed set_bearing set_azimuth set_acceleration
       set_scenario set_scenarioTime fst snd] in *.

(** [updatePosition] and [sendUpdates] leave the scenario fields alone. *)
Lemma after_tick_fields (now : Z) (s : SensorSimulator) (n : nat) :
  let u := fst (updateScenario M random (clocked s) n) in
  speed (after_tick M random now s n) = speed u
  /\ acceleration (after_tick M random now s n) = acceleration u
  /\ scenario (after_tick M random now s n) = scenario u
  /\ scenarioTime (after_tick M random now s n) = scenarioTime u.
Proof.
  unfold after_tick, tick.
  change (set_scenarioTime _ (set_time _ s)) with (clocked s).
  destruct (updateScenario M random (clocked s) n) as [u n1].
  destruct (sendUpdates random now (updatePosition M u) n1) as [ds n2].
  cbn [fst snd]. unfold updatePosition.
  destruct (le (speed u) (of_Z 0)); sim_simpl; repeat split; reflexivity.
Qed.

Lemma updateScenario_accelerate (s : SensorSimulator) (n : nat) :
  scenario s = accelerate ->
  let u := fst (updateScenario M random s n) in
  speed u = Math_min (add (speed s) (Finite (5 # 10))) (of_Z 15)
  /\ acceleration u = Finite (25 # 10)
  /\ scenario u = (if gt (scenarioTime s) (of_Z 5) then cruise else accelerate)
  /\ scenarioTime u
     = (if gt (scenarioTime s) (of_Z 5) then Finite 0 else scenarioTime s).
Proof.
  intros H. unfold updateScenario. rewrite H. sim_simpl.
  destruct (gt (scenarioTime s) (of_Z 5)); sim_simpl; repeat split;
    try reflexivity; exact H.
Qed.

(** The speed [updateScenario] leaves, scenario by scenario. *)
Lemma updateScenario_speed (s : SensorSimulator) (n : nat) :
  speed (fst (updateScenario M random s n))
  = match scenario s with
    | accelerate => Math_min (add (speed s) (Finite (5 # 10))) (of_Z 15)
    | cruise => speed s
    | brake => Math_max (sub (speed s) (Finite (25 # 10))) (of_Z 0)
    | stop => of_Z 0
    end.
Proof.
  unfold updateScenario.
  destruct (scenario s); sim_simpl;
    repeat match goal with
           | |- context [if ?c then _ else _] => destruct c; sim_simpl
           end; reflexivity.
Qed.

Lemma after_tick_speed (now : Z) (s : SensorSimulator) (n : nat) :
  speed (after_tick M random now s n)
  = match scenario s with
    | accelerate => Math_min (add (speed s) (Finite (5 # 10))) (of_Z 15)
    | cruise => speed s
    | brake => Math_max (sub (speed s) (Finite (25 # 10))) (of_Z 0)
    | stop => of_Z 0
    end.
Proof.
  destruct (after_tick_fields now s n) as (A & _).
  rewrite A, updateScenario_speed. reflexivity.
Qed.

Lemma ticks_succ (clock : nat -> Z) (k : nat) (s : SensorSimulator) (n : nat) :
  fst (ticks M random clock (S k) s n)
  = after_tick M random (clock k) (fst (ticks M random clock k s n))
      (snd (ticks M random clock k s n)).
Proof.
  cbn [ticks]. unfold after_tick.
  destruct (ticks M random clock k s n) as [s' n']. cbn [fst snd].
  destruct (tick M random (clock k) s' n') as [[s'' n''] ds].
  reflexivity.
Qed.

(** One tick in the [accelerate] scenario. *)
Lemma after_tick_accelerate (now : Z) (s : SensorSimulator) (n : nat) :
  scenario s = accelerate ->
  let s' := after_tick M random now s n in
  let elapsed := add (scenarioTime s) step in
  speed s' = Math_min (add (speed s) (Finite (5 # 10))) (of_Z 15)
  /\ acceleration s' = Finite (25 # 10)
  /\ scenario s' = (if gt elapsed (of_Z 5) then cruise else accelerate)
  /\ scenarioTime s' = (if gt elapsed (of_Z 5) then Finite 0 else elapsed).
Proof.
  intros H.
  destruct (after_tick_fields now s n) as (A & B & C & D).
  destruct (updateScenario_accelerate (clocked s) n H) as (A' & B' & C' & D').
  cbv zeta. rewrite A, B, C, D, A', B', C', D'. repeat split.
Qed.

Lemma min_half_step (k : nat) (v : Q) :
  v == Qmin (inject_Z (Z.of_nat k) * (1 # 2)) 15 ->
  Qmin (v + (5 # 10)) 15 == Qmin (inject_Z (Z.of_nat (S k)) * (1 # 2)) 15.
Proof.
  intros Hv.
  assert (Hk : inject_Z (Z.of_nat (S k)) == inject_Z (Z.of_nat k) + 1).
  { rewrite Nat2Z.inj_succ. unfold Z.succ. rewrite inject_Z_plus.
    reflexivity. }
  destruct (Q.min_spec (inject_Z (Z.of_nat k) * (1 # 2)) 15)
    as [[? Hm] | [? Hm]];
    destruct (Q.min_spec (inject_Z (Z.of_nat (S k)) * (1 # 2)) 15)
      as [[? Hm'] | [? Hm']];
    destruct (Q.min_spec (v + (5 # 10)) 15) as [[? Hm''] | [? Hm'']];
    rewrite Hm', Hm''; rewrite Hm in Hv; lra.
Qed.

Lemma accelerating_step (now : Z) (k : nat) (s : SensorSimulator) (n : nat) :
  (k < 150)%nat ->
  accelerating_for k s ->
  accelerating_for (S k) (after_tick M random now s n).
Proof.
  intros Hk (Hs & Ht & Hv).
  destruct (after_tick_accelerate now s n Hs) as (A & _ & C & D).
  destruct (scenarioTime s) as [t | | | ] eqn:Et; try contradiction.
  destruct (speed s) as [v | | | ] eqn:Ev; try contradiction.
  cbn [num_eq] in Ht, Hv.
  assert (Hk' : inject_Z (Z.of_nat (S k)) == inject_Z (Z.of_nat k) + 1).
  { rewrite Nat2Z.inj_succ. unfold Z.succ. rewrite inject_Z_plus.
    reflexivity. }
  assert (Hb : inject_Z (Z.of_nat k) <= 149).
  { change 149 with (inject_Z 149). rewrite <- Zle_Qle. lia. }
  assert (G : gt (add (Finite t) step) (of_Z 5) = false).
  { change (gt (add (Finite t) step) (of_Z 5))
      with (qltb (inject_Z 5) (t + inject_Z 1 / inject_Z 30)).
    apply qltb_false.
    change (inject_Z 5) with 5.
    change (inject_Z 1 / inject_Z 30) with (1 # 30).
    lra. }
  rewrite G in C, D.
  split; [exact C | split].
  - rewrite D.
    change (add (Finite t) step)
      with (Finite (t + inject_Z 1 / inject_Z 30)).
    cbn [num_eq]. change (inject_Z 1 / inject_Z 30) with (1 # 30). lra.
  - rewrite A.
    change (Math_min (add (Finite v) (Finite (5 # 10))) (of_Z 15))
      with (if qltb (inject_Z 15) (v + (5 # 10))
            then Finite (inject_Z 15) else Finite (v + (5 # 10))).
    change (inject_Z 15) with 15.
    pose proof (min_half_step k v Hv) as Hm.
    destruct (qltb 15 (v + (5 # 10))) eqn:E; cbn [num_eq]; rewrite <- Hm.
    + apply qltb_true in E. rewrite Q.min_r by lra. reflexivity.
    + apply qltb_false in E. rewrite Q.min_l by lra. reflexivity.
Qed.

Lemma accelerating_start (s : SensorSimulator) :
  scenario s = accelerate ->
  speed s ~= Finite 0 -> scenarioTime s ~= Finite 0 ->
  accelerating_for 0 s.
Proof.
  intros Hs Hv Ht. split; [exact Hs | split].
  - destruct (scenarioTime s); try contradiction. cbn [num_eq] in *.
    change (inject_Z (Z.of_nat 0)) with 0. lra.
  - destruct (speed s); try contradiction. cbn [num_eq] in *.
    rewrite Hv. reflexivity.
Qed.

(** The first 150 ticks of an [accelerate] phase entered at rest. *)
Lemma accelerating_run (clock : nat -> Z) (s : SensorSimulator) (n : nat)
  (k : nat) :
  accelerating_for 0 s ->
  (k <= 150)%nat ->
  accelerating_for k (fst (ticks M random clock k s n)).
Proof.
  intros H0. induction k as [ | k IH]; intros Hk.
  - exact H0.
  - rewrite ticks_succ. apply accelerating_step; [lia | apply IH; lia].
Qed.

(** The tick that ends the phase: the 151st. *)
Lemma accelerating_end (now : Z) (s : SensorSimulator) (n : nat) :
  accelerating_for 150 s ->
  scenario (after_tick M random now s n) = cruise
  /\ speed (after_tick M random now s n) ~= of_Z 15.
Proof.
  intros (Hs & Ht & Hv).
  destruct (after_tick_accelerate now s n Hs) as (A & _ & C & _).
  destruct (scenarioTime s) as [t | | | ] eqn:Et; try contradiction.
  destruct (speed s) as [v | | | ] eqn:Ev; try contradiction.
  cbn [num_eq] in Ht, Hv.
  change (inject_Z (Z.of_nat 150)) with 150 in Ht, Hv.
  rewrite Q.min_r in Hv by lra.
  assert (G : gt (add (Finite t) step) (of_Z 5) = true).
  { change (gt (add (Finite t) step) (of_Z 5))
      with (qltb (inject_Z 5) (t + inject_Z 1 / inject_Z 30)).
    apply qltb_true.
    change (inject_Z 5) with 5.
    change (inject_Z 1 / inject_Z 30) with (1 # 30).
    lra. }
  rewrite G in C. split; [exact C | ].
  rewrite A.
  change (Math_min (add (Finite v) (Finite (5 # 10))) (of_Z 15))
    with (if qltb (inject_Z 15) (v + (5 # 10))
          then Finite (inject_Z 15) else Finite (v + (5 # 10))).
  change (inject_Z 15) with 15.
  destruct (qltb 15 (v + (5 # 10))) eqn:E.
  - reflexivity.
  - apply qltb_false in E. lra.
Qed.

Lemma speed_in_range_step (now : Z) (s : SensorSimulator) (n : nat) :
  speed_in_range s -> speed_in_range (after_tick M random now s n).
Proof.
  intros (v & Hv & L & U).
  unfold speed_in_range. rewrite after_tick_speed, Hv.
  destruct (scenario s).
  - exists v. split; [reflexivity | split; assumption].
  - change (Math_min (add (Finite v) (Finite (5 # 10))) (of_Z 15))
      with (if qltb (inject_Z 15) (v + (5 # 10))
            then Finite (inject_Z 15) else Finite (v + (5 # 10))).
    change (inject_Z 15) with 15.
    destruct (qltb 15 (v + (5 # 10))) eqn:E.
    + exists 15. split; [reflexivity | lra].
    + apply qltb_false in E.
      exists (v + (5 # 10)). split; [reflexivity | lra].
  - change (Math_max (sub (Finite v) (Finite (25 # 10))) (of_Z 0))
      with (if qltb (v + - (25 # 10)) (inject_Z 0)
            then Finite (inject_Z 0) else Finite (v + - (25 # 10))).
    change (inject_Z 0) with 0.
    destruct (qltb (v + - (25 # 10)) 0) eqn:E.
    + exists 0. split; [reflexivity | lra].
    + apply qltb_false in E.
      exists (v + - (25 # 10)). split; [reflexivity | lra].
  - exists 0. split; [reflexivity | lra].
Qed.

Lemma speed_in_range_run (clock : nat -> Z) (k : nat) (s : SensorSimulator)
  (n : nat) :
  speed_in_range s -> speed_in_range (fst (ticks M random clock k s n)).
Proof.
  intros H. induction k as [ | k IH].
  - exact H.
  - rewrite ticks_succ. apply speed_in_range_step. exact IH.
Qed.

(** C6, amended.  Every tick spent in [accelerate] adds 0.5 to the
    speed, capped at 15, and sets the forward acceleration to 2.5.
    Started in [accelerate] at rest with no time elapsed, the simulator
    is still in [accelerate] after each of the first 150 ticks (5
    simulated seconds), with the speed at 15 after the 150th; the 151st
    tick, the first at which the elapsed time exceeds 5 seconds, takes it
    to [cruise], the speed being exactly 15. *)
Theorem C6_accelerate_phase :
  (forall (now : Z) (s : SensorSimulator) (n : nat),
      scenario s = accelerate ->
      speed (after_tick M random now s n)
      = Math_min (add (speed s) (Finite (5 # 10))) (of_Z 15)
      /\ acceleration (after_tick M random now s n) = Finite (25 # 10))
  /\ (forall (clock : nat -> Z) (s : SensorSimulator) (n : nat),
        scenario s = accelerate ->
        speed s ~= Finite 0 ->
        scenarioTime s ~= Finite 0 ->
        (forall k : nat,
            (k <= 150)%nat ->
            scenario (fst (ticks M random clock k s n)) = accelerate)
        /\ speed (fst (ticks M random clock 150 s n)) ~= of_Z 15
        /\ scenario (fst (ticks M random clock 151 s n)) = cruise
        /\ speed (fst (ticks M random clock 151 s n)) ~= of_Z 15).
Proof.
  split.
  - intros now s n H.
    destruct (after_tick_accelerate now s n H) as (A & B & _).
    split; [exact A | exact B].
  - intros clock s n Hs Hv Ht.
    pose proof (accelerating_start s Hs Hv Ht) as H0.
    split; [ | split].
    + intros k Hk.
      destruct (accelerating_run clock s n k H0 Hk) as (E & _). exact E.
    + destruct (accelerating_run clock s n 150 H0 (Nat.le_refl _))
        as (_ & _ & E).
      destruct (speed (fst (ticks M random clock 150 s n)));
        try contradiction.
      unfold of_Z. cbn [num_eq] in *.
      change (inject_Z (Z.of_nat 150)) with 150 in E.
      rewrite Q.min_r in E by lra. exact E.
    + rewrite ticks_succ.
      apply accelerating_end.
      apply accelerating_run; [exact H0 | apply Nat.le_refl].
Qed.

(** C10.  From any state whose speed is 0, the constructor's in
    particular, every state reached by ticks has a speed between 0 and
    15, whatever [Math] and the random draws give; one tick keeps the
    speed in that range, since it caps the speed at 15 in [accelerate],
    floors it at 0 in [brake], sets it to 0 in [stop] and leaves it alone
    in [cruise]. *)
Theorem C10_speed_bounds :
  (forall (clock : nat -> Z) (k : nat) (s : SensorSimulator) (n : nat),
      speed s = Finite 0 ->
      speed_in_range (fst (ticks M random clock k s n)))
  /\ (forall (clock : nat -> Z) (k n : nat),
        speed_in_range (fst (ticks M random clock k Simulator.new n)))
  /\ (forall (now : Z) (s : SensorSimulator) (n : nat),
        speed_in_range s ->
        speed_in_range (after_tick M random now s n))
  /\ (forall (now : Z) (s : SensorSimulator) (n : nat),
        speed (after_tick M random now s n)
        = match scenario s with
          | accelerate => Math_min (add (speed s) (Finite (5 # 10))) (of_Z 15)
          | cruise => speed s
          | brake => Math_max (sub (speed s) (Finite (25 # 10))) (of_Z 0)
          | stop => of_Z 0
          end).
Proof.
  split; [ | split; [ | split] ].
  - intros clock k s n H. apply speed_in_range_run.
    exists 0. split; [exact H | lra].
  - intros clock k n. apply speed_in_range_run.
    exists 0. split; [reflexivity | lra].
  - exact speed_in_range_step.
  - exact after_tick_speed.
Qed.

End SimulatorRuns.

Section SimulatorExamples.

Import JS Samples Simulator.

(** C6, as stated, fails: started in [accelerate] at rest, the simulator
    is still in [accelerate], not in [cruise], after 150 ticks.  The
    elapsed time is then exactly 5 seconds, which does not exceed 5. *)
Lemma C6_still_accelerating_after_150_ticks :
  let s150 :=
    fst (ticks Inputs.flat_math Inputs.halves Inputs.clock33 150
           Inputs.at_rest_accelerating 0) in
  scenario s150 = accelerate
  /\ scenario s150 <> cruise
  /\ scenarioTime s150 ~= of_Z 5.
Proof.
  cbv zeta.
  assert (H0 : accelerating_for 0 Inputs.at_rest_accelerating).
  { apply accelerating_start; reflexivity. }
  destruct (accelerating_run Inputs.flat_math Inputs.halves Inputs.clock33
              Inputs.at_rest_accelerating 0 150 H0 (Nat.le_refl _))
    as (A & B & _).
  split; [exact A | split].
  - rewrite A. discriminate.
  - destruct (scenarioTime _); try contradiction.
    unfold of_Z. cbn [num_eq] in *. rewrite B. reflexivity.
Qed.

(** Rounding does not change the tick at which the phase ends: in
    binary64 too the elapsed time exceeds 5 after 151 additions of
    [1 / 30], and not after 150. *)
Remark binary64_elapsed_crosses_5 :
  PrimFloat.ltb 5%float (binary64_elapsed 150) = false
  /\ PrimFloat.ltb 5%float (binary64_elapsed 151) = true.
Proof. split; vm_compute; reflexivity. Qed.

Lemma C6_accelerate_phase_witness :
  scenario
    (fst (ticks Inputs.flat_math Inputs.halves Inputs.clock33 151
            Inputs.at_rest_accelerating 0)) = cruise
  /\ speed
       (fst (ticks Inputs.flat_math Inputs.halves Inputs.clock33 151
               Inputs.at_rest_accelerating 0)) ~= of_Z 15.
Proof.
  destruct (proj2 (C6_accelerate_phase Inputs.flat_math Inputs.halves)
              Inputs.clock33 Inputs.at_rest_accelerating 0%nat
              eq_refl (Qeq_refl 0) (Qeq_refl 0)) as (_ & _ & A & B).
  split; [exact A | exact B].
Defined.

Lemma C10_speed_bounds_witness :
  speed_in_range
    (fst (ticks Inputs.flat_math Inputs.halves Inputs.clock33 400
            (install_callbacks Simulator.new) 0)).
Proof.
  exact (proj1 (C10_speed_bounds Inputs.flat_math Inputs.halves)
           Inputs.clock33 400%nat (install_callbacks Simulator.new) 0%nat
           eq_refl).
Defined.

End SimulatorExamples.

(** ** Stopping a sensor source *)

Section Stopping.

Import JS Samples.

(** [stop] on the live source cancels the position subscription. *)
Lemma stop_cancels_watch (M : MathLib) (m : Sensors.SensorManager)
  (w : Sensors.Window) (id : nat) (position : Sensors.GeolocationPosition) :
  Sensors.gpsWatchId m = Some id ->
  Sensors.dispatch M (Sensors.PositionFix id position)
    (fst (Sensors.stop m w)) (snd (Sensors.stop m w))
  = (fst (Sensors.stop m w), snd (Sensors.stop m w), []).
Proof.
  intros H. unfold Sensors.stop. rewrite H. cbn [fst snd].
  unfold Sensors.dispatch.
  cbn [Sensors.watches Sensors.set_watches].
  replace (existsb (Nat.eqb id)
             (filter (fun i => negb (Nat.eqb i id)) (Sensors.watches w)))
    with false; [reflexivity | ].
  symmetry. induction (Sensors.watches w) as [ | i l IH]; [reflexivity | ].
  cbn [filter]. destruct (Nat.eqb i id) eqn:E; cbn [negb].
  - exact IH.
  - cbn [existsb]. rewrite Nat.eqb_sym, E. exact IH.
Qed.

(** [stop] on the live source leaves the [window] listeners and the
    pending probes where they are. *)
Lemma stop_keeps_listeners (m : Sensors.SensorManager) (w : Sensors.Window) :
  Sensors.listeners (snd (Sensors.stop m w)) = Sensors.listeners w
  /\ Sensors.timeouts (snd (Sensors.stop m w)) = Sensors.timeouts w.
Proof.
  unfold Sensors.stop. destruct (Sensors.gpsWatchId m); split; reflexivity.
Qed.

(** [stop] on the simulator cancels the interval [start] armed: when the
    page comes to fire it, [tick] does not run. *)
Lemma simulator_stop_cancels_tick (M : MathLib) (random : nat -> number)
  (s : Simulator.SensorSimulator) (t : Simulator.Timers) (id : positive)
  (now : Z) (n : nat) :
  Simulator.intervalId s = Some id ->
  Simulator.fire M random id now
    (fst (Simulator.stop_ s t)) (snd (Simulator.stop_ s t)) n
  = (fst (Simulator.stop_ s t), n, []).
Proof.
  intros H. unfold Simulator.stop_. rewrite H. cbn [fst snd].
  unfold Simulator.fire. cbn [Simulator.intervals].
  replace (existsb (Pos.eqb id)
             (filter (fun i => negb (Pos.eqb i id)) (Simulator.intervals t)))
    with false; [reflexivity | ].
  symmetry. induction (Simulator.intervals t) as [ | i l IH]; [reflexivity | ].
  cbn [filter]. destruct (Pos.eqb i id) eqn:E; cbn [negb].
  - exact IH.
  - cbn [existsb]. rewrite Pos.eqb_sym, E. exact IH.
Qed.

(** C7 at the failing input.  The live source is started (position,
    motion and orientation) and then stopped.  A position fix is no
    longer delivered, but a [devicemotion] event and a
    [deviceorientationabsolute] event fired after [stop] has returned
    still reach [onMotionUpdate] and [onOrientationUpdate]: [stop] has
    removed neither listener, and the two probes are still pending. *)
Theorem C7_live_stop_leaves_listeners :
  forall M : MathLib,
    let m := fst Inputs.stopped in
    let w := snd Inputs.stopped in
    Sensors.gpsWatchId m = None
    /\ Sensors.watches w = []
    /\ snd (Sensors.dispatch M (Sensors.PositionFix 1 Inputs.standing_fix) m w)
       = []
    /\ Sensors.listeners w
       = [(Sensors.deviceorientationabsolute, Sensors.orientationListener);
          (Sensors.devicemotion, Sensors.motionListener)]
    /\ Sensors.timeouts w = [Sensors.orientationProbe; Sensors.motionProbe]
    /\ match snd (Sensors.dispatch M (Sensors.Motion Inputs.braking_motion)
                    m w) with
       | [MotionUpdate sample] => forward sample = Finite (- (3))
       | _ => False
       end
    /\ match snd (Sensors.dispatch M
                    (Sensors.Orientation Sensors.deviceorientationabsolute
                       Inputs.facing_east) m w) with
       | [OrientationUpdate sample] => to_number (azimuth sample) ~= of_Z 90
       | _ => False
       end.
Proof.
  intros M. cbv zeta.
  repeat split; vm_compute; reflexivity.
Qed.

End Stopping.

(* ================================================================== *)
(** * Further properties of the audio engine *)
(* ================================================================== *)

Section AudioSessions.

Import JS Audio.

Open Scope Z_scope.

Lemma beep_keeps_debounce (c : BeepCall) (e : AudioEngine) :
  debounceMs (snd (beep c e)) = debounceMs e.
Proof.
  unfold beep, playBeep.
  destruct (isUnlocked e); [ | reflexivity].
  destruct (audioContext e); [ | reflexivity].
  destruct (at_ms c - lastBeepTime e <? debounceMs e); [reflexivity | ].
  destruct (raises c); reflexivity.
Qed.

(** A call either leaves the last-beep time alone or moves it to its own
    time, which is then at least [debounceMs] later. *)
Lemma beep_last_time (c : BeepCall) (e : AudioEngine) :
  lastBeepTime (snd (beep c e)) = lastBeepTime e
  \/ (lastBeepTime (snd (beep c e)) = at_ms c
      /\ debounceMs e <= at_ms c - lastBeepTime e).
Proof.
  unfold beep, playBeep.
  destruct (isUnlocked e); [ | left; reflexivity].
  destruct (audioContext e); [ | left; reflexivity].
  destruct (at_ms c - lastBeepTime e <? debounceMs e) eqn:D;
    [left; reflexivity | ].
  apply Z.ltb_ge in D.
  destruct (raises c); right; split; (reflexivity || exact D).
Qed.

Lemma beep_success (c : BeepCall) (e : AudioEngine) :
  fst (beep c e) = true ->
  lastBeepTime (snd (beep c e)) = at_ms c
  /\ debounceMs e <= at_ms c - lastBeepTime e.
Proof.
  intros H. unfold beep in *.
  destruct (playBeep_started _ _ _ _ _ _ H) as (A & _ & _ & B).
  split; assumption.
Qed.

(** Every beep a series starts comes at least [debounceMs] after the
    last beep started before the series. *)
Lemma started_after_last (calls : list BeepCall) (e : AudioEngine) :
  0 <= debounceMs e ->
  Forall (fun t => debounceMs e <= t - lastBeepTime e) (started calls e).
Proof.
  revert e. induction calls as [ | c rest IH]; intros e Hd; [constructor | ].
  cbn [started].
  assert (Hd' : 0 <= debounceMs (snd (beep c e)))
    by (rewrite beep_keeps_debounce; exact Hd).
  specialize (IH (snd (beep c e)) Hd').
  rewrite beep_keeps_debounce in IH.
  assert (Hrest : Forall (fun t => debounceMs e <= t - lastBeepTime e)
                    (started rest (snd (beep c e)))).
  { eapply Forall_impl; [ | exact IH]. cbn beta. intros t Ht.
    destruct (beep_last_time c e) as [E | [E B]]; rewrite E in Ht; lia. }
  destruct (fst (beep c e)) eqn:R; [ | exact Hrest].
  constructor; [ | exact Hrest].
  destruct (beep_success c e R) as (_ & B). exact B.
Qed.

(** X1.  Whatever the series of [playBeep] calls and whatever the clock
    readings, any two beeps that start are at least [debounceMs] apart,
    the later one after the earlier one, provided [debounceMs] is not
    negative. *)
Theorem beeps_are_spaced (calls : list BeepCall) (e : AudioEngine) :
  0 <= debounceMs e ->
  StronglySorted (fun t1 t2 => debounceMs e <= t2 - t1) (started calls e).
Proof.
  revert e. induction calls as [ | c rest IH]; intros e Hd; [constructor | ].
  cbn [started].
  assert (Hd' : 0 <= debounceMs (snd (beep c e)))
    by (rewrite beep_keeps_debounce; exact Hd).
  pose proof (IH (snd (beep c e)) Hd') as S.
  rewrite beep_keeps_debounce in S.
  destruct (fst (beep c e)) eqn:R; [ | exact S].
  constructor; [exact S | ].
  pose proof (started_after_last rest (snd (beep c e)) Hd') as F.
  rewrite beep_keeps_debounce in F.
  destruct (beep_success c e R) as (L & _). rewrite L in F. exact F.
Qed.

Lemma beeps_are_spaced_witness :
  let calls :=
    [mkBeepCall 5000 false (of_Z 880) (of_Z 150) "sine";
     mkBeepCall 5400 false (of_Z 880) (of_Z 150) "sine";
     mkBeepCall 6100 true (of_Z 880) (of_Z 150) "sine";
     mkBeepCall 7000 false (of_Z 880) (of_Z 150) "sine";
     mkBeepCall 7200 false (of_Z 1200) (of_Z 100) "sine"] in
  started calls (Inputs.armed 0) = [5000; 7200]
  /\ StronglySorted (fun t1 t2 => 1000 <= t2 - t1)
       (started calls (Inputs.armed 0)).
Proof.
  cbv zeta. split; [reflexivity | ].
  apply (beeps_are_spaced
           [mkBeepCall 5000 false (of_Z 880) (of_Z 150) "sine";
            mkBeepCall 5400 false (of_Z 880) (of_Z 150) "sine";
            mkBeepCall 6100 true (of_Z 880) (of_Z 150) "sine";
            mkBeepCall 7000 false (of_Z 880) (of_Z 150) "sine";
            mkBeepCall 7200 false (of_Z 1200) (of_Z 100) "sine"]
           (Inputs.armed 0)).
  discriminate.
Defined.

Lemma beep_tones (c : BeepCall) (e : AudioEngine) :
  exists tone : list Tone,
    tones_of (snd (beep c e)) = tone ++ tones_of e
    /\ List.length tone = (if fst (beep c e) then 1%nat else 0%nat).
Proof.
  unfold beep, playBeep.
  destruct (isUnlocked e); [ | exists []; split; reflexivity].
  destruct (audioContext e) as [ctx | ] eqn:C;
    [ | exists []; split; reflexivity].
  destruct (at_ms c - lastBeepTime e <? debounceMs e);
    [exists []; split; reflexivity | ].
  destruct (raises c).
  - exists []. unfold tones_of. rewrite C. split; reflexivity.
  - eexists [_]. unfold tones_of. rewrite C. split; reflexivity.
Qed.

(** X2.  A series of [playBeep] calls starts exactly one tone for each
    call that returns [true] and none for the others, and it keeps every
    tone started before: the tones of the engine are the earlier ones
    preceded by as many new ones as calls succeeded. *)
Theorem tones_count_successes (calls : list BeepCall) (e : AudioEngine) :
  exists new : list Tone,
    tones_of (after_beeps calls e) = new ++ tones_of e
    /\ List.length new = List.length (started calls e).
Proof.
  revert e. induction calls as [ | c rest IH]; intros e.
  - exists []. split; reflexivity.
  - cbn [after_beeps started].
    destruct (IH (snd (beep c e))) as (new & E & L).
    destruct (beep_tones c e) as (tone & Et & Lt).
    exists (new ++ tone). rewrite E, Et, app_assoc. split; [reflexivity | ].
    rewrite length_app, L, Lt.
    destruct (fst (beep c e)); cbn [List.length]; lia.
Qed.

End AudioSessions.

Section AudioEngineStates.

Import JS Audio.

(** What holds of an engine however it was used: locked, it has started
    no tone; unlocked, it has its audio context. *)
Definition engine_sound (e : AudioEngine) : Prop :=
  if isUnlocked e then audioContext e <> None else tones_of e = [].

Lemma perform_sound (c : AudioCall) (e : AudioEngine) :
  engine_sound e -> engine_sound (perform c e).
Proof.
  unfold engine_sound, tones_of. destruct c as [clock fault | c | ms].
  - cbn [perform]. unfold unlock.
    destruct (isUnlocked e) eqn:U; cbn [snd]; [rewrite U; trivial | ].
    destruct clock as [t | ]; cbn [option_map snd].
    + destruct fault; cbn [snd isUnlocked audioContext tones].
      * reflexivity.
      * discriminate.
    + rewrite U. trivial.
  - cbn [perform]. unfold beep, playBeep.
    destruct (isUnlocked e) eqn:U; cbn [snd]; [ | rewrite U; trivial].
    destruct (audioContext e) as [ctx | ] eqn:C; cbn [snd];
      [ | rewrite U, C; trivial].
    destruct (at_ms c - lastBeepTime e <? debounceMs e)%Z; cbn [snd];
      [rewrite U, C; trivial | ].
    destruct (raises c); cbn [snd isUnlocked audioContext]; rewrite ?U, ?C;
      discriminate.
  - cbn [perform setDebounce isUnlocked audioContext]. trivial.
Qed.

(** X3.  However a new engine is used ([unlock], [playBeep] and
    [setDebounce] in any order, succeeding or failing), it never starts
    a tone while it is locked, and once it is unlocked it has an audio
    context: the second test of [playBeep]'s guard never fires on its
    own. *)
Theorem engine_never_beeps_locked (calls : list AudioCall) :
  let e := session calls Audio.new in
  if isUnlocked e then audioContext e <> None else tones_of e = [].
Proof.
  cbv zeta. change (engine_sound (session calls Audio.new)).
  assert (G : forall e, engine_sound e -> engine_sound (session calls e)).
  { induction calls as [ | c rest IH]; intros e H; [exact H | ].
    unfold session in *. cbn [fold_left]. apply IH, perform_sound, H. }
  apply G. reflexivity.
Qed.

(** X4.  A beep that passes the guard but fails in the audio platform
    still opens the debounce window: the call returns [false] and starts
    no tone, and every call made less than [debounceMs] after it is
    refused as well, whether or not the platform would fail again. *)
Theorem failed_beep_still_debounces (t1 t2 : Z) (fault2 : bool)
  (f1 d1 f2 d2 : number) (ty1 ty2 : string) (e : AudioEngine)
  (ctx : AudioContext) :
  isUnlocked e = true ->
  audioContext e = Some ctx ->
  (debounceMs e <= t1 - lastBeepTime e)%Z ->
  (t2 - t1 < debounceMs e)%Z ->
  let first := playBeep t1 true f1 d1 ty1 e in
  let second := playBeep t2 fault2 f2 d2 ty2 (snd first) in
  fst first = false
  /\ fst second = false
  /\ tones_of (snd second) = tones_of e
  /\ lastBeepTime (snd second) = t1.
Proof.
  intros U C D1 D2 first second.
  assert (E1 : first
               = (false,
                  {| audioContext := Some ctx; isUnlocked := true;
                     lastBeepTime := t1; debounceMs := debounceMs e |})).
  { unfold first, playBeep. rewrite U, C.
    apply Z.ltb_ge in D1. rewrite D1. reflexivity. }
  assert (E2 : second = (false, snd first)).
  { unfold second. apply playBeep_refused. right. right.
    rewrite E1. cbn [snd lastBeepTime debounceMs]. exact D2. }
  rewrite E2, E1. cbn [fst snd].
  repeat split. unfold tones_of. rewrite C. reflexivity.
Qed.

Lemma failed_beep_still_debounces_witness :
  let first :=
    playBeep 1001000 true (of_Z 880) (of_Z 150) "sine"
      (Inputs.armed 1000000) in
  let second :=
    playBeep 1001900 false (of_Z 880) (of_Z 150) "sine" (snd first) in
  fst first = false
  /\ fst second = false
  /\ tones_of (snd second) = tones_of (Inputs.armed 1000000)
  /\ lastBeepTime (snd second) = 1001000%Z.
Proof.
  apply (failed_beep_still_debounces 1001000 1001900 false
           (of_Z 880) (of_Z 150) (of_Z 880) (of_Z 150)
           "sine"%string "sine"%string (Inputs.armed 1000000)
           {| currentTime := Finite 0; tones := [] |});
    [reflexivity | reflexivity | discriminate | reflexivity].
Defined.

(** X5.  The order of the gain envelope.  On a context whose time is
    between 0 and 10^6 seconds, for a beep of [d] milliseconds, [d] at
    most 10^6: from 61 ms on the four instants come in order, start,
    attack end, release start, end, as for the brake alert (150 ms); up
    to 59 ms the release begins before the attack has ended, and up to
    49 ms before the tone starts.  The margins are of one millisecond,
    far above the rounding of binary64 at these magnitudes; at 60 ms
    the order is decided by the rounding, see
    [binary64_envelope_at_60]. *)
Theorem beep_envelope (c d : Q) (f : number) (ty : string)
  (played : list Tone) :
  0 <= c <= 1000000 ->
  0 <= d <= 1000000 ->
  let tone :=
    beep_tone {| currentTime := Finite c; tones := played |} f (Finite d) ty in
  startTime tone = Finite c
  /\ (61 <= d ->
      lt (startTime tone) (attackEnd tone) = true
      /\ lt (attackEnd tone) (releaseStart tone) = true
      /\ lt (releaseStart tone) (endTime tone) = true)
  /\ (d <= 59 -> lt (releaseStart tone) (attackEnd tone) = true)
  /\ (d <= 49 -> lt (releaseStart tone) (startTime tone) = true).
Proof.
  intros Hc Hd. cbv zeta. unfold beep_tone.
  cbn [currentTime startTime endTime attackEnd releaseStart].
  change (div (Finite d) (of_Z 1000)) with (Finite (d / inject_Z 1000)).
  cbn [add sub neg lt].
  change (inject_Z 1000) with 1000.
  unfold Qdiv. change (/ 1000) with (1 # 1000).
  split; [reflexivity | ].
  split; [intros H; repeat split; apply qltb_true; lra | ].
  split; intros H; apply qltb_true; lra.
Qed.

Lemma beep_envelope_witness :
  let tone :=
    beep_tone {| currentTime := Finite 12; tones := [] |}
      (of_Z 880) (Finite 150) "sine" in
  startTime tone = Finite 12
  /\ (61 <= 150 ->
      lt (startTime tone) (attackEnd tone) = true
      /\ lt (attackEnd tone) (releaseStart tone) = true
      /\ lt (releaseStart tone) (endTime tone) = true)
  /\ (150 <= 59 -> lt (releaseStart tone) (attackEnd tone) = true)
  /\ (150 <= 49 -> lt (releaseStart tone) (startTime tone) = true).
Proof.
  apply (beep_envelope 12 150 (of_Z 880) "sine" []).
  - split; discriminate.
  - split; discriminate.
Defined.

(** At 60 ms the exact envelope has the attack end and the release
    start at the same instant; in binary64, on a context at time 0, the
    release start is 0.009999999999999995 and comes first. *)
Remark binary64_envelope_at_60 :
  PrimFloat.ltb (Binary64.releaseStart 0%float 60%float)
    (Binary64.attackEnd 0%float) = true
  /\ le (releaseStart (beep_tone {| currentTime := Finite 0; tones := [] |}
                         (of_Z 880) (Finite 60) "sine"))
        (attackEnd (beep_tone {| currentTime := Finite 0; tones := [] |}
                      (of_Z 880) (Finite 60) "sine")) = true
  /\ le (attackEnd (beep_tone {| currentTime := Finite 0; tones := [] |}
                      (of_Z 880) (Finite 60) "sine"))
        (releaseStart (beep_tone {| currentTime := Finite 0; tones := [] |}
                         (of_Z 880) (Finite 60) "sine")) = true.
Proof. repeat split; vm_compute; reflexivity. Qed.

End AudioEngineStates.

(* ================================================================== *)
(** * Further properties of the live sensor source *)
(* ================================================================== *)

Section Compass.

Import JS Samples Sensors.

Lemma qrem360_congruent (x : Q) :
  exists k : Z, qrem360 x == x + 360 * inject_Z k.
Proof.
  exists (- Qtrunc (x / inject_Z 360))%Z.
  unfold qrem360. rewrite inject_Z_opp. change (inject_Z 360) with 360. ring.
Qed.

(** X6.  From the page to the application: an orientation event that
    carries no iOS compass heading and an absolute, finite [alpha] makes
    the live source call [onOrientationUpdate] with the azimuth
    [(360 - alpha) % 360], and the application then stores a Number in
    [[0, 360)].  When [alpha] is a whole number [n] of degrees from 0 to
    360, the azimuth delivered and the azimuth stored are both [360 - n]
    modulo 360: every intermediate result is a whole number below 720,
    which binary64 computes exactly. *)
Theorem absolute_alpha_becomes_heading (event : DeviceOrientationEvent)
  (m : SensorManager) (a : App.VelocitatsApp) (alpha : Q) :
  webkitCompassHeading event = Undefined ->
  Sensors.alpha event = Num (Finite alpha) ->
  absolute event || usingAbsolute m = true ->
  onOrientationUpdate m = true ->
  exists sample : OrientationSample,
    snd (handleOrientation event m) = [OrientationUpdate sample]
    /\ azimuth sample
       = Num (rem (sub (of_Z 360) (Finite alpha)) (of_Z 360))
    /\ (exists r : Q,
          App.currentAzimuth (App.handleOrientationUpdate sample a) = Finite r
          /\ 0 <= r < 360)
    /\ forall n : Z,
         alpha == inject_Z n ->
         (0 <= n <= 360)%Z ->
         to_number (azimuth sample) ~= of_Z ((360 - n) mod 360)
         /\ App.currentAzimuth (App.handleOrientationUpdate sample a)
            ~= of_Z ((360 - n) mod 360).
Proof.
  intros Hw Ha Habs Hcb.
  assert (Ez : event_azimuth event m
               = Some (Num (Finite (qrem360 (inject_Z 360 + - alpha))))).
  { unfold event_azimuth. rewrite Hw, Ha, Habs. reflexivity. }
  unfold handleOrientation. rewrite Ez.
  cbn [present negb andb]. rewrite andb_false_r.
  eexists. split.
  { cbn [snd].
    replace (onOrientationUpdate _) with true; [reflexivity | ].
    destruct (initialAzimuth (set_orientationReceived true m));
      cbn; rewrite Hcb; reflexivity. }
  cbn [azimuth to_number].
  split; [reflexivity | ].
  split.
  - exists (qwrap360 (qrem360 (inject_Z 360 + - alpha))).
    split; [reflexivity | apply qwrap360_range].
  - intros n Hn Hrange.
    assert (X : inject_Z 360 + - alpha == inject_Z (360 - n)).
    { unfold Z.sub. rewrite inject_Z_plus, inject_Z_opp, Hn. reflexivity. }
    assert (N : 0 <= inject_Z 360 + - alpha).
    { rewrite X. change 0 with (inject_Z 0). rewrite <- Zle_Qle. lia. }
    assert (R : normalized (inject_Z 360 + - alpha)
                  (qrem360 (inject_Z 360 + - alpha))).
    { split.
      - exact (qrem360_nonneg _ N).
      - apply qrem360_congruent. }
    pose proof (normalized_whole _ _ _ X R) as E1.
    split; [exact E1 | ].
    change (App.currentAzimuth _)
      with (Finite (qwrap360 (qrem360 (inject_Z 360 + - alpha)))).
    cbn [num_eq of_Z].
    pose proof (Z.mod_pos_bound (360 - n) 360 eq_refl) as [L U].
    apply (normalized_unique (qrem360 (inject_Z 360 + - alpha)));
      [apply qwrap360_normalized | ].
    split.
    + split.
      * change 0 with (inject_Z 0). rewrite <- Zle_Qle. exact L.
      * change 360 with (inject_Z 360). rewrite <- Zlt_Qlt. exact U.
    + exists 0%Z. rewrite E1. change (inject_Z 0) with 0. ring.
Qed.

End Compass.

Section CompassExamples.

Import JS Samples Sensors.

Lemma absolute_alpha_becomes_heading_witness :
  exists sample : OrientationSample,
    snd (handleOrientation Inputs.facing_east
           (install_callbacks Sensors.new))
    = [OrientationUpdate sample]
    /\ to_number (azimuth sample) ~= of_Z 90
    /\ App.currentAzimuth
         (App.handleOrientationUpdate sample (App.new Inputs.blank_page))
       ~= of_Z 90.
Proof.
  destruct (absolute_alpha_becomes_heading Inputs.facing_east
              (install_callbacks Sensors.new) (App.new Inputs.blank_page)
              (inject_Z 270) eq_refl eq_refl eq_refl eq_refl)
    as (sample & A & _ & _ & B).
  exists sample. split; [exact A | ].
  apply (B 270%Z); [reflexivity | lia].
Defined.

End CompassExamples.

Section PlatformRuns.

Import JS Samples Sensors.

Variable M : MathLib.

Lemma handleOrientation_initial (event : DeviceOrientationEvent)
  (m : SensorManager) :
  Sensors.initialAzimuth m <> Null ->
  Sensors.initialAzimuth (fst (handleOrientation event m))
  = Sensors.initialAzimuth m
  /\ Forall (carries_initial (Sensors.initialAzimuth m))
       (snd (handleOrientation event m)).
Proof.
  intros H. unfold handleOrientation.
  destruct (event_azimuth event m) as [z | ];
    [ | split; [reflexivity | constructor] ].
  destruct (negb (orientationReceived m) && negb (present z));
    [split; [reflexivity | constructor] | ].
  cbn [fst snd].
  assert (E : match Sensors.initialAzimuth (set_orientationReceived true m)
              with
              | Null => set_initialAzimuth z (set_orientationReceived true m)
              | _ => set_orientationReceived true m
              end = set_orientationReceived true m).
  { change (Sensors.initialAzimuth (set_orientationReceived true m))
      with (Sensors.initialAzimuth m).
    destruct (Sensors.initialAzimuth m); [reflexivity | | reflexivity].
    contradiction H. reflexivity. }
  rewrite E. cbn. split; [reflexivity | ].
  destruct (onOrientationUpdate m); repeat constructor.
Qed.

Lemma dispatch_initial (ev : PlatformEvent) (m : SensorManager)
  (w : Window) :
  Sensors.initialAzimuth m <> Null ->
  Sensors.initialAzimuth (fst (fst (dispatch M ev m w)))
  = Sensors.initialAzimuth m
  /\ Forall (carries_initial (Sensors.initialAzimuth m))
       (snd (dispatch M ev m w)).
Proof.
  intros H. destruct ev as [id position | t event | event | p];
    cbn [dispatch].
  - destruct (existsb (Nat.eqb id) (watches w));
      [ | split; [reflexivity | constructor] ].
    unfold onPosition. cbn. split; [reflexivity | ].
    destruct (onGpsUpdate m); repeat constructor.
  - destruct (listening t orientationListener w);
      [ | split; [reflexivity | constructor] ].
    destruct (handleOrientation_initial event m H) as (A & B).
    destruct (handleOrientation event m) as [m' ds]. split; assumption.
  - destruct (listening devicemotion motionListener w);
      [ | split; [reflexivity | constructor] ].
    unfold handleMotion.
    destruct (match acceleration event with
              | Some a => Some a
              | None => accelerationIncludingGravity event
              end) as [acc | ]; [ | split; [reflexivity | constructor] ].
    destruct (ax acc) as [ | | nx]; destruct (ay acc) as [ | | ny];
      destruct (az acc) as [ | | nz]; cbn;
        (split; [reflexivity | ]);
        try constructor;
        destruct (onMotionUpdate m); repeat constructor.
  - destruct (existsb (Probe_eqb p) (timeouts w));
      [ | split; [reflexivity | constructor] ].
    cbn. split; [reflexivity | ].
    unfold on_probe, handleError.
    destruct p; repeat match goal with
                       | |- context [if ?c then _ else _] => destruct c
                       end; repeat constructor.
Qed.

(** X7.  The first azimuth is kept for good: once [initialAzimuth] is
    not [null], no event the page delivers (fixes, orientation and
    motion events, probes) changes it, and every orientation sample handed
    to the application carries it. *)
Theorem initial_azimuth_is_kept (evs : list PlatformEvent)
  (m : SensorManager) (w : Window) :
  Sensors.initialAzimuth m <> Null ->
  Sensors.initialAzimuth (fst (fst (dispatch_all M evs m w)))
  = Sensors.initialAzimuth m
  /\ Forall (carries_initial (Sensors.initialAzimuth m))
       (snd (dispatch_all M evs m w)).
Proof.
  revert m w. induction evs as [ | ev rest IH]; intros m w H.
  - split; [reflexivity | constructor].
  - cbn [dispatch_all].
    destruct (dispatch_initial ev m w H) as (A & B).
    destruct (dispatch M ev m w) as [[m1 w1] ds1]. cbn [fst snd] in A, B.
    assert (H1 : Sensors.initialAzimuth m1 <> Null) by (rewrite A; exact H).
    destruct (IH m1 w1 H1) as (A' & B').
    destruct (dispatch_all M rest m1 w1) as [[m2 w2] ds2].
    cbn [fst snd] in *. rewrite A in A', B'.
    split; [exact A' | ]. apply Forall_app. split; assumption.
Qed.

End PlatformRuns.

Section PlatformRunExamples.

Import JS Samples Sensors.

Lemma initial_azimuth_is_kept_witness :
  let m :=
    fst (handleOrientation Inputs.facing_east
           (install_callbacks Sensors.new)) in
  let evs :=
    [Motion Inputs.braking_motion;
     Orientation deviceorientationabsolute Inputs.facing_east;
     Timeout orientationProbe] in
  Sensors.initialAzimuth
    (fst (fst (dispatch_all Inputs.flat_math evs m (snd Inputs.started))))
  = Sensors.initialAzimuth m
  /\ Forall (carries_initial (Sensors.initialAzimuth m))
       (snd (dispatch_all Inputs.flat_math evs m (snd Inputs.started))).
Proof.
  cbv zeta.
  apply (initial_azimuth_is_kept Inputs.flat_math
           [Motion Inputs.braking_motion;
            Orientation deviceorientationabsolute Inputs.facing_east;
            Timeout orientationProbe]
           (fst (handleOrientation Inputs.facing_east
                   (install_callbacks Sensors.new)))
           (snd Inputs.started)).
  discriminate.
Defined.

End PlatformRunExamples.

Section MotionLiveness.

Import JS Samples Sensors.

Variable M : MathLib.

Lemma handleMotion_received (event : DeviceMotionEvent) (m : SensorManager) :
  motionReceived (fst (handleMotion M event m))
  = motionReceived m || usable_motion event
  /\ onError (fst (handleMotion M event m)) = onError m.
Proof.
  unfold handleMotion, usable_motion.
  destruct (acceleration event) as [a | ];
    [ | destruct (accelerationIncludingGravity event) as [a | ] ];
    try (cbn; rewrite orb_false_r; split; reflexivity);
    destruct (ax a) as [ | | nx]; destruct (ay a) as [ | | ny];
      destruct (az a) as [ | | nz]; cbn;
        rewrite ?orb_true_r, ?orb_false_r; split; reflexivity.
Qed.

Lemma dispatch_received (ev : PlatformEvent) (m : SensorManager)
  (w : Window) :
  listening devicemotion motionListener w = true ->
  motionReceived (fst (fst (dispatch M ev m w)))
  = motionReceived m || any_usable_motion [ev]
  /\ onError (fst (fst (dispatch M ev m w))) = onError m
  /\ listeners (snd (fst (dispatch M ev m w))) = listeners w.
Proof.
  intros L. unfold any_usable_motion. cbn [existsb]. rewrite orb_false_r.
  destruct ev as [id position | t event | event | p]; cbn [dispatch].
  - rewrite orb_false_r.
    destruct (existsb (Nat.eqb id) (watches w)); repeat split.
  - rewrite orb_false_r.
    destruct (listening t orientationListener w); [ | repeat split].
    unfold handleOrientation.
    destruct (event_azimuth event m) as [z | ]; [ | repeat split].
    destruct (negb (orientationReceived m) && negb (present z));
      [repeat split | ].
    destruct (Sensors.initialAzimuth (set_orientationReceived true m));
      repeat split.
  - rewrite L.
    destruct (handleMotion_received event m) as (A & B).
    destruct (handleMotion M event m) as [m' ds]. repeat split; assumption.
  - rewrite orb_false_r.
    destruct (existsb (Probe_eqb p) (timeouts w)); repeat split.
Qed.

Lemma dispatch_all_received (evs : list PlatformEvent) (m : SensorManager)
  (w : Window) :
  listening devicemotion motionListener w = true ->
  motionReceived (fst (fst (dispatch_all M evs m w)))
  = motionReceived m || any_usable_motion evs
  /\ onError (fst (fst (dispatch_all M evs m w))) = onError m.
Proof.
  revert m w. induction evs as [ | ev rest IH]; intros m w L.
  - cbn. rewrite orb_false_r. split; reflexivity.
  - cbn [dispatch_all].
    destruct (dispatch_received ev m w L) as (A & B & C).
    destruct (dispatch M ev m w) as [[m1 w1] ds1]. cbn [fst snd] in A, B, C.
    assert (L1 : listening devicemotion motionListener w1 = true).
    { unfold listening in *. rewrite C. exact L. }
    destruct (IH m1 w1 L1) as (A' & B').
    destruct (dispatch_all M rest m1 w1) as [[m2 w2] ds2].
    cbn [fst snd] in *. rewrite A', B', A, B.
    split; [ | reflexivity].
    unfold any_usable_motion in *. cbn [existsb].
    rewrite orb_false_r, orb_assoc. reflexivity.
Qed.

(** X8.  The verdict of the accelerometer probe.  With the motion
    listener and the error callback installed and no data received yet,
    whatever the page delivers before the probe runs (fixes, orientation
    events, motion events, the other probe), the probe reports
    "Accelerometer not available on this device" exactly when none of the
    motion events was usable, an event being unusable when it has no
    acceleration object or its three axes are all [null]. *)
Theorem motion_probe_verdict (evs : list PlatformEvent) (m : SensorManager)
  (w : Window) :
  listening devicemotion motionListener w = true ->
  motionReceived m = false ->
  onError m = true ->
  on_probe motionProbe (fst (fst (dispatch_all M evs m w)))
  = (if any_usable_motion evs then []
     else [SensorError motion
             "Accelerometer not available on this device"]).
Proof.
  intros L R E.
  destruct (dispatch_all_received evs m w L) as (A & B).
  unfold on_probe, handleError. rewrite A, B, R, E. cbn [orb].
  destruct (any_usable_motion evs); reflexivity.
Qed.

End MotionLiveness.

Section MotionLivenessExamples.

Import JS Samples Sensors.

Lemma motion_probe_verdict_witness :
  on_probe motionProbe
    (fst (fst (dispatch_all Inputs.flat_math
                 [Motion Inputs.empty_motion;
                  Orientation deviceorientationabsolute Inputs.facing_east;
                  Motion Inputs.empty_motion]
                 (fst Inputs.started) (snd Inputs.started))))
  = [SensorError motion "Accelerometer not available on this device"].
Proof.
  exact (motion_probe_verdict Inputs.flat_math
           [Motion Inputs.empty_motion;
            Orientation deviceorientationabsolute Inputs.facing_east;
            Motion Inputs.empty_motion]
           (fst Inputs.started) (snd Inputs.started)
           eq_refl eq_refl eq_refl).
Defined.

End MotionLivenessExamples.

Section Watches.

Import JS Samples Sensors.

Lemma existsb_filter_other (id id' : nat) (l : list nat) :
  id' <> id ->
  existsb (Nat.eqb id') (filter (fun i => negb (Nat.eqb i id)) l)
  = existsb (Nat.eqb id') l.
Proof.
  intros H. induction l as [ | i l IH]; [reflexivity | ].
  cbn [filter existsb]. destruct (Nat.eqb i id) eqn:E; cbn [negb].
  - apply Nat.eqb_eq in E. subst i.
    replace (Nat.eqb id' id) with false
      by (symmetry; apply Nat.eqb_neq; exact H).
    exact IH.
  - cbn [existsb]. rewrite IH. reflexivity.
Qed.

(** X9.  [stop] cancels the position subscription the manager holds,
    and only that one: a fix reported on it afterwards reaches nothing,
    while a fix on any other subscription still active on the page (one
    left by an earlier [startGps]) is delivered as before. *)
Theorem stop_cancels_its_watch_only (M : MathLib) (m : SensorManager)
  (w : Window) (id : nat) (position : GeolocationPosition) :
  gpsWatchId m = Some id ->
  snd (dispatch M (PositionFix id position)
         (fst (stop m w)) (snd (stop m w))) = []
  /\ forall id' : nat,
       id' <> id ->
       snd (dispatch M (PositionFix id' position)
              (fst (stop m w)) (snd (stop m w)))
       = snd (dispatch M (PositionFix id' position) m w).
Proof.
  intros H. split.
  - rewrite (stop_cancels_watch M m w id position H). reflexivity.
  - intros id' Hne. unfold stop. rewrite H. cbn [fst snd dispatch].
    cbn [watches set_watches]. rewrite (existsb_filter_other id id' _ Hne).
    destruct (existsb (Nat.eqb id') (watches w)); reflexivity.
Qed.

Lemma stop_cancels_its_watch_only_witness :
  let twice :=
    startGps (fst (startGps (install_callbacks Sensors.new)
                     Inputs.fresh_window))
      (snd (startGps (install_callbacks Sensors.new) Inputs.fresh_window)) in
  gpsWatchId (fst twice) = Some 2%nat
  /\ snd (dispatch Inputs.flat_math (PositionFix 2 Inputs.standing_fix)
            (fst (stop (fst twice) (snd twice)))
            (snd (stop (fst twice) (snd twice)))) = []
  /\ snd (dispatch Inputs.flat_math (PositionFix 1 Inputs.standing_fix)
            (fst (stop (fst twice) (snd twice)))
            (snd (stop (fst twice) (snd twice))))
     = [GpsUpdate (position_sample Inputs.standing_fix)].
Proof.
  cbv zeta. split; [reflexivity | ].
  destruct (stop_cancels_its_watch_only Inputs.flat_math
              (fst (startGps
                      (fst (startGps (install_callbacks Sensors.new)
                              Inputs.fresh_window))
                      (snd (startGps (install_callbacks Sensors.new)
                              Inputs.fresh_window))))
              (snd (startGps
                      (fst (startGps (install_callbacks Sensors.new)
                              Inputs.fresh_window))
                      (snd (startGps (install_callbacks Sensors.new)
                              Inputs.fresh_window))))
              2%nat Inputs.standing_fix eq_refl) as (A & B).
  split; [exact A | ].
  rewrite (B 1%nat); [reflexivity | discriminate].
Defined.

End Watches.

Section CardinalRange.

Import JS Sensors.

(** X10.  [bearingToCardinal] is defined on a window around the circle
    and nowhere else: it returns a label exactly for the finite bearings
    from -22.5 up to, not including, 382.5, and [undefined] for every
    other Number (NaN and the infinities included). *)
Theorem bearingToCardinal_defined (bearing : number) :
  (exists label : string, bearingToCardinal bearing = Some label)
  <-> exists q : Q, bearing = Finite q /\ - (45 # 2) <= q < 765 # 2.
Proof.
  destruct bearing as [q | | | ].
  - rewrite bearingToCardinal_index.
    remember (Qfloor (q * (1 # 45) + (1 # 2))) as k eqn:Ek.
    pose proof (Qfloor_le (q * (1 # 45) + (1 # 2))) as F1.
    pose proof (Qlt_floor (q * (1 # 45) + (1 # 2))) as F2.
    rewrite <- Ek in F1, F2. rewrite inject_Z_plus in F2.
    change (inject_Z 1) with 1 in F2.
    split.
    + intros (label & H). exists q. split; [reflexivity | ].
      unfold JS.index in H. rewrite Qfloor_Z in H.
      destruct (Qeq_bool (inject_Z k) (inject_Z k) && (0 <=? k)%Z) eqn:G;
        [ | discriminate H].
      apply andb_true_iff in G. destruct G as (_ & G).
      apply Z.leb_le in G.
      assert (K : (k < 9)%Z).
      { destruct (Z_lt_le_dec k 9) as [L | L]; [exact L | exfalso].
        assert (N : nth_error directions (Z.to_nat k) = None).
        { apply nth_error_None. cbn [List.length directions]. lia. }
        rewrite N in H. discriminate H. }
      assert (K' : (k <= 8)%Z) by lia.
      rewrite Zle_Qle in G, K'.
      change (inject_Z 0) with 0 in G. change (inject_Z 8) with 8 in K'.
      split; lra.
    + intros (q' & E & L & U). injection E as <-.
      assert (K0 : (0 <= k)%Z).
      { assert (A : (-1 < k)%Z).
        { rewrite Zlt_Qlt. change (inject_Z (-1)) with (-1). lra. }
        lia. }
      assert (K8 : (k < 9)%Z).
      { rewrite Zlt_Qlt. change (inject_Z 9) with 9. lra. }
      rewrite index_integer by exact K0.
      destruct (nth_error directions (Z.to_nat k)) as [label | ] eqn:N.
      * exists label. reflexivity.
      * apply nth_error_None in N. cbn in N. lia.
  - split; [intros (l & H); discriminate H | intros (q & E & _); discriminate E].
  - split; [intros (l & H); discriminate H | intros (q & E & _); discriminate E].
  - split; [intros (l & H); discriminate H | intros (q & E & _); discriminate E].
Qed.

End CardinalRange.

Section DegreesMinutesSeconds.

Import JS Sensors.

Lemma toDMS_finite (q : Q) (isLatitude : bool) :
  let a := Qabs q in
  let D := Qfloor a in
  let mf := (a + - inject_Z D) * inject_Z 60 in
  let Mi := Qfloor mf in
  let sec := (mf + - inject_Z Mi) * inject_Z 60 in
  toDMS (Num (Finite q)) isLatitude
  = (integral_toString (Finite (inject_Z D)) ++ "° "
     ++ integral_toString (Finite (inject_Z Mi)) ++ "' "
     ++ toFixed3 (Finite sec) ++ dquote ++ " "
     ++ hemisphere q isLatitude)%string.
Proof. reflexivity. Qed.

Lemma string_app_assoc (s1 s2 s3 : string) :
  ((s1 ++ s2) ++ s3 = s1 ++ (s2 ++ s3))%string.
Proof.
  induction s1 as [ | c s1 IH]; [reflexivity | ].
  cbn [String.append]. rewrite IH. reflexivity.
Qed.

Lemma integral_toString_natural (z : Z) :
  (0 <= z)%Z -> integral_toString (Finite (inject_Z z)) = digits z.
Proof.
  intros H. unfold integral_toString. rewrite Qfloor_Z.
  apply Z.ltb_ge in H. rewrite H. reflexivity.
Qed.

(** X11.  [toDMS] on a coordinate between -180 and 180: the text is
    made of the whole degrees [D] of the absolute value, minutes [Mi]
    between 0 and 59, seconds printed with three decimals as [n]
    thousandths, and the hemisphere letter (N or E from 0 up, S or W
    below).  The seconds are rounded but not carried, so [n] ranges up to
    60000 included: [1 - 2^-24], about 0.99999994, prints as 0 degrees
    59 minutes 60.000 seconds.  Read back, the text is within a
    thousandth of a second of arc of the absolute value: half of it is
    the rounding of [toFixed], the rest is room for the rounding of the
    two multiplications by 60, which in binary64 can move the last digit
    printed by one.  The three inputs evaluated are binary64 values on
    which every intermediate result is representable. *)
Theorem toDMS_decomposition :
  (forall (q : Q) (isLatitude : bool),
      Qabs q <= 180 ->
      exists D Mi n : Z,
        toDMS (Num (Finite q)) isLatitude
        = dms_text D Mi n (hemisphere q isLatitude)
        /\ (0 <= D <= 180)%Z
        /\ (0 <= Mi <= 59)%Z
        /\ (0 <= n <= 60000)%Z
        /\ Qabs (inject_Z D + inject_Z Mi / 60 + inject_Z n / 3600000
                 - Qabs q) <= 1 # 3600000)
  /\ toDMS (Num (Finite 0)) true
     = ("0° 0' 0.000" ++ dquote ++ " N")%string
  /\ toDMS (Num (Finite (- (415 # 10)))) false
     = ("41° 30' 0.000" ++ dquote ++ " W")%string
  /\ toDMS (Num (Finite (16777215 # 16777216))) true
     = ("0° 59' 60.000" ++ dquote ++ " N")%string.
Proof.
  split; [ | repeat split; vm_compute; reflexivity].
  intros q isLatitude Hq.
  rewrite toDMS_finite. cbv zeta.
  set (a := Qabs q).
  set (D := Qfloor a).
  set (mf := (a + - inject_Z D) * inject_Z 60).
  set (Mi := Qfloor mf).
  set (sec := (mf + - inject_Z Mi) * inject_Z 60).
  assert (A0 : 0 <= a) by apply Qabs_nonneg.
  pose proof (Qfloor_le a) as D1. pose proof (Qlt_floor a) as D2.
  fold D in D1, D2. rewrite inject_Z_plus in D2.
  change (inject_Z 1) with 1 in D2.
  assert (M0 : 0 <= mf < 60)
    by (unfold mf; change (inject_Z 60) with 60; lra).
  pose proof (Qfloor_le mf) as M1. pose proof (Qlt_floor mf) as M2.
  fold Mi in M1, M2. rewrite inject_Z_plus in M2.
  change (inject_Z 1) with 1 in M2.
  assert (S0 : 0 <= sec < 60)
    by (unfold sec; change (inject_Z 60) with 60; lra).
  assert (DZ : (0 <= D <= 180)%Z).
  { split.
    - assert (T : (-1 < D)%Z)
        by (rewrite Zlt_Qlt; change (inject_Z (-1)) with (-1); lra).
      lia.
    - rewrite Zle_Qle. change (inject_Z 180) with 180. fold a in Hq. lra. }
  assert (MZ : (0 <= Mi <= 59)%Z).
  { split.
    - assert (T : (-1 < Mi)%Z)
        by (rewrite Zlt_Qlt; change (inject_Z (-1)) with (-1); lra).
      lia.
    - assert (T : (Mi < 60)%Z)
        by (rewrite Zlt_Qlt; change (inject_Z 60) with 60; lra).
      lia. }
  assert (SA : Qabs sec == sec) by (apply Qabs_pos; lra).
  set (n := thousandths (Qabs sec)).
  pose proof (Qfloor_le (Qabs sec * inject_Z 1000 + (1 # 2))) as N1.
  pose proof (Qlt_floor (Qabs sec * inject_Z 1000 + (1 # 2))) as N2.
  fold (thousandths (Qabs sec)) in N1, N2. fold n in N1, N2.
  rewrite inject_Z_plus in N2.
  change (inject_Z 1) with 1 in N2. change (inject_Z 1000) with 1000 in N1, N2.
  rewrite SA in N1, N2.
  assert (NZ : (0 <= n <= 60000)%Z).
  { split.
    - assert (T : (-1 < n)%Z)
        by (rewrite Zlt_Qlt; change (inject_Z (-1)) with (-1); lra).
      lia.
    - assert (T : (n < 60001)%Z)
        by (rewrite Zlt_Qlt; change (inject_Z 60001) with 60001; lra).
      lia. }
  exists D, Mi, n.
  split; [ | split; [exact DZ | split; [exact MZ | split; [exact NZ | ]]]].
  - rewrite !integral_toString_natural by lia.
    unfold toFixed3, dms_text. fold n.
    replace (qltb sec 0) with false
      by (symmetry; apply qltb_false; lra).
    cbn [String.append]. rewrite !string_app_assoc. reflexivity.
  - assert (E : inject_Z D + inject_Z Mi / 60 + inject_Z n / 3600000 - a
                == (inject_Z n * (1 # 1000) - sec) * (1 # 3600)).
    { unfold sec, mf. change (inject_Z 60) with 60. field. }
    rewrite E. apply Qabs_Qle_condition. split; lra.
Qed.

Lemma toDMS_decomposition_witness :
  exists D Mi n : Z,
    toDMS (Num (Finite (413851 # 10000))) true
    = dms_text D Mi n (hemisphere (413851 # 10000) true)
    /\ (0 <= D <= 180)%Z
    /\ (0 <= Mi <= 59)%Z
    /\ (0 <= n <= 60000)%Z
    /\ Qabs (inject_Z D + inject_Z Mi / 60 + inject_Z n / 3600000
             - Qabs (413851 # 10000)) <= 1 # 3600000.
Proof.
  apply (proj1 toDMS_decomposition (413851 # 10000) true).
  discriminate.
Defined.

End DegreesMinutesSeconds.

(* ================================================================== *)
(** * Further properties of the synthetic sensor source *)
(* ================================================================== *)

Ltac simulator_fields :=
  cbn [Simulator.isRunning Simulator.intervalId Simulator.time
       Simulator.latitude Simulator.longitude Simulator.speed
       Simulator.bearing Simulator.azimuth Simulator.acceleration
       Simulator.scenario Simulator.scenarioTime Simulator.onGpsUpdate
       Simulator.onOrientationUpdate Simulator.onMotionUpdate
       Simulator.set_isRunning Simulator.set_intervalId Simulator.set_time
       Simulator.set_latitude Simulator.set_longitude Simulator.set_speed
       Simulator.set_bearing Simulator.set_azimuth
       Simulator.set_acceleration Simulator.set_scenario
       Simulator.set_scenarioTime fst snd] in *.

Section SimulatorScenarios.

Import JS Samples Simulator.

Variable M : MathLib.
Variable random : nat -> number.

Lemma wrap360_is_heading (a : number) :
  is_finite a = true -> is_heading (wrap360 a).
Proof.
  destruct a as [q | | | ]; try discriminate. intros _.
  exists (qwrap360 q). split; [reflexivity | apply qwrap360_range].
Qed.

(** The headings a tick leaves: the wrapped values of those
    [updateScenario] computes. *)
Lemma after_tick_headings (now : Z) (s : SensorSimulator) (n : nat) :
  exists b z : number,
    bearing (after_tick M random now s n) = wrap360 b
    /\ azimuth (after_tick M random now s n) = wrap360 z
    /\ (scenario s <> cruise -> b = bearing s /\ z = azimuth s)
    /\ (scenario s = cruise ->
        b = add (bearing s)
              (mul (Math_sin M (mul (add (time s) step) (Finite (3 # 10))))
                   (Finite (5 # 10)))
        /\ z = add (azimuth s)
                (mul (Math_sin M (mul (add (time s) step) (Finite (2 # 10))))
                     (Finite (3 # 10)))).
Proof.
  unfold after_tick, tick.
  change (set_scenarioTime _ (set_time _ s)) with (clocked s).
  unfold updateScenario.
  change (scenario (clocked s)) with (scenario s).
  destruct (scenario s) eqn:Sc; simulator_fields;
    repeat match goal with
           | |- context [if ?c then _ else _] =>
               lazymatch c with
               | onGpsUpdate _ => fail
               | onOrientationUpdate _ => fail
               | onMotionUpdate _ => fail
               | _ => destruct c; simulator_fields
               end
           end;
    unfold updatePosition; simulator_fields;
    repeat match goal with
           | |- context [sendUpdates ?r ?t ?x ?k] =>
               destruct (sendUpdates r t x k); simulator_fields
           | |- context [if ?c then _ else _] => destruct c; simulator_fields
           end;
    eexists; eexists;
    (split; [reflexivity | split; [reflexivity | split]]);
    try (intros _; split; reflexivity);
    try (intros H; discriminate H);
    try (intros H; contradiction H; reflexivity).
Qed.

(** X12.  When [Math.sin] is finite on the finite Numbers and the
    simulated time, bearing and azimuth are finite, a tick leaves bearing
    and azimuth in [[0, 360)], whatever the scenario, the clock and the
    random draws; outside [cruise] they are [wrap360] of the old
    headings. *)
Theorem tick_keeps_headings_wrapped (now : Z) (s : SensorSimulator)
  (n : nat) :
  (forall x : number,
      is_finite x = true -> is_finite (Math_sin M x) = true) ->
  is_finite (time s) = true ->
  is_finite (bearing s) = true ->
  is_finite (azimuth s) = true ->
  is_heading (bearing (after_tick M random now s n))
  /\ is_heading (azimuth (after_tick M random now s n))
  /\ (scenario s <> cruise ->
      bearing (after_tick M random now s n) = wrap360 (bearing s)
      /\ azimuth (after_tick M random now s n) = wrap360 (azimuth s)).
Proof.
  intros Hsin Ht Hb Hz.
  destruct (after_tick_headings now s n) as (b & z & Eb & Ez & Hn & Hc).
  assert (F : is_finite b = true /\ is_finite z = true).
  { destruct (scenario s) eqn:Sc;
      try (destruct Hn as (-> & ->); [discriminate | split; assumption]).
    destruct (Hc eq_refl) as (-> & ->).
    destruct (time s) as [t | | | ]; try discriminate Ht.
    pose proof (Hsin (mul (add (Finite t) step) (Finite (3 # 10))) eq_refl)
      as S1.
    pose proof (Hsin (mul (add (Finite t) step) (Finite (2 # 10))) eq_refl)
      as S2.
    destruct (Math_sin M (mul (add (Finite t) step) (Finite (3 # 10))));
      try discriminate S1.
    destruct (Math_sin M (mul (add (Finite t) step) (Finite (2 # 10))));
      try discriminate S2.
    destruct (bearing s); try discriminate Hb.
    destruct (azimuth s); try discriminate Hz.
    split; reflexivity. }
  destruct F as (Fb & Fz).
  rewrite Eb, Ez.
  split; [apply wrap360_is_heading; exact Fb | ].
  split; [apply wrap360_is_heading; exact Fz | ].
  intros Hs. destruct (Hn Hs) as (-> & ->). split; reflexivity.
Qed.

End SimulatorScenarios.

Section SimulatorPhases.

Import JS Samples Simulator.

Variable M : MathLib.
Variable random : nat -> number.

Lemma updateScenario_phase (s : SensorSimulator) (n : nat) :
  let u := fst (updateScenario M random s n) in
  may_follow (scenario s) (scenario u) = true
  /\ (scenario u <> scenario s -> scenarioTime u = Finite 0)
  /\ (scenario u = scenario s -> scenarioTime u = scenarioTime s).
Proof.
  unfold updateScenario.
  destruct (scenario s) eqn:Sc; simulator_fields;
    repeat match goal with
           | |- context [if ?c then _ else _] => destruct c; simulator_fields
           end;
    rewrite ?Sc;
    (split; [reflexivity | split; intros H]);
    try reflexivity; try discriminate H; try (contradiction H; reflexivity).
Qed.

(** X13.  One tick changes the scenario only along the arrows
    accelerate -> cruise, cruise -> brake, cruise -> accelerate,
    brake -> stop, brake -> cruise and stop -> accelerate: it never goes
    from accelerate or stop to brake, for instance.  A tick that changes
    the scenario resets the scenario time to 0, and one that does not
    advances it by one step of 1/30. *)
Theorem tick_follows_scenario_graph (now : Z) (s : SensorSimulator)
  (n : nat) :
  let s' := after_tick M random now s n in
  may_follow (scenario s) (scenario s') = true
  /\ (scenario s' <> scenario s -> scenarioTime s' = Finite 0)
  /\ (scenario s' = scenario s ->
      scenarioTime s' = add (scenarioTime s) step).
Proof.
  cbv zeta.
  destruct (after_tick_fields M random now s n) as (_ & _ & C & D).
  destruct (updateScenario_phase (clocked s) n) as (A & B1 & B2).
  rewrite C, D. split; [exact A | split; [exact B1 | exact B2]].
Qed.

Lemma ticks_shift (clock : nat -> Z) (k : nat) (s : SensorSimulator)
  (n : nat) :
  ticks M random clock (S k) s n
  = ticks M random (fun i => clock (S i)) k
      (fst (fst (tick M random (clock 0%nat) s n)))
      (snd (fst (tick M random (clock 0%nat) s n))).
Proof.
  induction k as [ | k IH].
  - cbn [ticks]. destruct (tick M random (clock 0%nat) s n) as [[s1 n1] ds].
    reflexivity.
  - change (ticks M random clock (S (S k)) s n)
      with (let '(s', n') := ticks M random clock (S k) s n in
            let '(s'', n'', _) := tick M random (clock (S k)) s' n' in
            (s'', n'')).
    rewrite IH. reflexivity.
Qed.

(** One tick in the [brake] scenario. *)
Lemma after_tick_brake (now : Z) (s : SensorSimulator) (n : nat) :
  scenario s = brake ->
  let s' := after_tick M random now s n in
  let slowed := Math_max (sub (speed s) (Finite (25 # 10))) (of_Z 0) in
  let over := gt (add (scenarioTime s) step) (of_Z 2) || le slowed (of_Z 0) in
  speed s' = slowed
  /\ acceleration s' = neg (Finite (70 # 10))
  /\ scenario s'
     = (if over then (if le slowed (of_Z 0) then stop else cruise)
        else brake)
  /\ scenarioTime s'
     = (if over then Finite 0 else add (scenarioTime s) step).
Proof.
  intros H. cbv zeta.
  destruct (after_tick_fields M random now s n) as (A & B & C & D).
  rewrite A, B, C, D. unfold updateScenario.
  change (scenario (clocked s)) with (scenario s). rewrite H.
  simulator_fields.
  change (scenarioTime (clocked s)) with (add (scenarioTime s) step).
  change (speed (clocked s)) with (speed s).
  destruct (gt (add (scenarioTime s) step) (of_Z 2)
            || le (Math_max (sub (speed s) (Finite (25 # 10))) (of_Z 0))
                 (of_Z 0));
    simulator_fields; repeat split; try reflexivity; exact H.
Qed.

Lemma brake_run (N : nat) :
  forall (clock : nat -> Z) (s : SensorSimulator) (n : nat) (v t : Q),
    scenario s = brake ->
    speed s = Finite v ->
    0 <= v <= (5 # 2) * inject_Z (Z.of_nat N) ->
    scenarioTime s = Finite t ->
    0 <= t ->
    t + inject_Z (Z.of_nat N) * (1 # 30) <= 2 ->
    (1 <= N)%nat ->
    exists k : nat,
      (1 <= k <= N)%nat
      /\ scenario (fst (ticks M random clock k s n)) = stop
      /\ speed (fst (ticks M random clock k s n)) ~= Finite 0
      /\ forall j : nat,
           (j < k)%nat ->
           scenario (fst (ticks M random clock j s n)) = brake.
Proof.
  induction N as [ | N IH]; intros clock s n v t Hs Hv Bv Ht Bt Bn HN;
    [lia | ].
  assert (EN : inject_Z (Z.of_nat (S N)) == inject_Z (Z.of_nat N) + 1).
  { rewrite Nat2Z.inj_succ. unfold Z.succ. rewrite inject_Z_plus.
    reflexivity. }
  assert (N0 : 0 <= inject_Z (Z.of_nat N)).
  { change 0 with (inject_Z 0). rewrite <- Zle_Qle. lia. }
  destruct (after_tick_brake (clock 0%nat) s n Hs) as (A & _ & C & D).
  rewrite Hv in A, C, D. rewrite Ht in C, D.
  change (Math_max (sub (Finite v) (Finite (25 # 10))) (of_Z 0))
    with (if qltb (v + - (25 # 10)) (inject_Z 0)
          then Finite (inject_Z 0) else Finite (v + - (25 # 10)))
    in A, C, D.
  change (gt (add (Finite t) step) (of_Z 2))
    with (qltb (inject_Z 2) (t + inject_Z 1 / inject_Z 30)) in C, D.
  assert (G : qltb (inject_Z 2) (t + inject_Z 1 / inject_Z 30) = false).
  { apply qltb_false. change (inject_Z 2) with 2.
    change (inject_Z 1 / inject_Z 30) with (1 # 30). lra. }
  rewrite G in C, D. cbn [orb] in C, D.
  change (inject_Z 0) with 0 in A, C, D.
  destruct (Qlt_le_dec (5 # 2) v) as [Hbig | Hsmall].
  - (* still moving after this tick *)
    assert (Q1 : qltb (v + - (25 # 10)) 0 = false)
      by (apply qltb_false; lra).
    rewrite Q1 in A, C, D.
    assert (L : le (Finite (v + - (25 # 10))) (of_Z 0) = false).
    { unfold le, of_Z. destruct (Qle_bool _ _) eqn:E; [ | reflexivity].
      apply Qle_bool_iff in E. change (inject_Z 0) with 0 in E. lra. }
    rewrite L in C, D.
    assert (HN' : (1 <= N)%nat).
    { destruct N as [ | N']; [ | lia].
      change (inject_Z (Z.of_nat 1)) with 1 in Bv. lra. }
    change (add (Finite t) step)
      with (Finite (t + inject_Z 1 / inject_Z 30)) in D.
    destruct (IH (fun i => clock (S i))
                (after_tick M random (clock 0%nat) s n)
                (snd (fst (tick M random (clock 0%nat) s n)))
                (v + - (25 # 10)) (t + inject_Z 1 / inject_Z 30)
                C A) as (k & Bk & K1 & K2 & K3).
    + rewrite EN in Bv. lra.
    + exact D.
    + change (inject_Z 1 / inject_Z 30) with (1 # 30). lra.
    + rewrite EN in Bn. change (inject_Z 1 / inject_Z 30) with (1 # 30). lra.
    + exact HN'.
    + exists (S k). unfold after_tick in K1, K2, K3.
      rewrite ticks_shift.
      split; [lia | split; [exact K1 | split; [exact K2 | ]]].
      intros [ | j] Hj; [exact Hs | ].
      rewrite ticks_shift. apply K3. lia.
  - (* this tick brings the speed to 0 *)
    exists 1%nat.
    assert (E1 : fst (ticks M random clock 1 s n)
                 = after_tick M random (clock 0%nat) s n).
    { rewrite ticks_succ. reflexivity. }
    rewrite E1.
    split; [lia | ].
    destruct (qltb (v + - (25 # 10)) 0) eqn:Q1.
    + rewrite A, C. cbn. repeat split.
      intros j Hj. assert (j = 0%nat) by lia. subst j. exact Hs.
    + apply qltb_false in Q1.
      assert (L : le (Finite (v + - (25 # 10))) (of_Z 0) = true).
      { unfold le, of_Z. apply Qle_bool_iff. change (inject_Z 0) with 0.
        lra. }
      rewrite L in C. rewrite A, C. cbn [num_eq].
      split; [reflexivity | split; [lra | ]].
      intros j Hj. assert (j = 0%nat) by lia. subst j. exact Hs.
Qed.

(** X14.  A braking phase always ends at a standstill.  Entered with a
    speed of at most 15 and at most 1 s on the scenario clock ([tick]
    and [triggerBrake] enter it at 0), the [brake] scenario lasts between
    one and six ticks and then turns to [stop] with the speed at 0: the
    way out to [cruise] after 2 seconds is never taken. *)
Theorem brake_phase_ends_stopped (clock : nat -> Z) (s : SensorSimulator)
  (n : nat) (v t : Q) :
  scenario s = brake ->
  speed s = Finite v ->
  0 <= v <= 15 ->
  scenarioTime s = Finite t ->
  0 <= t <= 1 ->
  exists k : nat,
    (1 <= k <= 6)%nat
    /\ scenario (fst (ticks M random clock k s n)) = stop
    /\ speed (fst (ticks M random clock k s n)) ~= Finite 0
    /\ forall j : nat,
         (j < k)%nat ->
         scenario (fst (ticks M random clock j s n)) = brake.
Proof.
  intros Hs Hv Bv Ht Bt.
  apply (brake_run 6 clock s n v t Hs Hv); try assumption.
  - change (inject_Z (Z.of_nat 6)) with 6. lra.
  - lra.
  - change (inject_Z (Z.of_nat 6)) with 6. lra.
  - lia.
Qed.

End SimulatorPhases.

Section SimulatorPhaseExamples.

Import JS Samples Simulator.

Lemma tick_keeps_headings_wrapped_witness :
  let s := set_bearing (of_Z 725) (set_azimuth (of_Z (-10)) Simulator.new) in
  scenario s = cruise
  /\ is_heading
       (bearing (after_tick Inputs.circle_math Inputs.halves 0 s 0))
  /\ is_heading
       (azimuth (after_tick Inputs.circle_math Inputs.halves 0 s 0)).
Proof.
  cbv zeta. split; [reflexivity | ].
  assert (Hsin : forall x : number,
             is_finite x = true ->
             is_finite (Math_sin Inputs.circle_math x) = true).
  { intros [q | | | ] H; [reflexivity | | | ]; discriminate H. }
  destruct (tick_keeps_headings_wrapped Inputs.circle_math Inputs.halves 0%Z
              (set_bearing (of_Z 725)
                 (set_azimuth (of_Z (-10)) Simulator.new))
              0%nat Hsin eq_refl eq_refl eq_refl) as (A & B & _).
  split; [exact A | exact B].
Defined.

Lemma brake_phase_ends_stopped_witness :
  exists k : nat,
    (1 <= k <= 6)%nat
    /\ scenario
         (fst (ticks Inputs.flat_math Inputs.halves Inputs.clock33 k
                 (triggerBrake (set_speed (of_Z 12) Simulator.new)) 0))
       = stop
    /\ speed
         (fst (ticks Inputs.flat_math Inputs.halves Inputs.clock33 k
                 (triggerBrake (set_speed (of_Z 12) Simulator.new)) 0))
       ~= Finite 0
    /\ forall j : nat,
         (j < k)%nat ->
         scenario
           (fst (ticks Inputs.flat_math Inputs.halves Inputs.clock33 j
                   (triggerBrake (set_speed (of_Z 12) Simulator.new)) 0))
         = brake.
Proof.
  apply (brake_phase_ends_stopped Inputs.flat_math Inputs.halves
           Inputs.clock33
           (triggerBrake (set_speed (of_Z 12) Simulator.new)) 0%nat
           (inject_Z 12) 0 eq_refl eq_refl).
  - split; discriminate.
  - reflexivity.
  - split; discriminate.
Defined.

End SimulatorPhaseExamples.

Section SimulatorStopPhase.

Import JS Samples Simulator.

Variable M : MathLib.
Variable random : nat -> number.

(** One tick in the [stop] scenario. *)
Lemma after_tick_stop (now : Z) (s : SensorSimulator) (n : nat) :
  scenario s = stop ->
  let s' := after_tick M random now s n in
  let elapsed := add (scenarioTime s) step in
  speed s' = of_Z 0
  /\ acceleration s' = of_Z 0
  /\ scenario s' = (if gt elapsed (of_Z 3) then accelerate else stop)
  /\ scenarioTime s' = (if gt elapsed (of_Z 3) then Finite 0 else elapsed)
  /\ latitude s' = latitude s
  /\ longitude s' = longitude s.
Proof.
  intros H. cbv zeta. unfold after_tick, tick.
  change (set_scenarioTime _ (set_time _ s)) with (clocked s).
  unfold updateScenario.
  change (scenario (clocked s)) with (scenario s). rewrite H.
  simulator_fields.
  change (scenarioTime (clocked s)) with (add (scenarioTime s) step).
  destruct (gt (add (scenarioTime s) step) (of_Z 3)); simulator_fields;
    unfold updatePosition; simulator_fields;
    change (le (of_Z 0) (of_Z 0)) with true; cbv iota;
    match goal with
    | |- context [sendUpdates ?r ?t ?x ?k] => destruct (sendUpdates r t x k)
    end; simulator_fields; repeat split; try reflexivity; exact H.
Qed.

Lemma parked_step (now : Z) (k : nat) (s0 s : SensorSimulator) (n : nat) :
  (k < 90)%nat ->
  parked_for k s0 s ->
  parked_for (S k) s0 (after_tick M random now s n)
  /\ speed (after_tick M random now s n) = of_Z 0.
Proof.
  intros Hk (Hs & Ht & Hla & Hlo).
  destruct (after_tick_stop now s n Hs) as (A & _ & C & D & E & F).
  destruct (scenarioTime s) as [t | | | ] eqn:Et; try contradiction.
  cbn [num_eq] in Ht.
  assert (Hk' : inject_Z (Z.of_nat (S k)) == inject_Z (Z.of_nat k) + 1).
  { rewrite Nat2Z.inj_succ. unfold Z.succ. rewrite inject_Z_plus.
    reflexivity. }
  assert (Hb : inject_Z (Z.of_nat k) <= 89).
  { change 89 with (inject_Z 89). rewrite <- Zle_Qle. lia. }
  assert (G : gt (add (Finite t) step) (of_Z 3) = false).
  { change (gt (add (Finite t) step) (of_Z 3))
      with (qltb (inject_Z 3) (t + inject_Z 1 / inject_Z 30)).
    apply qltb_false. change (inject_Z 3) with 3.
    change (inject_Z 1 / inject_Z 30) with (1 # 30). lra. }
  rewrite G in C, D.
  split; [ | exact A].
  split; [exact C | split; [ | split]].
  - rewrite D.
    change (add (Finite t) step)
      with (Finite (t + inject_Z 1 / inject_Z 30)).
    cbn [num_eq]. change (inject_Z 1 / inject_Z 30) with (1 # 30). lra.
  - rewrite E. exact Hla.
  - rewrite F. exact Hlo.
Qed.

Lemma parked_run (clock : nat -> Z) (s : SensorSimulator) (n : nat)
  (k : nat) :
  parked_for 0 s s ->
  (k <= 90)%nat ->
  parked_for k s (fst (ticks M random clock k s n))
  /\ ((1 <= k)%nat -> speed (fst (ticks M random clock k s n)) = of_Z 0).
Proof.
  intros H0. induction k as [ | k IH]; intros Hk.
  - split; [exact H0 | lia].
  - rewrite ticks_succ.
    destruct (IH ltac:(lia)) as (P & _).
    destruct (parked_step (clock k) k s _
                (snd (ticks M random clock k s n)) ltac:(lia) P) as (A & B).
    split; [exact A | intros _; exact B].
Qed.

(** X15.  A standstill lasts 3 simulated seconds and moves nothing.
    Entered with the scenario clock at 0, the [stop] scenario holds for
    90 ticks, during which the speed is 0 and latitude and longitude stay
    where they were; the 91st tick, the first past 3 seconds, starts an
    [accelerate] phase from rest, at the same place and with the scenario
    clock back at 0. *)
Theorem stop_phase_holds_position (clock : nat -> Z) (s : SensorSimulator)
  (n : nat) :
  scenario s = stop ->
  scenarioTime s ~= Finite 0 ->
  (forall k : nat,
      (1 <= k <= 90)%nat ->
      let sk := fst (ticks M random clock k s n) in
      scenario sk = stop
      /\ speed sk = of_Z 0
      /\ latitude sk = latitude s
      /\ longitude sk = longitude s)
  /\ (let s91 := fst (ticks M random clock 91 s n) in
      scenario s91 = accelerate
      /\ speed s91 = of_Z 0
      /\ scenarioTime s91 = Finite 0
      /\ latitude s91 = latitude s
      /\ longitude s91 = longitude s).
Proof.
  intros Hs Ht.
  assert (H0 : parked_for 0 s s).
  { split; [exact Hs | split; [ | split; reflexivity]].
    destruct (scenarioTime s); try contradiction. cbn [num_eq] in *.
    change (inject_Z (Z.of_nat 0)) with 0. lra. }
  split.
  - intros k Hk sk.
    destruct (parked_run clock s n k H0 ltac:(lia)) as ((A & _ & C & D) & B).
    unfold sk. repeat split; try assumption. apply B. lia.
  - cbv zeta. rewrite ticks_succ.
    destruct (parked_run clock s n 90 H0 (Nat.le_refl _))
      as ((A & T & C & D) & _).
    destruct (after_tick_stop (clock 90%nat) _
                (snd (ticks M random clock 90 s n)) A)
      as (A' & _ & C' & D' & E' & F').
    destruct (scenarioTime (fst (ticks M random clock 90 s n)))
      as [t | | | ] eqn:Et; try contradiction.
    cbn [num_eq] in T. change (inject_Z (Z.of_nat 90)) with 90 in T.
    assert (G : gt (add (Finite t) step) (of_Z 3) = true).
    { change (gt (add (Finite t) step) (of_Z 3))
        with (qltb (inject_Z 3) (t + inject_Z 1 / inject_Z 30)).
      apply qltb_true. change (inject_Z 3) with 3.
      change (inject_Z 1 / inject_Z 30) with (1 # 30). lra. }
    rewrite G in C', D'.
    split; [exact C' | split; [exact A' | split; [exact D' | split]]].
    + rewrite E'. exact C.
    + rewrite F'. exact D.
Qed.

(** Rounding does not change the tick at which the standstill ends: in
    binary64 too the elapsed time exceeds 3 after 91 additions of
    [1 / 30], and not after 90. *)
Remark binary64_elapsed_crosses_3 :
  PrimFloat.ltb 3%float (binary64_elapsed 90) = false
  /\ PrimFloat.ltb 3%float (binary64_elapsed 91) = true.
Proof. split; vm_compute; reflexivity. Qed.

End SimulatorStopPhase.

Section SimulatorStopPhaseExamples.

Import JS Samples Simulator.

Lemma stop_phase_holds_position_witness :
  let s := set_scenario stop Simulator.new in
  scenario (fst (ticks Inputs.flat_math Inputs.halves Inputs.clock33 91 s 0))
  = accelerate
  /\ latitude
       (fst (ticks Inputs.flat_math Inputs.halves Inputs.clock33 91 s 0))
     = latitude s.
Proof.
  cbv zeta.
  destruct (stop_phase_holds_position Inputs.flat_math Inputs.halves
              Inputs.clock33 (set_scenario stop Simulator.new) 0%nat
              eq_refl (Qeq_refl 0)) as (_ & A & _ & _ & B & _).
  split; [exact A | exact B].
Defined.

End SimulatorStopPhaseExamples.

Section SimulatorSamples.

Import JS Samples Simulator.

Variable M : MathLib.
Variable random : nat -> number.

(** X16.  The motion sample of a tick carries the scenario's
    acceleration untouched in [forward]; the jitter goes to the three
    axes only.  With random draws in [[0, 1)], the axes [x] and [z] are
    one same noise, from -0.25 to below 0.25, [y] is the acceleration
    plus that noise, and the magnitude lies between the absolute
    acceleration and half a unit more.  The upper end is included: in
    binary64 a draw just below 1 reaches it, see
    [binary64_magnitude_reaches_bound]. *)
Theorem motion_sample_noise (now : Z) (s : SensorSimulator) (n : nat)
  (a r1 r2 : Q) :
  onMotionUpdate s = true ->
  acceleration s = Finite a ->
  random n = Finite r1 ->
  random (S n) = Finite r2 ->
  0 <= r1 < 1 ->
  0 <= r2 < 1 ->
  exists (earlier : list Delivery) (noise mag : Q),
    fst (sendUpdates random now s n)
    = earlier
      ++ [MotionUpdate
            {| x := Finite noise;
               y := add (Finite a) (Finite noise);
               z := Finite noise;
               magnitude := Finite mag;
               forward := Finite a |}]
    /\ - (1 # 4) <= noise < 1 # 4
    /\ Qabs a <= mag <= Qabs a + (1 # 2).
Proof.
  intros Hcb Ha H1 H2 B1 B2.
  unfold sendUpdates. rewrite Hcb, Ha, H1, H2. cbn [fst].
  rewrite app_assoc.
  eexists. exists ((r1 + - (5 # 10)) * (5 # 10)).
  exists (Qabs a + r2 * (5 # 10)).
  split; [reflexivity | split; lra].
Qed.

(** With an acceleration of -7 and a draw of [1 - 2^-53], the largest
    below 1, the magnitude computed in binary64 is 7.5. *)
Remark binary64_magnitude_reaches_bound :
  Binary64.magnitude (-7)%float 0x1.fffffffffffffp-1%float = 7.5%float.
Proof. vm_compute. reflexivity. Qed.

(** X17.  [start] then [stop] is a round trip: a simulator that is not
    running is left exactly as it was, the interval it armed is gone from
    the page (the others are untouched), and if the page still fires the
    cancelled interval, [tick] does not run.  Starting twice arms one
    interval only. *)
Theorem start_then_stop (s : SensorSimulator) (t : Timers) (now : Z)
  (n : nat) :
  isRunning s = false ->
  intervalId s = None ->
  ~ In (next_interval t) (intervals t) ->
  let started := start s t in
  let stopped := stop_ (fst started) (snd started) in
  fst stopped = s
  /\ intervals (snd stopped) = intervals t
  /\ fire M random (next_interval t) now (fst stopped) (snd stopped) n
     = (s, n, [])
  /\ start (fst started) (snd started) = started.
Proof.
  intros Hr Hi Hfresh started stopped.
  assert (Es : started
               = (set_intervalId (Some (next_interval t))
                    (set_isRunning true s),
                  {| intervals := next_interval t :: intervals t;
                     next_interval := Pos.succ (next_interval t) |})).
  { unfold started, start. rewrite Hr. reflexivity. }
  assert (Ef : filter (fun i => negb (Pos.eqb i (next_interval t)))
                 (intervals t) = intervals t).
  { clear - Hfresh. induction (intervals t) as [ | i l IH]; [reflexivity | ].
    cbn [filter]. destruct (Pos.eqb i (next_interval t)) eqn:E.
    - apply Pos.eqb_eq in E. exfalso. apply Hfresh. left. exact E.
    - cbn [negb]. rewrite IH; [reflexivity | ].
      intros H. apply Hfresh. right. exact H. }
  assert (Ep : stopped
               = (s, {| intervals := intervals t;
                        next_interval := Pos.succ (next_interval t) |})).
  { unfold stopped. rewrite Es. unfold stop_. simulator_fields.
    cbn [intervals next_interval filter]. rewrite Pos.eqb_refl. cbn [negb].
    rewrite Ef. destruct s. cbn in Hr, Hi. subst. reflexivity. }
  rewrite Ep. cbn [fst snd intervals].
  split; [reflexivity | split; [reflexivity | split]].
  - unfold fire. cbn [intervals].
    replace (existsb (Pos.eqb (next_interval t)) (intervals t)) with false;
      [reflexivity | ].
    symmetry. apply not_true_is_false. intros H.
    apply existsb_exists in H. destruct H as (i & Hin & E).
    apply Pos.eqb_eq in E. subst i. exact (Hfresh Hin).
  - rewrite Es. reflexivity.
Qed.

End SimulatorSamples.

Section SimulatorSampleExamples.

Import JS Samples Simulator.

Lemma motion_sample_noise_witness :
  exists (earlier : list Delivery) (noise mag : Q),
    fst (sendUpdates Inputs.halves 0
           (set_acceleration (Finite (- (7))) (install_callbacks Simulator.new))
           0)
    = earlier
      ++ [MotionUpdate
            {| x := Finite noise;
               y := add (Finite (- (7))) (Finite noise);
               z := Finite noise;
               magnitude := Finite mag;
               forward := Finite (- (7)) |}]
    /\ - (1 # 4) <= noise < 1 # 4
    /\ Qabs (- (7)) <= mag <= Qabs (- (7)) + (1 # 2).
Proof.
  apply (motion_sample_noise Inputs.halves 0%Z
           (set_acceleration (Finite (- (7)))
              (install_callbacks Simulator.new))
           0%nat (- (7)) (1 # 2) (1 # 2) eq_refl eq_refl eq_refl eq_refl).
  - split; [discriminate | reflexivity].
  - split; [discriminate | reflexivity].
Defined.

Lemma start_then_stop_witness :
  let t := {| intervals := [3%positive]; next_interval := 4%positive |} in
  let started := start Simulator.new t in
  let stopped := stop_ (fst started) (snd started) in
  fst stopped = Simulator.new
  /\ intervals (snd stopped) = [3%positive]
  /\ fire Inputs.flat_math Inputs.halves 4%positive 0
       (fst stopped) (snd stopped) 0
     = (Simulator.new, 0%nat, [])
  /\ start (fst started) (snd started) = started.
Proof.
  apply (start_then_stop Inputs.flat_math Inputs.halves Simulator.new
           {| intervals := [3%positive]; next_interval := 4%positive |}
           0%Z 0%nat eq_refl eq_refl).
  intros [H | H]; [discriminate H | exact H].
Defined.

End SimulatorSampleExamples.

(* ================================================================== *)
(** * From the synthetic source to the alert *)
(* ================================================================== *)

Section SimulatedBraking.

Import JS Samples Simulator.

Variable M : MathLib.
Variable random : nat -> number.

Lemma updateScenario_callbacks (s : SensorSimulator) (n : nat) :
  let u := fst (updateScenario M random s n) in
  onGpsUpdate u = onGpsUpdate s
  /\ onOrientationUpdate u = onOrientationUpdate s
  /\ onMotionUpdate u = onMotionUpdate s.
Proof.
  unfold updateScenario.
  destruct (scenario s); simulator_fields;
    repeat match goal with
           | |- context [if ?c then _ else _] => destruct c; simulator_fields
           end; repeat split.
Qed.

(** With the three callbacks installed a tick calls them in the order
    position, orientation, motion, with the state the tick leaves. *)
Lemma tick_deliveries (now : Z) (s : SensorSimulator) (n : nat) :
  onGpsUpdate s = true ->
  onOrientationUpdate s = true ->
  onMotionUpdate s = true ->
  exists (g : PositionSample) (o : OrientationSample) (mo : MotionSample),
    snd (tick M random now s n)
    = [GpsUpdate g; OrientationUpdate o; MotionUpdate mo]
    /\ Samples.speed g = Num (speed (after_tick M random now s n))
    /\ forward mo = acceleration (after_tick M random now s n).
Proof.
  intros Hg Ho Hm. unfold after_tick, tick.
  change (set_scenarioTime _ (set_time _ s)) with (clocked s).
  destruct (updateScenario_callbacks (clocked s) n) as (A & B & C).
  change (onGpsUpdate (clocked s)) with (onGpsUpdate s) in A.
  change (onOrientationUpdate (clocked s)) with (onOrientationUpdate s) in B.
  change (onMotionUpdate (clocked s)) with (onMotionUpdate s) in C.
  rewrite Hg in A. rewrite Ho in B. rewrite Hm in C.
  destruct (updateScenario M random (clocked s) n) as [u n1].
  cbn [fst] in A, B, C.
  assert (P : onGpsUpdate (updatePosition M u) = true
              /\ onOrientationUpdate (updatePosition M u) = true
              /\ onMotionUpdate (updatePosition M u) = true).
  { unfold updatePosition. destruct (le (speed u) (of_Z 0));
      simulator_fields; repeat split; assumption. }
  destruct P as (A' & B' & C').
  unfold sendUpdates. rewrite A', B', C'. cbn [fst snd app].
  eexists. eexists. eexists. split; [reflexivity | split; reflexivity].
Qed.

Lemma handleMotionUpdate_enters (now : Z) (fault : bool)
  (data : MotionSample) (a : App.VelocitatsApp) :
  App.isBraking a = false ->
  gt (App.currentSpeed a) (App.SPEED_THRESHOLD a) = true ->
  lt (forward data) (App.BRAKE_THRESHOLD a) = true ->
  App.isBraking (fst (App.handleMotionUpdate now fault data a)) = true
  /\ snd (App.handleMotionUpdate now fault data a) = [App.BrakeAlert]
  /\ App.brakeIndicator_hidden
       (App.elements (fst (App.handleMotionUpdate now fault data a)))
     = false
  /\ App.audio (fst (App.handleMotionUpdate now fault data a))
     = snd (Audio.playBrakeAlert now fault (App.audio a)).
Proof.
  intros Hb Hs Ha. unfold App.handleMotionUpdate.
  set (s := App.updateStatusIndicator _ _ _ _).
  assert (Hs' : App.currentSpeed s = App.currentSpeed a
                /\ App.SPEED_THRESHOLD s = App.SPEED_THRESHOLD a
                /\ App.BRAKE_THRESHOLD s = App.BRAKE_THRESHOLD a
                /\ App.isBraking s = App.isBraking a
                /\ App.audio s = App.audio a).
  { unfold s.
    destruct (lt (forward data) (neg (of_Z 2)));
      [ | destruct (gt (forward data) (of_Z 2)) ];
      repeat split; reflexivity. }
  destruct Hs' as (H1 & H2 & H3 & H4 & H5).
  unfold App.checkBraking. rewrite H1, H2, H3, H4, Hs, Ha, Hb.
  cbn [andb negb fst snd]. rewrite <- H5.
  split; [reflexivity | ]. split; [reflexivity | ].
  split; reflexivity.
Qed.

(** X18.  The simulator exercises the alert end to end.  When a tick is
    spent braking from more than 3 m/s and its three samples are handed
    to an application that is not braking and has the default thresholds
    (0.5 m/s and -2.0 m/s2), the application stores the reduced speed,
    enters the braking state, requests exactly one alert and shows the
    indicator: its audio engine is the one a single call of
    [playBrakeAlert] leaves, the position and orientation samples having
    left it alone. *)
Theorem simulated_braking_raises_alert (now : Z) (fault : bool)
  (s : SensorSimulator) (n : nat) (a : App.VelocitatsApp) (v : Q) :
  scenario s = brake ->
  speed s = Finite v ->
  3 < v ->
  onGpsUpdate s = true ->
  onOrientationUpdate s = true ->
  onMotionUpdate s = true ->
  App.isBraking a = false ->
  App.SPEED_THRESHOLD a = Finite (5 # 10) ->
  App.BRAKE_THRESHOLD a = Finite (- (20 # 10)) ->
  let samples := snd (tick M random now s n) in
  let result := feed (map (mkInput now fault) samples) a in
  App.currentSpeed (fst result) = Finite (v + - (25 # 10))
  /\ App.isBraking (fst result) = true
  /\ snd result = [App.BrakeAlert]
  /\ App.brakeIndicator_hidden (App.elements (fst result)) = false
  /\ App.audio (fst result)
     = snd (Audio.playBrakeAlert now fault (App.audio a)).
Proof.
  intros Hs Hv Bv Hg Ho Hm Hb Hst Hbt samples result.
  destruct (tick_deliveries now s n Hg Ho Hm) as (g & o & mo & E & Eg & Em).
  destruct (after_tick_brake M random now s n Hs) as (A & B & _).
  rewrite Hv in A.
  change (Math_max (sub (Finite v) (Finite (25 # 10))) (of_Z 0))
    with (if qltb (v + - (25 # 10)) (inject_Z 0)
          then Finite (inject_Z 0) else Finite (v + - (25 # 10))) in A.
  replace (qltb (v + - (25 # 10)) (inject_Z 0)) with false in A
    by (symmetry; apply qltb_false; change (inject_Z 0) with 0; lra).
  rewrite A in Eg. rewrite B in Em.
  unfold result, samples. rewrite E.
  cbn [map feed App.deliver input_now input_fault input_delivery].
  set (a1 := App.handleGpsUpdate g a).
  set (a2 := App.handleOrientationUpdate o a1).
  assert (S1 : App.currentSpeed a1 = Finite (v + - (25 # 10))
               /\ App.isBraking a1 = false
               /\ App.SPEED_THRESHOLD a1 = Finite (5 # 10)
               /\ App.BRAKE_THRESHOLD a1 = Finite (- (20 # 10))
               /\ App.audio a1 = App.audio a).
  { unfold a1, App.handleGpsUpdate. rewrite Eg.
    assert (T : or_else (Num (Finite (v + - (25 # 10)))) (Num (Finite 0))
                = Num (Finite (v + - (25 # 10)))).
    { unfold or_else, truthy, qzero.
      destruct (Qeq_bool (v + - (25 # 10)) 0) eqn:Z; [ | reflexivity].
      apply Qeq_bool_iff in Z. lra. }
    rewrite T.
    destruct (present (Samples.bearing g)); cbn;
      repeat split; try assumption; reflexivity. }
  destruct S1 as (C1 & C2 & C3 & C4 & C5).
  assert (S2 : App.currentSpeed a2 = Finite (v + - (25 # 10))
               /\ App.isBraking a2 = false
               /\ App.SPEED_THRESHOLD a2 = Finite (5 # 10)
               /\ App.BRAKE_THRESHOLD a2 = Finite (- (20 # 10))
               /\ App.audio a2 = App.audio a).
  { unfold a2, App.handleOrientationUpdate.
    destruct (negb (isFinite (Samples.azimuth o))); cbn; repeat split;
      assumption. }
  destruct S2 as (D1 & D2 & D3 & D4 & D5).
  destruct (handleMotionUpdate_enters now fault mo a2 D2)
    as (R1 & R2 & R3 & R4).
  { rewrite D1, D3. unfold gt, lt. apply qltb_true. lra. }
  { rewrite Em, D4. unfold lt, neg. apply qltb_true. lra. }
  assert (K : App.currentSpeed (fst (App.handleMotionUpdate now fault mo a2))
              = App.currentSpeed a2).
  { unfold App.handleMotionUpdate, App.checkBraking.
    repeat match goal with
           | |- context [if ?c then _ else _] => destruct c
           end; reflexivity. }
  destruct (App.handleMotionUpdate now fault mo a2) as [a3 r3].
  cbn [fst snd app] in *. rewrite app_nil_r.
  split; [rewrite K; exact D1 | ].
  split; [exact R1 | ]. split; [exact R2 | ]. split; [exact R3 | ].
  rewrite R4, D5. reflexivity.
Qed.

End SimulatedBraking.

Section SimulatedBrakingExamples.

Import JS Samples Simulator.

Lemma simulated_braking_raises_alert_witness :
  let s := triggerBrake (set_speed (of_Z 12) (install_callbacks Simulator.new)) in
  let samples := snd (tick Inputs.flat_math Inputs.halves 1000 s 0) in
  let a := App.set_audio (Inputs.armed 0) (App.new Inputs.blank_page) in
  let result := feed (map (mkInput 1000 false) samples) a in
  App.currentSpeed (fst result) = Finite (inject_Z 12 + - (25 # 10))
  /\ App.isBraking (fst result) = true
  /\ snd result = [App.BrakeAlert]
  /\ App.brakeIndicator_hidden (App.elements (fst result)) = false
  /\ App.audio (fst result)
     = snd (Audio.playBrakeAlert 1000 false (App.audio a)).
Proof.
  apply (simulated_braking_raises_alert Inputs.flat_math Inputs.halves
           1000%Z false
           (triggerBrake (set_speed (of_Z 12)
                            (install_callbacks Simulator.new)))
           0%nat
           (App.set_audio (Inputs.armed 0) (App.new Inputs.blank_page))
           (inject_Z 12));
    reflexivity.
Defined.

End SimulatedBrakingExamples.

(* ================================================================== *)
(** * Further properties of the application *)
(* ================================================================== *)

Section ApplicationInvariants.

Import JS Samples App.

Lemma deliver_indicator (now : Z) (fault : bool) (d : Delivery)
  (a : VelocitatsApp) :
  brakeIndicator_hidden (elements a) = negb (isBraking a) ->
  brakeIndicator_hidden (elements (fst (deliver now fault d a)))
  = negb (isBraking (fst (deliver now fault d a))).
Proof.
  intros H. destruct d as [data | data | data | sensor message];
    cbn [deliver fst].
  - unfold handleGpsUpdate.
    destruct (present (Samples.bearing data)); exact H.
  - unfold handleOrientationUpdate.
    destruct (negb (isFinite (azimuth data))); exact H.
  - unfold handleMotionUpdate, checkBraking.
    repeat match goal with
           | |- context [if ?c then _ else _] => destruct c eqn:?
           end; cbn in *; congruence.
  - unfold handleSensorError. destruct sensor; exact H.
Qed.

(** X19.  The brake indicator tells the braking state.  If the
    indicator is hidden exactly when the application is not braking (as
    on a fresh page), this stays so after any series of position,
    orientation, motion and error callbacks, in any order. *)
Theorem indicator_tracks_braking (inputs : list Input) (a : VelocitatsApp) :
  brakeIndicator_hidden (elements a) = negb (isBraking a) ->
  brakeIndicator_hidden (elements (fst (feed inputs a)))
  = negb (isBraking (fst (feed inputs a))).
Proof.
  revert a. induction inputs as [ | i rest IH]; intros a H; [exact H | ].
  cbn [feed].
  pose proof (deliver_indicator (input_now i) (input_fault i)
                (input_delivery i) a H) as H1.
  destruct (deliver (input_now i) (input_fault i) (input_delivery i) a)
    as [a1 r1].
  specialize (IH a1 H1).
  destruct (feed rest a1) as [a2 r2]. exact IH.
Qed.

Lemma indicator_tracks_braking_witness :
  let inputs :=
    [mkInput 1000 false
       (GpsUpdate (Inputs.position (Num (of_Z 5)) Null));
     mkInput 1033 false (MotionUpdate (Inputs.thrust (- (3))));
     mkInput 1066 false (SensorError orientation "Compass not available");
     mkInput 1100 false (OrientationUpdate (Inputs.heading (Num NaN)))] in
  brakeIndicator_hidden
    (elements (fst (feed inputs (App.new Inputs.blank_page))))
  = negb (isBraking (fst (feed inputs (App.new Inputs.blank_page)))).
Proof.
  exact (indicator_tracks_braking
           [mkInput 1000 false
              (GpsUpdate (Inputs.position (Num (of_Z 5)) Null));
            mkInput 1033 false (MotionUpdate (Inputs.thrust (- (3))));
            mkInput 1066 false
              (SensorError orientation "Compass not available");
            mkInput 1100 false
              (OrientationUpdate (Inputs.heading (Num NaN)))]
           (App.new Inputs.blank_page) eq_refl).
Defined.

Lemma lt_trans_const (f : number) (p q : Q) :
  p <= q -> lt f (Finite p) = true -> lt f (Finite q) = true.
Proof.
  intros H. destruct f as [x | | | ]; cbn [lt]; try discriminate;
    try reflexivity.
  rewrite !qltb_true. lra.
Qed.

Lemma gt_trans_const (f : number) (p q : Q) :
  q <= p -> gt f (Finite p) = true -> gt f (Finite q) = true.
Proof.
  intros H. unfold gt. destruct f as [x | | | ]; cbn [lt]; try discriminate;
    try reflexivity.
  rewrite !qltb_true. lra.
Qed.

(** X20.  The words and the colour of the acceleration card agree.
    After a motion sample the card is styled [braking] exactly when its
    text reads "Hard braking" or "Braking", [accelerating] exactly when
    it reads "Hard acceleration" or "Accelerating", and plain exactly
    when it reads "Steady" (the case of a NaN sample too); the hard
    variants are those beyond 5 m/s2. *)
Theorem card_matches_description (now : Z) (fault : bool)
  (data : MotionSample) (a : VelocitatsApp) :
  let page := elements (fst (handleMotionUpdate now fault data a)) in
  let f := forward data in
  (accelCard page = braking
   /\ accelStatus page
      = (if lt f (neg (of_Z 5)) then "Hard braking" else "Braking")%string
   /\ lt f (neg (of_Z 2)) = true)
  \/ (accelCard page = accelerating
      /\ accelStatus page
         = (if gt f (of_Z 5) then "Hard acceleration"
            else "Accelerating")%string
      /\ gt f (of_Z 2) = true)
  \/ (accelCard page = plain
      /\ accelStatus page = "Steady"%string
      /\ lt f (neg (of_Z 2)) = false
      /\ gt f (of_Z 2) = false).
Proof.
  cbv zeta.
  assert (C : accelCard (elements (fst (handleMotionUpdate now fault data a)))
              = (if lt (forward data) (neg (of_Z 2)) then braking
                 else if gt (forward data) (of_Z 2) then accelerating
                      else plain)
              /\ accelStatus
                   (elements (fst (handleMotionUpdate now fault data a)))
                 = getAccelDescription (forward data)).
  { unfold handleMotionUpdate, checkBraking.
    repeat match goal with
           | |- context [if ?c then _ else _] => destruct c
           end; cbn; split; reflexivity. }
  destruct C as (C1 & C2). rewrite C1, C2.
  unfold getAccelDescription.
  destruct (lt (forward data) (neg (of_Z 2))) eqn:L2.
  - left. split; [reflexivity | split; [ | reflexivity]].
    destruct (lt (forward data) (neg (of_Z 5))); reflexivity.
  - assert (L5 : lt (forward data) (neg (of_Z 5)) = false).
    { destruct (lt (forward data) (neg (of_Z 5))) eqn:L5; [ | reflexivity].
      pose proof (lt_trans_const (forward data) (- inject_Z 5)
                    (- inject_Z 2) ltac:(discriminate) L5) as T.
      change (neg (of_Z 2)) with (Finite (- inject_Z 2)) in L2.
      congruence. }
    rewrite L5.
    destruct (gt (forward data) (of_Z 2)) eqn:G2.
    + right. left. split; [reflexivity | split; [ | reflexivity]].
      destruct (gt (forward data) (of_Z 5)); reflexivity.
    + right. right.
      assert (G5 : gt (forward data) (of_Z 5) = false).
      { destruct (gt (forward data) (of_Z 5)) eqn:G5; [ | reflexivity].
        pose proof (gt_trans_const (forward data) (inject_Z 5)
                      (inject_Z 2) ltac:(discriminate) G5) as T.
        change (of_Z 2) with (Finite (inject_Z 2)) in G2.
        congruence. }
      rewrite G5. repeat split.
Qed.

End ApplicationInvariants.

Section ApplicationDrawing.

Import JS Samples App.

(** X21.  The velocity arrow stays inside its dial.  After a position
    sample with a finite speed of 0 or more, on the 200-unit view box the
    tip of the polygon is between 30 and 65, the notch between 55 and 90
    and the two base corners between 65 and 100, the tip above the notch
    and the notch above the base.  From 30 m/s on they are at 30, 55 and
    65, and at rest at 65, 90 and 100.  The bounds are whole numbers and
    rounding is monotone, so binary64 keeps them; the offsets of 25 and
    35 between the ordinates are exact only up to rounding, see
    [binary64_base_offset]. *)
Theorem velocity_polygon_stays_in_dial (data : PositionSample)
  (a : VelocitatsApp) (v : Q) :
  Samples.speed data = Num (Finite v) ->
  0 <= v ->
  let points := velocityPolygon (elements (handleGpsUpdate data a)) in
  exists t b m : Q,
    tipY points = Finite t
    /\ baseY points = Finite b
    /\ midY points = Finite m
    /\ 30 <= t <= 65
    /\ 55 <= m <= 90
    /\ 65 <= b <= 100
    /\ t < m < b
    /\ (30 <= v -> t == 30 /\ m == 55 /\ b == 65)
    /\ (v == 0 -> t == 65 /\ m == 90 /\ b == 100).
Proof.
  intros Hs Hv points.
  assert (S : exists v' : Q,
             currentSpeed
               (set_currentBearing
                  (to_number
                     (or_else (Samples.bearing data) (Num (Finite 0))))
                  (set_currentSpeed
                     (to_number
                        (or_else (Samples.speed data) (Num (Finite 0)))) a))
             = Finite v' /\ v' == v).
  { rewrite Hs. unfold or_else, truthy, qzero.
    destruct (Qeq_bool v 0) eqn:Z; cbn.
    - exists 0. split; [reflexivity | ].
      apply Qeq_bool_iff in Z. rewrite Z. reflexivity.
    - exists v. split; reflexivity. }
  destruct S as (v' & Ev & Eq).
  assert (P : points
              = {| tipY := sub (of_Z 100) (arrowLength (Finite v'));
                   baseY := add (sub (of_Z 100) (arrowLength (Finite v')))
                              (of_Z 35);
                   midY := add (sub (of_Z 100) (arrowLength (Finite v')))
                             (of_Z 25) |}).
  { unfold points, handleGpsUpdate.
    destruct (present (Samples.bearing data)); cbn; cbn in Ev; rewrite Ev;
      reflexivity. }
  rewrite P. cbn [tipY baseY midY]. rewrite arrowLength_finite.
  change (inject_Z 35) with 35. change (inject_Z 70) with 70.
  change (inject_Z 1) with 1. change (inject_Z 30) with 30.
  destruct (qltb 1 (v' / 30)) eqn:E.
  - apply qltb_true in E. unfold Qdiv in E. change (/ 30) with (1 # 30) in E.
    eexists. eexists. eexists.
    split; [reflexivity | split; [reflexivity | split; [reflexivity | ]]].
    change (inject_Z 100) with 100. change (inject_Z 25) with 25.
    change (inject_Z 35) with 35.
    repeat match goal with |- _ /\ _ => split end;
      try lra; intros; repeat split; lra.
  - apply qltb_false in E. unfold Qdiv in *.
    change (/ 30) with (1 # 30) in *.
    eexists. eexists. eexists.
    split; [reflexivity | split; [reflexivity | split; [reflexivity | ]]].
    change (inject_Z 100) with 100. change (inject_Z 25) with 25.
    change (inject_Z 35) with 35.
    repeat match goal with |- _ /\ _ => split end;
      try lra; intros; repeat split; lra.
Qed.

Lemma velocity_polygon_stays_in_dial_witness :
  let points :=
    velocityPolygon
      (elements
         (handleGpsUpdate (Inputs.position (Num (of_Z 12)) (Num (of_Z 90)))
            (App.new Inputs.blank_page))) in
  exists t b m : Q,
    tipY points = Finite t
    /\ baseY points = Finite b
    /\ midY points = Finite m
    /\ 30 <= t <= 65
    /\ 55 <= m <= 90
    /\ 65 <= b <= 100
    /\ t < m < b
    /\ (30 <= inject_Z 12 -> t == 30 /\ m == 55 /\ b == 65)
    /\ (inject_Z 12 == 0 -> t == 65 /\ m == 90 /\ b == 100).
Proof.
  apply (velocity_polygon_stays_in_dial
           (Inputs.position (Num (of_Z 12)) (Num (of_Z 90)))
           (App.new Inputs.blank_page) (inject_Z 12) eq_refl).
  discriminate.
Defined.

(** At 1 m/s binary64 draws the tip at 63.833333333333336 and the base
    corners at 98.833333333333343: the exact difference of the two is
    not 35. *)
Remark binary64_base_offset :
  let tip := Binary64.tipY 1%float in
  let base := Binary64.baseY 1%float in
  tip = 0x1.feaaaaaaaaaabp+5%float
  /\ base = 0x1.8b55555555556p+6%float
  /\ exists t b : Q,
       Binary64.to_Q tip = Some t
       /\ Binary64.to_Q base = Some b
       /\ ~ b == t + 35.
Proof.
  cbv zeta. split; [vm_compute; reflexivity | ].
  split; [vm_compute; reflexivity | ].
  eexists. eexists.
  split; [vm_compute; reflexivity | ].
  split; [vm_compute; reflexivity | ].
  intros H. vm_compute in H. discriminate H.
Qed.

(** X22.  For whole numbers of degrees the stored azimuth depends on the
    sample's azimuth modulo 360 only: an azimuth of [n] degrees is stored
    as [n] modulo 360, so two samples whose azimuths differ by whole
    turns leave the same stored azimuth and the same north arrow, and a
    whole azimuth already in [[0, 360)] is stored as it is.  On whole
    numbers every intermediate result is a whole number below 720, which
    binary64 computes exactly; on fractions of a degree the addition of
    360 rounds, see [binary64_a_turn_apart]. *)
Theorem azimuth_is_stored_modulo_360 (data1 data2 : OrientationSample)
  (a : VelocitatsApp) (n1 n2 : Z) :
  azimuth data1 = Num (of_Z n1) ->
  azimuth data2 = Num (of_Z n2) ->
  (n1 mod 360 = n2 mod 360)%Z ->
  currentAzimuth (handleOrientationUpdate data1 a) ~= of_Z (n1 mod 360)
  /\ currentAzimuth (handleOrientationUpdate data1 a)
     ~= currentAzimuth (handleOrientationUpdate data2 a)
  /\ northArrow (elements (handleOrientationUpdate data1 a))
     ~= northArrow (elements (handleOrientationUpdate data2 a))
  /\ ((0 <= n1 < 360)%Z ->
      currentAzimuth (handleOrientationUpdate data1 a) ~= of_Z n1).
Proof.
  intros H1 H2 Hm.
  assert (E1 : currentAzimuth (handleOrientationUpdate data1 a)
               = Finite (qwrap360 (inject_Z n1))
               /\ northArrow (elements (handleOrientationUpdate data1 a))
                  = Finite (- qwrap360 (inject_Z n1))).
  { unfold handleOrientationUpdate, isFinite. rewrite H1.
    split; reflexivity. }
  assert (E2 : currentAzimuth (handleOrientationUpdate data2 a)
               = Finite (qwrap360 (inject_Z n2))
               /\ northArrow (elements (handleOrientationUpdate data2 a))
                  = Finite (- qwrap360 (inject_Z n2))).
  { unfold handleOrientationUpdate, isFinite. rewrite H2.
    split; reflexivity. }
  destruct E1 as (A1 & N1). destruct E2 as (A2 & N2).
  rewrite A1, A2, N1, N2. cbn [num_eq of_Z].
  pose proof (normalized_whole _ _ n1 (Qeq_refl _)
                (qwrap360_normalized (inject_Z n1))) as U1.
  pose proof (normalized_whole _ _ n2 (Qeq_refl _)
                (qwrap360_normalized (inject_Z n2))) as U2.
  rewrite <- Hm in U2.
  split; [exact U1 | ].
  split; [rewrite U1, U2; reflexivity | ].
  split; [rewrite U1, U2; reflexivity | ].
  intros B. rewrite U1, Z.mod_small by exact B. reflexivity.
Qed.

Lemma azimuth_is_stored_modulo_360_witness :
  currentAzimuth
    (handleOrientationUpdate (Inputs.heading (Num (of_Z 10)))
       (App.new Inputs.blank_page))
  ~= currentAzimuth
       (handleOrientationUpdate (Inputs.heading (Num (of_Z (-710))))
          (App.new Inputs.blank_page)).
Proof.
  exact (proj1 (proj2 (azimuth_is_stored_modulo_360
                         (Inputs.heading (Num (of_Z 10)))
                         (Inputs.heading (Num (of_Z (-710))))
                         (App.new Inputs.blank_page) 10%Z (-710)%Z
                         eq_refl eq_refl eq_refl))).
Defined.

(** The binary64 values [- 2^-44] and [360 - 2^-44] are one turn apart,
    and are stored as 359.99999999999994 and as 0. *)
Remark binary64_a_turn_apart :
  let low := (- 0x1p-44)%float in
  let high := 0x1.67fffffffffffp+8%float in
  (exists l h : Q,
      Binary64.to_Q low = Some l /\ Binary64.to_Q high = Some h
      /\ h == l + 360)
  /\ Binary64.stored_azimuth low = 0x1.67fffffffffffp+8%float
  /\ Binary64.stored_azimuth high = 0%float.
Proof.
  cbv zeta. split.
  - eexists. eexists.
    split; [vm_compute; reflexivity | ].
    split; [vm_compute; reflexivity | ].
    vm_compute. reflexivity.
  - split; vm_compute; reflexivity.
Qed.

End ApplicationDrawing.

(* ================================================================== *)
(** * The detector and the engine together *)
(* ================================================================== *)

Section Flapping.

Import JS Samples Audio App.

(** What a motion sample does to the detector and to the engine. *)
Lemma handleMotionUpdate_detector (now : Z) (fault : bool)
  (data : MotionSample) (a : VelocitatsApp) :
  let braking := gt (currentSpeed a) (SPEED_THRESHOLD a)
                 && lt (forward data) (BRAKE_THRESHOLD a) in
  let entering := negb (isBraking a) && braking in
  let a' := fst (handleMotionUpdate now fault data a) in
  currentSpeed a' = currentSpeed a
  /\ SPEED_THRESHOLD a' = SPEED_THRESHOLD a
  /\ BRAKE_THRESHOLD a' = BRAKE_THRESHOLD a
  /\ isBraking a' = braking
  /\ audio a'
     = (if entering then snd (playBrakeAlert now fault (audio a))
        else audio a)
  /\ snd (handleMotionUpdate now fault data a)
     = (if entering then [BrakeAlert] else [])
  /\ (braking = true -> brakeIndicator_hidden (elements a') = false
                        \/ isBraking a = true).
Proof.
  cbv zeta. unfold handleMotionUpdate.
  set (s := updateStatusIndicator _ _ _ _).
  assert (Hs : currentSpeed s = currentSpeed a
               /\ SPEED_THRESHOLD s = SPEED_THRESHOLD a
               /\ BRAKE_THRESHOLD s = BRAKE_THRESHOLD a
               /\ isBraking s = isBraking a
               /\ audio s = audio a).
  { unfold s.
    destruct (lt (forward data) (neg (of_Z 2)));
      [ | destruct (gt (forward data) (of_Z 2)) ];
      repeat split; reflexivity. }
  destruct Hs as (H1 & H2 & H3 & H4 & H5).
  rewrite <- H1, <- H2, <- H3, <- H4, <- H5.
  generalize s. clear. intros s. unfold checkBraking.
  destruct (gt (currentSpeed s) (SPEED_THRESHOLD s)
            && lt (forward data) (BRAKE_THRESHOLD s)) eqn:C;
    destruct (isBraking s) eqn:B; cbn; rewrite ?B;
      repeat split; auto; discriminate.
Qed.

(** X23.  The detector has no cooldown, the engine has.  When a moving
    application with an unlocked engine sees a braking sample, a
    non-braking sample and a braking sample again, the last less than
    [debounceMs] after the first, it requests an alert both times and ends
    braking, but a single tone is started: the second request is
    debounced by the engine. *)
Theorem alerts_flap_but_tone_is_single (t1 t2 t3 : Z)
  (d1 d2 d3 : MotionSample) (a : VelocitatsApp) (ctx : AudioContext) :
  isBraking a = false ->
  isUnlocked (audio a) = true ->
  audioContext (audio a) = Some ctx ->
  (debounceMs (audio a) <= t1 - lastBeepTime (audio a))%Z ->
  (t3 - t1 < debounceMs (audio a))%Z ->
  gt (currentSpeed a) (SPEED_THRESHOLD a) = true ->
  lt (forward d1) (BRAKE_THRESHOLD a) = true ->
  lt (forward d2) (BRAKE_THRESHOLD a) = false ->
  lt (forward d3) (BRAKE_THRESHOLD a) = true ->
  let result :=
    feed [mkInput t1 false (MotionUpdate d1);
          mkInput t2 false (MotionUpdate d2);
          mkInput t3 false (MotionUpdate d3)] a in
  snd result = [BrakeAlert; BrakeAlert]
  /\ isBraking (fst result) = true
  /\ exists tone : Tone,
       tones_of (audio (fst result)) = tone :: tones_of (audio a).
Proof.
  intros Hb Hu Hc D1 D3 Hs L1 L2 L3 result.
  unfold result.
  cbn [feed deliver input_now input_fault input_delivery].
  destruct (handleMotionUpdate_detector t1 false d1 a)
    as (S1 & T1 & B1 & I1 & A1 & R1 & _).
  rewrite ?Hs, ?L1, ?Hb in I1.
  rewrite ?Hs, ?L1, ?Hb in A1.
  rewrite ?Hs, ?L1, ?Hb in R1. cbn [andb negb] in I1, A1, R1.
  destruct (handleMotionUpdate t1 false d1 a) as [a1 r1].
  cbn [fst snd] in *.
  destruct (handleMotionUpdate_detector t2 false d2 a1)
    as (S2 & T2 & B2 & I2 & A2 & R2 & _).
  rewrite ?S1, ?T1, ?B1, ?Hs, ?L2, ?I1 in I2.
  rewrite ?S1, ?T1, ?B1, ?Hs, ?L2, ?I1 in A2.
  rewrite ?S1, ?T1, ?B1, ?Hs, ?L2, ?I1 in R2.
  cbn [andb negb] in I2, A2, R2.
  destruct (handleMotionUpdate t2 false d2 a1) as [a2 r2].
  cbn [fst snd] in *.
  destruct (handleMotionUpdate_detector t3 false d3 a2)
    as (S3 & T3 & B3 & I3 & A3 & R3 & _).
  rewrite ?S2, ?T2, ?B2, ?S1, ?T1, ?B1, ?Hs, ?L3, ?I2 in I3.
  rewrite ?S2, ?T2, ?B2, ?S1, ?T1, ?B1, ?Hs, ?L3, ?I2 in A3.
  rewrite ?S2, ?T2, ?B2, ?S1, ?T1, ?B1, ?Hs, ?L3, ?I2 in R3.
  cbn [andb negb] in I3, A3, R3.
  destruct (handleMotionUpdate t3 false d3 a2) as [a3 r3].
  cbn [fst snd] in *.
  subst r1 r2 r3. split; [reflexivity | split; [exact I3 | ]].
  rewrite A3, A2, A1. unfold playBrakeAlert.
  rewrite (playBeep_plays t1 _ _ _ (audio a) ctx Hu Hc D1). cbn [snd].
  rewrite playBeep_refused.
  - cbn [snd]. unfold tones_of. rewrite Hc. cbn. eexists. reflexivity.
  - right. right. cbn [lastBeepTime debounceMs]. exact D3.
Qed.

Lemma alerts_flap_but_tone_is_single_witness :
  let a :=
    set_audio (Inputs.armed 0)
      (handleGpsUpdate (Inputs.position (Num (of_Z 5)) Null)
         (App.new Inputs.blank_page)) in
  let result :=
    feed [mkInput 5000 false (MotionUpdate (Inputs.thrust (- (3))));
          mkInput 5033 false (MotionUpdate (Inputs.thrust 0));
          mkInput 5066 false (MotionUpdate (Inputs.thrust (- (4))))] a in
  snd result = [BrakeAlert; BrakeAlert]
  /\ isBraking (fst result) = true
  /\ exists tone : Tone,
       tones_of (audio (fst result)) = tone :: tones_of (audio a).
Proof.
  apply (alerts_flap_but_tone_is_single 5000 5033 5066
           (Inputs.thrust (- (3))) (Inputs.thrust 0) (Inputs.thrust (- (4)))
           (set_audio (Inputs.armed 0)
              (handleGpsUpdate (Inputs.position (Num (of_Z 5)) Null)
                 (App.new Inputs.blank_page)))
           {| currentTime := Finite 0; tones := [] |});
    try reflexivity; discriminate.
Defined.

End Flapping.
